(** * Bitcoin-Price-App: the price and chart refresh pipeline

    A shallow embedding of the three screens of the application
    (app/(tabs)/index.tsx, its earlier revisions, and
    app/(tabs)/strategy.tsx) and the properties their specification
    states about them.

    Conventions of the embedding.

    - A JavaScript number is a [number]: an exact rational, one of the
      two infinities, or NaN.  Arithmetic on finite values is exact
      (no rounding, no overflow) and the two zeros are identified; this
      is the reading under which the specification's "within
      floating-point tolerance" becomes an equation.  Division by zero
      and the arithmetic of the special values follow IEEE 754 as
      JavaScript does.
    - A number that arrives in a JSON payload is finite, hence a [Q].
    - An [async] function is a computation in the monad [M]: it reads
      the network (an environment that gives each endpoint its
      response) and the clock, writes the state cells of the component,
      adds one-shot timers, and leaves a trace of the effects it
      performed.  It ends normally or by a thrown value.  A call runs
      to its end at one reading of the clock.
    - A React state cell read inside a function is the value captured by
      the closure of the render that created the function; a setter
      writes the cell that the next render will read. *)

From Stdlib Require Import QArith Qround ZArith List String Ascii Bool Lia Arith Sorted.
Import ListNotations.

Set Implicit Arguments.
Close Scope Q_scope.

(* ================================================================== *)
(** * JavaScript numbers *)

Module JS.

Local Open Scope Q_scope.

Inductive number : Type :=
| Fin (q : Q)
| PosInf
| NegInf
| NaN.

(** Equality of numbers as values: rationals up to [Qeq]. *)
Definition num_eq (a b : number) : Prop :=
  match a, b with
  | Fin x, Fin y => x == y
  | PosInf, PosInf => True
  | NegInf, NegInf => True
  | NaN, NaN => True
  | _, _ => False
  end.

Definition is_finite (a : number) : bool :=
  match a with Fin _ => true | _ => false end.

Definition Qsgn_pos (q : Q) : bool := Qle_bool 0 q.
Definition Qis_zero (q : Q) : bool := Qeq_bool q 0.

Definition neg (a : number) : number :=
  match a with
  | Fin q => Fin (- q)
  | PosInf => NegInf
  | NegInf => PosInf
  | NaN => NaN
  end.

(** [a + b] *)
Definition add (a b : number) : number :=
  match a, b with
  | NaN, _ | _, NaN => NaN
  | Fin x, Fin y => Fin (x + y)
  | PosInf, NegInf | NegInf, PosInf => NaN
  | PosInf, _ | _, PosInf => PosInf
  | NegInf, _ | _, NegInf => NegInf
  end.

(** [a - b] *)
Definition sub (a b : number) : number := add a (neg b).

(** [a * b] *)
Definition mul (a b : number) : number :=
  match a, b with
  | NaN, _ | _, NaN => NaN
  | Fin x, Fin y => Fin (x * y)
  | Fin x, PosInf | PosInf, Fin x =>
      if Qis_zero x then NaN else if Qsgn_pos x then PosInf else NegInf
  | Fin x, NegInf | NegInf, Fin x =>
      if Qis_zero x then NaN else if Qsgn_pos x then NegInf else PosInf
  | PosInf, PosInf | NegInf, NegInf => PosInf
  | PosInf, NegInf | NegInf, PosInf => NegInf
  end.

(** [a / b]: a finite value divided by zero is an infinity of the sign
    of the dividend, and 0 / 0 is NaN. *)
Definition div (a b : number) : number :=
  match a, b with
  | NaN, _ | _, NaN => NaN
  | Fin x, Fin y =>
      if Qis_zero y then
        if Qis_zero x then NaN else if Qsgn_pos x then PosInf else NegInf
      else Fin (x / y)
  | Fin _, PosInf | Fin _, NegInf => Fin 0
  | PosInf, Fin y => if Qsgn_pos y then PosInf else NegInf
  | NegInf, Fin y => if Qsgn_pos y then NegInf else PosInf
  | _, _ => NaN
  end.

(** [a < b] *)
Definition ltb (a b : number) : bool :=
  match a, b with
  | NaN, _ | _, NaN => false
  | Fin x, Fin y => Qle_bool x y && negb (Qeq_bool x y)
  | NegInf, NegInf => false
  | NegInf, _ => true
  | _, PosInf => match a with PosInf => false | _ => true end
  | _, _ => false
  end.

(** [a > b] *)
Definition gtb (a b : number) : bool := ltb b a.

(** [a === b] on numbers: NaN equals nothing. *)
Definition strict_eqb (a b : number) : bool :=
  match a, b with
  | Fin x, Fin y => Qeq_bool x y
  | PosInf, PosInf | NegInf, NegInf => true
  | _, _ => false
  end.

(** [a !== b] *)
Definition strict_neqb (a b : number) : bool := negb (strict_eqb a b).

(** [Math.max(...l)] and [Math.min(...l)]. *)
Definition max2 (a b : number) : number :=
  match a, b with
  | NaN, _ | _, NaN => NaN
  | _, _ => if ltb a b then b else a
  end.

Definition min2 (a b : number) : number :=
  match a, b with
  | NaN, _ | _, NaN => NaN
  | _, _ => if ltb b a then b else a
  end.

Definition Math_max (l : list number) : number := fold_left max2 l NegInf.
Definition Math_min (l : list number) : number := fold_left min2 l PosInf.

(** [x || 0] for a numeric field that may be absent: an absent field
    and a zero both give 0. *)
Definition or_zero (x : option Q) : Q :=
  match x with
  | Some q => if Qis_zero q then 0 else q
  | None => 0
  end.

End JS.

Import JS.

Declare Scope js_scope.
Delimit Scope js_scope with js.
Infix "-" := JS.sub : js_scope.
Infix "/" := JS.div : js_scope.
Infix "*" := JS.mul : js_scope.
Infix "=n=" := JS.num_eq (at level 70, no associativity).

(* ================================================================== *)
(** * The stride sampler

    [fetchChartData] reduces a series with
    [[
      const step = Math.max(1, Math.ceil(data.prices.length / T));
      const processedPrices = data.prices.filter((_, index) => index % step === 0);
    ]]
    for T = 12 (1D and 1Y), 10 (1W), 8 (1M) and 15 (ALL). *)

(** [arr.filter((_, index) => p index)], the index starting at [i]. *)
Fixpoint filter_index (A : Type) (p : nat -> bool) (i : nat) (l : list A) : list A :=
  match l with
  | [] => []
  | x :: r => if p i then x :: filter_index p (S i) r else filter_index p (S i) r
  end.

(** [Math.max(1, Math.ceil(L / T))] *)
Definition stride_step (L : nat) (T : positive) : Z :=
  Z.max 1 (Qceiling (inject_Z (Z.of_nat L) / inject_Z (Zpos T))%Q).

(** [index % step === 0] *)
Definition on_stride (step : Z) (index : nat) : bool :=
  (Z.rem (Z.of_nat index) step =? 0)%Z.

Definition stride_sample (A : Type) (T : positive) (l : list A) : list A :=
  let step := stride_step (List.length l) T in
  filter_index (on_stride step) 0 l.

(** An order-preserving subsequence: [subseq s l] when [s] is [l] with
    some elements dropped. *)
Inductive subseq (A : Type) : list A -> list A -> Prop :=
| subseq_nil : subseq [] []
| subseq_keep : forall x s l, subseq s l -> subseq (x :: s) (x :: l)
| subseq_drop : forall x s l, subseq s l -> subseq s (x :: l).

(* ================================================================== *)
(** * [parseFloat]

    The longest prefix of the trimmed string that is a decimal literal:
    an optional sign, then [Infinity] or digits with an optional
    fraction and an optional exponent.  No such prefix gives NaN. *)

Module Parse.

Definition is_white (c : ascii) : bool :=
  match nat_of_ascii c with
  | 9 | 10 | 11 | 12 | 13 | 32 => true
  | _ => false
  end.

Definition digit_of (c : ascii) : option Z :=
  let n := nat_of_ascii c in
  if (48 <=? n)%nat && (n <=? 57)%nat then Some (Z.of_nat (n - 48)) else None.

Fixpoint skip_white (s : string) : string :=
  match s with
  | String c r => if is_white c then skip_white r else s
  | EmptyString => s
  end.

(** Reads a run of digits: the value accumulated from [acc], the number
    of digits read, and the rest of the string. *)
Fixpoint digits (s : string) (acc : Z) (n : nat) : Z * nat * string :=
  match s with
  | String c r =>
      match digit_of c with
      | Some d => digits r (10 * acc + d)%Z (S n)
      | None => (acc, n, s)
      end
  | EmptyString => (acc, n, s)
  end.

Definition pow10 (e : Z) : Q :=
  if (0 <=? e)%Z then inject_Z (10 ^ e) else / inject_Z (10 ^ (- e)).

(** The exponent part [e[+-]ddd], counted only when a digit follows. *)
Definition exponent (s : string) : Z :=
  match s with
  | String c r =>
      if (nat_of_ascii c =? 101)%nat || (nat_of_ascii c =? 69)%nat then
        let '(sgn, r') :=
          match r with
          | String "+"%char r' => (1%Z, r')
          | String "-"%char r' => ((-1)%Z, r')
          | _ => (1%Z, r)
          end in
        let '(v, n, _) := digits r' 0%Z 0%nat in
        match n with O => 0%Z | _ => (sgn * v)%Z end
      else 0%Z
  | EmptyString => 0%Z
  end.

Definition unsigned_literal (s : string) : option Q :=
  let '(ip, n1, r1) := digits s 0%Z 0%nat in
  let '(fp, n2, r2) :=
    match r1 with
    | String "."%char r => digits r 0%Z 0%nat
    | _ => (0%Z, 0%nat, r1)
    end in
  match n1, n2 with
  | O, O => None
  | _, _ =>
      let mant := (inject_Z ip + inject_Z fp * pow10 (- Z.of_nat n2))%Q in
      Some (Qred (mant * pow10 (exponent r2)))
  end.

Definition signed (neg : bool) (s : string) : number :=
  if String.prefix "Infinity" s then (if neg then NegInf else PosInf)
  else match unsigned_literal s with
       | Some q => Fin (if neg then Qred (- q) else q)
       | None => NaN
       end.

Definition parseFloat (s : string) : number :=
  match skip_white s with
  | String "-"%char r => signed true r
  | String "+"%char r => signed false r
  | t => signed false t
  end.

End Parse.

(* ================================================================== *)
(** * Effects: network, state cells, timers, trace *)

(** What a [throw] carries: an [Error] object with its message, or a
    value that is not an [Error]. *)
Inductive thrown : Type :=
| ErrorObj (message : string)
| NonError.

(** The message of the [TypeError] raised by reading property [p] of
    [undefined]; the text is the engine's. *)
Definition TypeError_undefined (p : string) : thrown :=
  ErrorObj ("Cannot read property '" ++ p ++ "' of undefined").

(** The [days] parameter of the market-chart endpoint. *)
Inductive Days : Type := D1 | D7 | D30 | D365 | DMax.

Inductive Endpoint : Type :=
| CoinGeckoCoin                      (* api.coingecko.com/api/v3/coins/bitcoin?...&market_data=true... *)
| CoinGeckoSimplePrice               (* api.coingecko.com/api/v3/simple/price?ids=bitcoin&vs_currencies=usd *)
| CoinGeckoMarketChart (days : Days) (* api.coingecko.com/api/v3/coins/bitcoin/market_chart?vs_currency=usd&days=... *)
| GeminiTicker                       (* api.gemini.com/v2/ticker/btcusd *)
| AlphaVantageDaily.                 (* www.alphavantage.co/query?function=TIME_SERIES_DAILY&symbol=MSTR&apikey=... *)

(** The state cells of the screens, to name a setter in the trace. *)
Inductive cell : Type :=
| CPrice | CPreviousPrice | CLoading | CLastUpdated | CPriceColor
| CPerformanceData | CError | CChartData | CChartLoading | CMstrData.

Inductive event : Type :=
| EvFetch (e : Endpoint)
| EvParseFloat (s : string)
| EvSet (c : cell)
| EvSetTimeout (ms : Z)
| EvConsole.

(** [await fetch(url)] followed by [await response.json()] either
    rejects (no network, a body that is not JSON) or resolves to the
    parsed payload. *)
Inductive response (A : Type) : Type :=
| Rejects (e : thrown)
| Resolves (a : A).
Arguments Rejects {A} e.
Arguments Resolves {A} a.

Inductive outcome (A : Type) : Type :=
| Normal (a : A)
| Throws (e : thrown).
Arguments Normal {A} a.
Arguments Throws {A} e.

Section Monad.

(** [Net] is the network environment and [S] the record of state cells. *)
Variables Net S : Type.

Record timer : Type := mkTimer { due : Z; callback : S -> S }.

Record World : Type := mkWorld {
  cells : S;
  timers : list timer;
  clock : Z
}.

Record result (A : Type) : Type := mkResult {
  out : outcome A;
  world : World;
  log : list event
}.

Definition M (A : Type) : Type := Net -> World -> result A.

Definition ret (A : Type) (a : A) : M A :=
  fun _ w => mkResult (Normal a) w [].

Definition bind (A B : Type) (m : M A) (k : A -> M B) : M B :=
  fun net w =>
    match m net w with
    | mkResult (Normal a) w1 l1 =>
        match k a net w1 with
        | mkResult o w2 l2 => mkResult o w2 (l1 ++ l2)
        end
    | mkResult (Throws e) w1 l1 => mkResult (Throws e) w1 l1
    end.

Definition throw (A : Type) (e : thrown) : M A :=
  fun _ w => mkResult (Throws e) w [].

Definition emit (ev : event) : M unit :=
  fun _ w => mkResult (Normal tt) w [ev].

(** [try { body } catch (e) { handler e }] *)
Definition try_catch (A : Type) (body : M A) (handler : thrown -> M A) : M A :=
  fun net w =>
    match body net w with
    | mkResult (Normal a) w1 l1 => mkResult (Normal a) w1 l1
    | mkResult (Throws e) w1 l1 =>
        match handler e net w1 with
        | mkResult o w2 l2 => mkResult o w2 (l1 ++ l2)
        end
    end.

(** [try { body } finally { fin }]: [fin] runs on both exits, and a
    throw of [fin] replaces the outcome of [body]. *)
Definition try_finally (body : M unit) (fin : M unit) : M unit :=
  fun net w =>
    match body net w with
    | mkResult o w1 l1 =>
        match fin net w1 with
        | mkResult (Normal _) w2 l2 => mkResult o w2 (l1 ++ l2)
        | mkResult (Throws e) w2 l2 => mkResult (Throws e) w2 (l1 ++ l2)
        end
    end.

Definition try_catch_finally (body : M unit) (handler : thrown -> M unit)
    (fin : M unit) : M unit :=
  try_finally (try_catch body handler) fin.

(** A state setter: writes the cell and is recorded in the trace. *)
Definition set_cell (c : cell) (f : S -> S) : M unit :=
  fun _ w => mkResult (Normal tt) (mkWorld (f (cells w)) (timers w) (clock w)) [EvSet c].

(** [setTimeout(cb, ms)] *)
Definition setTimeout (cb : S -> S) (ms : Z) : M unit :=
  fun _ w =>
    mkResult (Normal tt)
             (mkWorld (cells w) (timers w ++ [mkTimer (clock w + ms) cb]) (clock w))
             [EvSetTimeout ms].

(** [new Date()] *)
Definition new_Date : M Z :=
  fun _ w => mkResult (Normal (clock w)) w [].

(** [await (await fetch(url)).json()] *)
Definition fetch_json (A : Type) (e : Endpoint) (sel : Net -> response A) : M A :=
  fun net w =>
    match sel net with
    | Resolves a => mkResult (Normal a) w [EvFetch e]
    | Rejects x => mkResult (Throws x) w [EvFetch e]
    end.

(** [parseFloat(s)], recorded in the trace. *)
Definition parseFloat (s : string) : M number :=
  fun _ w => mkResult (Normal (Parse.parseFloat s)) w [EvParseFloat s].

(** [console.log] and [console.error]. *)
Definition console : M unit := emit EvConsole.

(** [l.map(f)] for an effectful [f]. *)
Fixpoint mapM (A B : Type) (f : A -> M B) (l : list A) : M (list B) :=
  match l with
  | [] => ret []
  | x :: r => bind (f x) (fun y => bind (mapM f r) (fun ys => ret (y :: ys)))
  end.

(** Reading a property of a value that may be [undefined]. *)
Definition prop_of (A : Type) (name : string) (x : option A) : M A :=
  match x with
  | Some a => ret a
  | None => @throw A (TypeError_undefined name)
  end.

(** The timers that are due at time [t] run in the order they were
    set; the others stay pending. *)
Definition fire_due (t : Z) (w : World) : World :=
  let due_now := filter (fun tm => (due tm <=? t)%Z) (timers w) in
  let pending := filter (fun tm => negb (due tm <=? t)%Z) (timers w) in
  mkWorld (fold_left (fun s tm => callback tm s) due_now (cells w)) pending t.

End Monad.

Arguments ret {Net S A} a.
Arguments throw {Net S A} e.
Arguments emit {Net S} ev.
Arguments new_Date {Net S}.
Arguments console {Net S}.
Arguments parseFloat {Net S} s.
Arguments prop_of {Net S A} name x.
Arguments set_cell {Net S} c f.
Arguments setTimeout {Net S} cb ms.
Arguments fetch_json {Net S A} e sel.
Arguments bind {Net S A B} m k.
Arguments try_catch {Net S A} body handler.
Arguments try_finally {Net S} body fin.
Arguments try_catch_finally {Net S} body handler fin.
Arguments mapM {Net S A B} f l.

Notation "x <- m ;; k" := (bind m (fun x => k))
  (at level 61, m at next level, right associativity).
Notation "m ;;; k" := (bind m (fun _ => k))
  (at level 61, right associativity).

Local Open Scope string_scope.
Local Open Scope Z_scope.

(** [arr[i]]: [undefined] outside the array. *)
Definition js_index (A : Type) (l : list A) (i : Z) : option A :=
  if i <? 0 then None else nth_error l (Z.to_nat i).

(** [arr.slice(-n)]: the last [n] elements, all of them when there are
    fewer. *)
Definition slice_last (A : Type) (n : nat) (l : list A) : list A :=
  skipn (List.length l - n) l.

(** [arr.map((x, index) => f x index)] *)
Fixpoint mapi_from (A B : Type) (f : A -> Z -> B) (i : Z) (l : list A) : list B :=
  match l with
  | [] => []
  | x :: r => f x i :: mapi_from f (i + 1) r
  end.
Definition mapi (A B : Type) (f : A -> Z -> B) (l : list A) : list B :=
  mapi_from f 0 l.

(* ================================================================== *)
(** * Payloads of the upstream services *)

(** [market_data] of [GET /coins/bitcoin].  A field's [None] is an
    absent (or null) field; for the five nested [{usd}] objects it is
    the absence of the object. *)
Record MarketData : Type := {
  current_price : option Q;
  price_change_24h : option Q;
  price_change_percentage_24h : option Q;
  high_24h : option Q;
  low_24h : option Q;
  total_volume : option Q;
  market_cap : option Q
}.

Record CoinData : Type := { market_data : option MarketData }.

(** [GET /coins/bitcoin/market_chart]: arrays of [[timestamp, value]]. *)
Record BitcoinHistoricalData : Type := {
  prices : option (list (Q * Q));
  market_caps : option (list (Q * Q));
  total_volumes : option (list (Q * Q))
}.

(** [GET /v2/ticker/btcusd]: hourly prices, newest first, as strings. *)
Record GeminiData : Type := { changes : option (list string) }.

(** One day of [Time Series (Daily)]. *)
Record DailyBar : Type := {
  bar_open : string;    (* '1. open' *)
  bar_high : string;    (* '2. high' *)
  bar_low : string;     (* '3. low' *)
  bar_close : string;   (* '4. close' *)
  bar_volume : string   (* '5. volume' *)
}.

Record MetaData : Type := {
  meta_symbol : string;          (* '2. Symbol' *)
  meta_last_refreshed : string   (* '3. Last Refreshed' *)
}.

(** The body of the equity endpoint: the series is an object keyed by
    date, its keys in the order of the document (distinct dates); the
    keys ['Error Message'] and ['Note'] mark the soft errors. *)
Record AlphaVantageResponse : Type := {
  Meta_Data : option MetaData;
  Time_Series_Daily : option (list (string * DailyBar));
  Error_Message : option string;
  Note : option string
}.

Record Network : Type := {
  coins_bitcoin : response CoinData;
  market_chart : Days -> response BitcoinHistoricalData;
  gemini_ticker : response GeminiData;
  alpha_vantage : response AlphaVantageResponse
}.

(** [Object.keys(o)] and [o[k]] on an object given by its entries. *)
Definition Object_keys (A : Type) (o : list (string * A)) : list string := map fst o.

Definition get_key (A : Type) (o : list (string * A)) (k : option string) : option A :=
  match k with
  | Some k' =>
      match find (fun e => String.eqb (fst e) k') o with
      | Some e => Some (snd e)
      | None => None
      end
  | None => None
  end.

Definition green : string := "#22C55E".
Definition red : string := "#EF4444".

(** [error instanceof Error ? error.message : 'Failed to fetch data'] *)
Definition message_of (e : thrown) : string :=
  match e with
  | ErrorObj m => m
  | NonError => "Failed to fetch data"
  end.

(* ================================================================== *)
(** * The Bitcoin screen: state and chart types *)

Module BitcoinPerformanceData.
Record t : Type := mk {
  currentPrice : number;
  previousPrice : number;
  priceChange : number;
  priceChangePercent : number;
  high24h : number;
  low24h : number;
  volume24h : number;
  marketCap : number;
  yearlyChange : number;
  yearlyChangePercent : number;
  priceOneYearAgo : number
}.
End BitcoinPerformanceData.

Inductive TimeInterval : Type := I1D | I1W | I1M | I1Y | IALL.

(** A chart label: which formatter was applied to which value.  The
    locale formatting of a date is not unfolded further. *)
Inductive label : Type :=
| LNow                               (* 'Now' *)
| LHoursAgo (h : Z)                  (* `${hoursAgo}h` *)
| LBlank                             (* '' *)
| LTimeOfDay (ts : Q)                (* toLocaleTimeString: hour, minute *)
| LMonthDay (ts : Q)                 (* toLocaleDateString: short month, day *)
| LMonthYear (ts : Q)                (* toLocaleDateString: short month, 2-digit year *)
| LYear (ts : Q).                    (* getFullYear().toString() *)

Module ChartData.
Record t : Type := mk {
  labels : list label;
  data : list number      (* datasets[0].data *)
}.
End ChartData.

Module Home.

(** The cells of the revision with the chart; the revisions without it
    have the first seven. *)
Record State : Type := mk {
  price : option number;
  previousPrice : option number;
  loading : bool;
  lastUpdated : option Z;
  priceColor : option string;
  performanceData : option BitcoinPerformanceData.t;
  error : option string;
  chartData : option ChartData.t;
  selectedInterval : TimeInterval;
  chartLoading : bool
}.

(** The [useState] initial values. *)
Definition initial : State :=
  mk None None true None None None None None I1D false.

Definition with_price v s :=
  mk v (previousPrice s) (loading s) (lastUpdated s) (priceColor s)
     (performanceData s) (error s) (chartData s) (selectedInterval s) (chartLoading s).
Definition with_previousPrice v s :=
  mk (price s) v (loading s) (lastUpdated s) (priceColor s)
     (performanceData s) (error s) (chartData s) (selectedInterval s) (chartLoading s).
Definition with_loading v s :=
  mk (price s) (previousPrice s) v (lastUpdated s) (priceColor s)
     (performanceData s) (error s) (chartData s) (selectedInterval s) (chartLoading s).
Definition with_lastUpdated v s :=
  mk (price s) (previousPrice s) (loading s) v (priceColor s)
     (performanceData s) (error s) (chartData s) (selectedInterval s) (chartLoading s).
Definition with_priceColor v s :=
  mk (price s) (previousPrice s) (loading s) (lastUpdated s) v
     (performanceData s) (error s) (chartData s) (selectedInterval s) (chartLoading s).
Definition with_performanceData v s :=
  mk (price s) (previousPrice s) (loading s) (lastUpdated s) (priceColor s)
     v (error s) (chartData s) (selectedInterval s) (chartLoading s).
Definition with_error v s :=
  mk (price s) (previousPrice s) (loading s) (lastUpdated s) (priceColor s)
     (performanceData s) v (chartData s) (selectedInterval s) (chartLoading s).
Definition with_chartData v s :=
  mk (price s) (previousPrice s) (loading s) (lastUpdated s) (priceColor s)
     (performanceData s) (error s) v (selectedInterval s) (chartLoading s).
Definition with_chartLoading v s :=
  mk (price s) (previousPrice s) (loading s) (lastUpdated s) (priceColor s)
     (performanceData s) (error s) (chartData s) (selectedInterval s) v.

Definition Act : Type -> Type := M Network State.

Definition setPrice v : Act unit := set_cell CPrice (with_price v).
Definition setPreviousPrice v : Act unit := set_cell CPreviousPrice (with_previousPrice v).
Definition setLoading v : Act unit := set_cell CLoading (with_loading v).
Definition setLastUpdated v : Act unit := set_cell CLastUpdated (with_lastUpdated v).
Definition setPriceColor v : Act unit := set_cell CPriceColor (with_priceColor v).
Definition setPerformanceData v : Act unit := set_cell CPerformanceData (with_performanceData v).
Definition setError v : Act unit := set_cell CError (with_error v).
Definition setChartData v : Act unit := set_cell CChartData (with_chartData v).
Definition setChartLoading v : Act unit := set_cell CChartLoading (with_chartLoading v).

(** The comparison of the fetched price with the price the closure
    holds, shared by every revision of the screen:
    [[
      if (price !== null && newPrice !== price) {
        if (newPrice > price) setPriceColor('#22C55E');
        else if (newPrice < price) setPriceColor('#EF4444');
        setTimeout(() => { setPriceColor(null); }, 2000);
      }
    ]] *)
Definition flash (price : option number) (newPrice : number) : Act unit :=
  match price with
  | Some p =>
      if strict_neqb newPrice p then
        (if gtb newPrice p then setPriceColor (Some green)
         else if ltb newPrice p then setPriceColor (Some red)
         else ret tt) ;;;
        setTimeout (with_priceColor None) 2000
      else ret tt
  | None => ret tt
  end.

(** The [catch] and [finally] blocks of [fetchBitcoinData]. *)
Definition on_error (e : thrown) : Act unit :=
  console ;;; setError (Some (message_of e)).

Definition on_exit (isInitialLoad : bool) : Act unit :=
  if isInitialLoad then setLoading false else ret tt.

End Home.

(* ================================================================== *)
(** * [fetchBitcoinData], detailed strategy (app/(tabs)/index.tsx)

    [price] is the state cell as the closure captured it. *)

Module Detailed.
Import Home.

Definition snapshot (newPrice priceChange priceChangePercent high24h low24h
                     volume24h marketCap priceOneYearAgo : Q)
  : BitcoinPerformanceData.t :=
  let yearlyChange := (Fin newPrice - Fin priceOneYearAgo)%js in
  let yearlyChangePercent := ((yearlyChange / Fin priceOneYearAgo) * Fin 100)%js in
  BitcoinPerformanceData.mk
    (Fin newPrice)
    (Fin newPrice - Fin priceChange)%js
    (Fin priceChange)
    (Fin priceChangePercent)
    (Fin high24h) (Fin low24h) (Fin volume24h) (Fin marketCap)
    yearlyChange yearlyChangePercent (Fin priceOneYearAgo).

Definition body (price : option number) (isInitialLoad : bool) : Act unit :=
  (if isInitialLoad then setLoading true else ret tt) ;;;
  setError None ;;;
  detailedData <- fetch_json CoinGeckoCoin coins_bitcoin ;;
  match market_data detailedData with
  | None => throw (ErrorObj "Market data not available")
  | Some marketData =>
      newPrice <- prop_of "usd" (current_price marketData) ;;
      let priceChange := or_zero (price_change_24h marketData) in
      let priceChangePercent := or_zero (price_change_percentage_24h marketData) in
      high24h <- prop_of "usd" (high_24h marketData) ;;
      low24h <- prop_of "usd" (low_24h marketData) ;;
      volume24h <- prop_of "usd" (total_volume marketData) ;;
      marketCap <- prop_of "usd" (market_cap marketData) ;;
      yearlyData <- fetch_json (CoinGeckoMarketChart D365) (fun n => market_chart n D365) ;;
      match prices yearlyData with
      | None | Some [] => throw (ErrorObj "No historical data available")
      | Some ((_, priceOneYearAgo) :: _) =>
          let newPerformanceData :=
            snapshot newPrice priceChange priceChangePercent high24h low24h
                     volume24h marketCap priceOneYearAgo in
          flash price (Fin newPrice) ;;;
          setPreviousPrice price ;;;
          setPrice (Some (Fin newPrice)) ;;;
          setPerformanceData (Some newPerformanceData) ;;;
          now <- new_Date ;;
          setLastUpdated (Some now)
      end
  end.

Definition fetchBitcoinData (price : option number) (isInitialLoad : bool) : Act unit :=
  try_catch_finally (body price isInitialLoad) on_error (on_exit isInitialLoad).

End Detailed.

(* ================================================================== *)
(** * [fetchBitcoinData], self-derived strategy (the revision that
      reads everything from the 365-day series) *)

Module SelfDerived.
Import Home.

(** [arr[arr.length - k][1]], a [TypeError] when the element is
    [undefined]. *)
Definition second_from_end (l : list (Q * Q)) (k : Z) : Act Q :=
  e <- prop_of "1" (js_index l (Z.of_nat (List.length l) - k)) ;;
  ret (snd e).

Definition body (price : option number) (isInitialLoad : bool) : Act unit :=
  (if isInitialLoad then setLoading true else ret tt) ;;;
  setError None ;;;
  yearlyData <- fetch_json (CoinGeckoMarketChart D365) (fun n => market_chart n D365) ;;
  match prices yearlyData with
  | None | Some [] => throw (ErrorObj "No historical data available")
  | Some prices =>
      let marketCaps := market_caps yearlyData in
      let volumes := total_volumes yearlyData in
      newPrice <- second_from_end prices 1 ;;
      let last24hPrices := slice_last 48 prices in
      let high24h := Math_max (map (fun p => Fin (snd p)) last24hPrices) in
      let low24h := Math_min (map (fun p => Fin (snd p)) last24hPrices) in
      previousPriceValue <-
        (if Z.of_nat (List.length prices) >? 48
         then second_from_end prices 48
         else second_from_end prices 2) ;;
      let priceChange := (Fin newPrice - Fin previousPriceValue)%js in
      let priceChangePercent := ((priceChange / Fin previousPriceValue) * Fin 100)%js in
      priceOneYearAgo <- (e <- prop_of "1" (js_index prices 0) ;; ret (snd e)) ;;
      let yearlyChange := (Fin newPrice - Fin priceOneYearAgo)%js in
      let yearlyChangePercent := ((yearlyChange / Fin priceOneYearAgo) * Fin 100)%js in
      mc <- prop_of "length" marketCaps ;;
      latestMarketCap <- second_from_end mc 1 ;;
      vs <- prop_of "length" volumes ;;
      latestVolume <- second_from_end vs 1 ;;
      let newPerformanceData :=
        BitcoinPerformanceData.mk
          (Fin newPrice) (Fin previousPriceValue) priceChange priceChangePercent
          high24h low24h (Fin latestVolume) (Fin latestMarketCap)
          yearlyChange yearlyChangePercent (Fin priceOneYearAgo) in
      flash price (Fin newPrice) ;;;
      setPreviousPrice price ;;;
      setPrice (Some (Fin newPrice)) ;;;
      setPerformanceData (Some newPerformanceData) ;;;
      now <- new_Date ;;
      setLastUpdated (Some now)
  end.

Definition fetchBitcoinData (price : option number) (isInitialLoad : bool) : Act unit :=
  try_catch_finally (body price isInitialLoad) on_error (on_exit isInitialLoad).

End SelfDerived.

(* ================================================================== *)
(** * [fetchChartData] and [renderChart] (the revision with the chart) *)

Module Chart.
Import Home.

(** The label of the Gemini point at [index]. *)
Definition hour_label (index : Z) : label :=
  let hoursAgo := 23 - index in
  if hoursAgo =? 0 then LNow
  else if Z.rem hoursAgo 6 =? 0 then LHoursAgo hoursAgo
  else LBlank.

(** The Gemini branch of the 1D span. *)
Definition from_gemini : Act ChartData.t :=
  data <- fetch_json GeminiTicker gemini_ticker ;;
  match changes data with
  | Some (c :: cs) =>
      let prices := rev (c :: cs) in
      let labels := mapi (fun _ index => hour_label index) prices in
      values <- mapM parseFloat prices ;;
      ret (ChartData.mk labels values)
  | _ => throw (ErrorObj "No Gemini data available")
  end.

(** Fetching a CoinGecko series: the guard on [prices]. *)
Definition coingecko_prices (days : Days) : Act (list (Q * Q)) :=
  data <- fetch_json (CoinGeckoMarketChart days) (fun n => market_chart n days) ;;
  match prices data with
  | None | Some [] => throw (ErrorObj "No chart data available")
  | Some ps => ret ps
  end.

(** Sampling to about [T] points and labelling with [fmt]. *)
Definition sampled (T : positive) (fmt : Q -> label) (ps : list (Q * Q)) : ChartData.t :=
  let processedPrices := stride_sample T ps in
  let labels := map (fun item => fmt (fst item)) processedPrices in
  ChartData.mk labels (map (fun item => Fin (snd item)) processedPrices).

(** The CoinGecko fallback of the 1D span. *)
Definition from_coingecko_1D : Act ChartData.t :=
  ps <- coingecko_prices D1 ;;
  ret (sampled 12 LTimeOfDay ps).

(** [new Date(ts).toISOString()] throws a [RangeError] outside the
    range of a [Date]. *)
Definition valid_time (ts : Q) : bool :=
  Qle_bool (inject_Z (-8640000000000000)) ts && Qle_bool ts (inject_Z 8640000000000000).

Definition toISOString (ts : Q) : Act unit :=
  if valid_time ts then ret tt else throw (ErrorObj "Invalid time value").

(** The four [console.log] lines of the 1W branch. *)
Definition log_1W (ps : list (Q * Q)) : Act unit :=
  console ;;;
  first <- prop_of "0" (js_index ps 0) ;;
  toISOString (fst first) ;;;
  console ;;;
  last <- prop_of "0" (js_index ps (Z.of_nat (List.length ps) - 1)) ;;
  toISOString (fst last) ;;;
  console ;;;
  console.

Definition dayMap (interval : TimeInterval) : Days :=
  match interval with
  | I1W => D7
  | I1M => D30
  | I1Y => D365
  | _ => DMax
  end.

(** The spans other than 1D ([fetchChartData] does not take this branch
    for 1D). *)
Definition from_coingecko (interval : TimeInterval) : Act ChartData.t :=
  ps <- coingecko_prices (dayMap interval) ;;
  match interval with
  | I1W => log_1W ps ;;; ret (sampled 10 LMonthDay ps)
  | I1M => ret (sampled 8 LMonthDay ps)
  | I1Y => ret (sampled 12 LMonthYear ps)
  | _ => ret (sampled 15 LYear ps)
  end.

(** The CoinGecko series a span reads (for 1D, the fallback). *)
Definition source_days (interval : TimeInterval) : Days :=
  match interval with
  | I1D => D1
  | _ => dayMap interval
  end.

Definition body (interval : TimeInterval) : Act unit :=
  setChartLoading true ;;;
  chartData <-
    match interval with
    | I1D => try_catch from_gemini (fun geminiError => console ;;; from_coingecko_1D)
    | _ => from_coingecko interval
    end ;;
  setChartData (Some chartData).

Definition fetchChartData (interval : TimeInterval) : Act unit :=
  try_catch_finally (body interval)
    (fun error => console ;;; setChartData None)
    (setChartLoading false).

(** What [renderChart] returns. *)
Inductive ChartView : Type :=
| Spinner                            (* 'Loading chart...' *)
| Unavailable                        (* 'Chart data unavailable' *)
| LineChart (d : ChartData.t).

Definition renderChart (s : State) : ChartView :=
  if chartLoading s then Spinner
  else match chartData s with
       | None => Unavailable
       | Some d =>
           match ChartData.data d with
           | [] => Unavailable
           | _ => LineChart d
           end
       end.

(** The screen: the error panel replaces everything when [error] is a
    non-empty string; otherwise the price block, the chart section
    and the statistics are shown. *)
Record Content : Type := mkContent {
  shows_loader : bool;
  shown_price : option number;
  shown_color : option string;
  shown_performance : option BitcoinPerformanceData.t;
  shown_lastUpdated : option Z
}.

Inductive View : Type :=
| ErrorPanel (detail : string)
| Screen (content : Content) (chart : ChartView).

Definition content_of (s : State) : Content :=
  mkContent (loading s) (price s) (priceColor s) (performanceData s) (lastUpdated s).

Definition render (s : State) : View :=
  match error s with
  | Some (String c m) => ErrorPanel (String c m)
  | _ => Screen (content_of s) (renderChart s)
  end.

End Chart.

(* ================================================================== *)
(** * The equity screen (app/(tabs)/strategy.tsx) *)

Module MSTRData.
Record t : Type := mk {
  symbol : string;
  price : number;
  open : number;
  high : number;
  low : number;
  volume : string;
  lastRefreshed : string;
  priceChange : number;
  priceChangePercent : number
}.
End MSTRData.

Module Strategy.

Record State : Type := mk {
  mstrData : option MSTRData.t;
  previousPrice : option number;
  loading : bool;
  lastUpdated : option Z;
  priceColor : option string;
  error : option string
}.

Definition initial : State := mk None None true None None None.

Definition with_mstrData v s :=
  mk v (previousPrice s) (loading s) (lastUpdated s) (priceColor s) (error s).
Definition with_previousPrice v s :=
  mk (mstrData s) v (loading s) (lastUpdated s) (priceColor s) (error s).
Definition with_loading v s :=
  mk (mstrData s) (previousPrice s) v (lastUpdated s) (priceColor s) (error s).
Definition with_lastUpdated v s :=
  mk (mstrData s) (previousPrice s) (loading s) v (priceColor s) (error s).
Definition with_priceColor v s :=
  mk (mstrData s) (previousPrice s) (loading s) (lastUpdated s) v (error s).
Definition with_error v s :=
  mk (mstrData s) (previousPrice s) (loading s) (lastUpdated s) (priceColor s) v.

Definition Act : Type -> Type := M Network State.

Definition setMstrData v : Act unit := set_cell CMstrData (with_mstrData v).
Definition setPreviousPrice v : Act unit := set_cell CPreviousPrice (with_previousPrice v).
Definition setLoading v : Act unit := set_cell CLoading (with_loading v).
Definition setLastUpdated v : Act unit := set_cell CLastUpdated (with_lastUpdated v).
Definition setPriceColor v : Act unit := set_cell CPriceColor (with_priceColor v).
Definition setError v : Act unit := set_cell CError (with_error v).

Definition symbol_not_found : string := "Invalid API call or symbol not found".
Definition rate_limit : string := "API call frequency limit reached".
Definition missing_series : string := "No time series data available".

Definition flash (previousPrice : option number) (currentPrice : number) : Act unit :=
  match previousPrice with
  | Some p =>
      if strict_neqb currentPrice p then
        (if gtb currentPrice p then setPriceColor (Some green)
         else if ltb currentPrice p then setPriceColor (Some red)
         else ret tt) ;;;
        setTimeout (with_priceColor None) 2000
      else ret tt
  | None => ret tt
  end.

(** The part of the [try] block after the three guards. *)
Definition parse_series (previousPrice : option number) (data : AlphaVantageResponse)
    (timeSeries : list (string * DailyBar)) : Act unit :=
  let latestDate := js_index (Object_keys timeSeries) 0 in
  let latestData := get_key timeSeries latestDate in
  let dates := Object_keys timeSeries in
  let previousDate := js_index dates 1 in
  let previousData := get_key timeSeries previousDate in
  latest <- prop_of "4. close" latestData ;;
  currentPrice <- parseFloat (bar_close latest) ;;
  previousClose <-
    match previousData with
    | Some pd => parseFloat (bar_close pd)
    | None => parseFloat (bar_open latest)
    end ;;
  let priceChange := (currentPrice - previousClose)%js in
  let priceChangePercent := ((priceChange / previousClose) * Fin 100%Q)%js in
  meta <- prop_of "2. Symbol" (Meta_Data data) ;;
  o <- parseFloat (bar_open latest) ;;
  h <- parseFloat (bar_high latest) ;;
  l <- parseFloat (bar_low latest) ;;
  let newMstrData :=
    MSTRData.mk (meta_symbol meta) currentPrice o h l (bar_volume latest)
                (meta_last_refreshed meta) priceChange priceChangePercent in
  flash previousPrice currentPrice ;;;
  setPreviousPrice (Some currentPrice) ;;;
  setMstrData (Some newMstrData) ;;;
  now <- new_Date ;;
  setLastUpdated (Some now).

Definition body (previousPrice : option number) (isInitialLoad : bool) : Act unit :=
  (if isInitialLoad then setLoading true else ret tt) ;;;
  setError None ;;;
  data <- fetch_json AlphaVantageDaily alpha_vantage ;;
  match Error_Message data with
  | Some _ => throw (ErrorObj symbol_not_found)
  | None =>
      match Note data with
      | Some _ => throw (ErrorObj rate_limit)
      | None =>
          match Time_Series_Daily data with
          | None => throw (ErrorObj missing_series)
          | Some timeSeries => parse_series previousPrice data timeSeries
          end
      end
  end.

Definition fetchMSTRData (previousPrice : option number) (isInitialLoad : bool) : Act unit :=
  try_catch_finally (body previousPrice isInitialLoad)
    (fun e => console ;;; setError (Some (message_of e)))
    (if isInitialLoad then setLoading false else ret tt).

End Strategy.

(* ================================================================== *)
(** * The component: which closure the timers run

    Both screens register their polling in an effect with an empty
    dependency list:
    [[
      useEffect(() => {
        fetchBitcoinData(true);
        const interval = setInterval(() => fetchBitcoinData(false), 120000);
        return () => clearInterval(interval);
      }, []);
    ]]
    The effect runs once, after the first render.  The
    [fetchBitcoinData] it calls, at once and from every tick of the
    interval, is the function created by that first render, whose
    [price] is the initial value of the cell.  Later renders create new
    functions that nothing calls. *)

Module Component.

Section Session.
Variables Net S : Type.
(** [fetcher r isInitialLoad]: the fetch function created by the
    render that saw the cells [r]. *)
Variable fetcher : S -> bool -> M Net S unit.
Variable initial : S.
Variable period : Z.

(** The function the effect captured. *)
Definition captured : bool -> M Net S unit := fetcher initial.

Definition start (t0 : Z) : World S := mkWorld initial [] t0.

(** One poll at time [t]: the one-shot timers that are due run
    first, then the captured function. *)
Definition poll (isInitialLoad : bool) (t : Z) (net : Net) (w : World S) : result S unit :=
  captured isInitialLoad net (fire_due t w).

(** The worlds after the mount and after each tick of the interval,
    the k-th poll seeing the network [nth k nets]. *)
Fixpoint ticks (t : Z) (nets : list Net) (w : World S) : list (result S unit) :=
  match nets with
  | [] => []
  | net :: rest =>
      let r := poll false (t + period) net w in
      r :: ticks (t + period) rest (world r)
  end.

Definition session (t0 : Z) (nets : list Net) : list (result S unit) :=
  match nets with
  | [] => []
  | net :: rest =>
      let r := poll true t0 net (start t0) in
      r :: ticks t0 rest (world r)
  end.
End Session.

Definition index_tsx : Z -> list Network -> list (result Home.State unit) :=
  session (fun r => Detailed.fetchBitcoinData (Home.price r)) Home.initial 120000.

Definition self_derived : Z -> list Network -> list (result Home.State unit) :=
  session (fun r => SelfDerived.fetchBitcoinData (Home.price r)) Home.initial 120000.

Definition strategy_tsx : Z -> list Network -> list (result Strategy.State unit) :=
  session (fun r => Strategy.fetchMSTRData (Strategy.previousPrice r)) Strategy.initial 300000.

End Component.

(* ================================================================== *)
(** * Sample payloads *)

Module Examples.

Definition unreachable : thrown := ErrorObj "Network request failed".

(** No service answers. *)
Definition offline : Network :=
  Build_Network (Rejects unreachable) (fun _ => Rejects unreachable)
                (Rejects unreachable) (Rejects unreachable).

(** Hourly points [[t, v]] for the values [vs], from time [t]. *)
Fixpoint hourly (t : Z) (vs : list Q) : list (Q * Q) :=
  match vs with
  | [] => []
  | v :: r => (inject_Z t, v) :: hourly (t + 3600000) r
  end.

Definition series (vs : list Q) : BitcoinHistoricalData :=
  Build_BitcoinHistoricalData (Some (hourly 1700000000000 vs))
    (Some (hourly 1700000000000 vs)) (Some (hourly 1700000000000 vs)).

(** CoinGecko quoting [usd], with a 24h change [chg] and a 24h
    percentage [pct], over the one-year series [vs]. *)
Definition quote (usd chg pct : Q) (vs : list Q) : Network :=
  Build_Network
    (Resolves (Build_CoinData (Some
       (Build_MarketData (Some usd) (Some chg) (Some pct)
                         (Some (usd + 500)%Q) (Some (usd - 1500)%Q)
                         (Some 30000000000%Q) (Some 1000000000000%Q)))))
    (fun _ => Resolves (series vs))
    (Rejects unreachable) (Rejects unreachable).

(** Gemini answers with three hourly prices, newest first; CoinGecko
    serves the series [vs]. *)
Definition gemini_day (vs : list Q) : Network :=
  Build_Network (Rejects unreachable) (fun _ => Resolves (series vs))
    (Resolves (Build_GeminiData (Some ["43000.5"; "42000"; "41000.25"])))
    (Rejects unreachable).

(** Gemini is down; CoinGecko serves the series [vs]. *)
Definition gemini_down (vs : list Q) : Network :=
  Build_Network (Rejects unreachable) (fun _ => Resolves (series vs))
    (Rejects unreachable) (Rejects unreachable).

(** Alpha Vantage answering with two trading days, the latest
    closing at [close]. *)
Definition equity (close : string) : Network :=
  Build_Network (Rejects unreachable) (fun _ => Rejects unreachable)
    (Rejects unreachable)
    (Resolves
       (Build_AlphaVantageResponse
          (Some (Build_MetaData "MSTR" "2024-01-03"))
          (Some [("2024-01-03", Build_DailyBar "600.00" "660.00" "590.00" close "1000000");
                 ("2024-01-02", Build_DailyBar "580.00" "610.00" "570.00" "600.00" "900000")])
          None None)).

Definition held (p : Q) : Home.State :=
  Home.with_price (Some (Fin p)) (Home.with_loading false Home.initial).

End Examples.

(* ================================================================== *)
(** * The vocabulary of the properties *)

(** [index] is a multiple of [s]. *)
Definition every (s : nat) (i : nat) : bool := (i mod s =? 0)%nat.

(** The endpoints requested, in order. *)
Definition requests (tr : list event) : list Endpoint :=
  flat_map (fun ev => match ev with EvFetch e => [e] | _ => [] end) tr.

(** The cells that hold published data are the same in [s'] as in [s]. *)
Definition home_data_kept (s s' : Home.State) : Prop :=
  Home.price s' = Home.price s
  /\ Home.previousPrice s' = Home.previousPrice s
  /\ Home.performanceData s' = Home.performanceData s
  /\ Home.lastUpdated s' = Home.lastUpdated s
  /\ Home.priceColor s' = Home.priceColor s.

(** The same for the equity screen. *)
Definition strategy_data_kept (s s' : Strategy.State) : Prop :=
  Strategy.mstrData s' = Strategy.mstrData s
  /\ Strategy.previousPrice s' = Strategy.previousPrice s
  /\ Strategy.lastUpdated s' = Strategy.lastUpdated s
  /\ Strategy.priceColor s' = Strategy.priceColor s.

(** Only the [loading] and [error] setters were called. *)
Definition only_status_set (tr : list event) : Prop :=
  forall c, In (EvSet c) tr -> c = CLoading \/ c = CError.

(** A flash: the colour setter was called or a one-shot timer was set. *)
Definition flashed (tr : list event) : Prop :=
  In (EvSet CPriceColor) tr \/ exists ms, In (EvSetTimeout ms) tr.

(** When [fetch], whose [try] block is [body], may flash: never with a
    null held price; only in a successful cycle whose held price is
    strictly different from the fetched one; not when they are equal. *)
Definition flash_law (body fetch : option number -> bool -> Home.Act unit) : Prop :=
  forall price isInitialLoad net w,
    let r := fetch price isInitialLoad net w in
    (price = None ->
       ~ flashed (log r)
       /\ Home.priceColor (cells (world r)) = Home.priceColor (cells w)
       /\ timers (world r) = timers w)
    /\ (flashed (log r) ->
        exists p q,
          price = Some p
          /\ out (body price isInitialLoad net w) = Normal tt
          /\ Home.price (cells (world r)) = Some q
          /\ strict_neqb q p = true)
    /\ (forall p q,
          price = Some p ->
          out (body price isInitialLoad net w) = Normal tt ->
          Home.price (cells (world r)) = Some q ->
          strict_eqb q p = true ->
          ~ flashed (log r)
          /\ Home.priceColor (cells (world r)) = Home.priceColor (cells w)
          /\ timers (world r) = timers w).

(** [parseFloat] was not called. *)
Definition no_parsing (tr : list event) : Prop := forall s, ~ In (EvParseFloat s) tr.

(** The run [r] from the world [w] parsed no number and published no
    [MSTRData] record. *)
Definition nothing_published (w : World Strategy.State) (r : result Strategy.State unit) : Prop :=
  no_parsing (log r)
  /\ ~ In (EvSet CMstrData) (log r)
  /\ Strategy.mstrData (cells (world r)) = Strategy.mstrData (cells w).

(** The response carries no usable series: [prices] is missing or empty. *)
Definition no_series (resp : response BitcoinHistoricalData) : Prop :=
  exists d, resp = Resolves d /\ (prices d = None \/ prices d = Some []).

(** The hourly source failed (the request or its decoding threw) or
    its [changes] array is missing or empty. *)
Definition gemini_unusable (resp : response GeminiData) : Prop :=
  (exists e, resp = Rejects e)
  \/ (exists d, resp = Resolves d /\ (changes d = None \/ changes d = Some [])).

(** A series in the order of its timestamps, oldest first. *)
Definition chronological (ps : list (Q * Q)) : Prop :=
  StronglySorted (fun a b => (fst a <= fst b)%Q) ps.

(** [priceChange == currentPrice - previousPrice] *)
Definition change_law (p : BitcoinPerformanceData.t) : Prop :=
  BitcoinPerformanceData.priceChange p
  =n= (BitcoinPerformanceData.currentPrice p - BitcoinPerformanceData.previousPrice p)%js.

(** [priceChangePercent == priceChange / previousPrice * 100] *)
Definition percent_law (p : BitcoinPerformanceData.t) : Prop :=
  BitcoinPerformanceData.priceChangePercent p
  =n= ((BitcoinPerformanceData.priceChange p / BitcoinPerformanceData.previousPrice p)
       * Fin 100)%js.

(** The provider's two 24h fields agree with its price: the percentage
    is the change over the price 24 hours ago. *)
Definition provider_consistent (cur : Q) (chg pct : option Q) : Prop :=
  (~ cur - or_zero chg == 0
   /\ or_zero pct == or_zero chg / (cur - or_zero chg) * 100)%Q.

(** The text whose value is the denominator on the equity screen: the
    close of the second date of the series, or, when the series has a
    single date, the open of that date. *)
Definition previous_close_text (ts : list (string * DailyBar)) (latest : DailyBar) : string :=
  match get_key ts (js_index (Object_keys ts) 1) with
  | Some pd => bar_close pd
  | None => bar_open latest
  end.

(* ================================================================== *)
(** * More of the code, and the words for its properties *)

(** The stride of a series of [L] points sampled to [T], as a count. *)
Definition step_of (L : nat) (T : positive) : nat := Z.to_nat (stride_step L T).

(** The number of points [fetchChartData] samples a CoinGecko series
    to, by span: the divisor of its [Math.ceil]. *)
Definition target_points (interval : TimeInterval) : positive :=
  match interval with
  | I1D => 12
  | I1W => 10
  | I1M => 8
  | I1Y => 12
  | IALL => 15
  end.

(* ================================================================== *)
(** * What the screens display (the helpers of the render) *)

Module Display.

(** [a >= b] *)
Definition geb (a b : number) : bool :=
  match a, b with
  | NaN, _ | _, NaN => false
  | _, _ => negb (JS.ltb a b)
  end.

(** The truth value of a number: 0 and NaN are false. *)
Definition truthy (a : number) : bool :=
  match a with
  | Fin q => negb (Qis_zero q)
  | NaN => false
  | _ => true
  end.

(** [getPriceChangeColor] *)
Definition getPriceChangeColor (performanceData : option BitcoinPerformanceData.t)
  : option string :=
  match performanceData with
  | None => None
  | Some p => Some (if geb (BitcoinPerformanceData.priceChange p) (Fin 0) then green else red)
  end.

(** [getYearlyChangeColor] *)
Definition getYearlyChangeColor (performanceData : option BitcoinPerformanceData.t)
  : option string :=
  match performanceData with
  | None => None
  | Some p => Some (if geb (BitcoinPerformanceData.yearlyChange p) (Fin 0) then green else red)
  end.

(** A number scaled for display: stands for
    [mantissa.toFixed(decimals) + suffix]. *)
Record scaled : Type := mkScaled {
  mantissa : number;
  decimals : nat;
  suffix : string
}.

(** [formatLargeNumber] *)
Definition formatLargeNumber (num : number) : scaled :=
  if geb num (Fin 1000000000000) then mkScaled (num / Fin 1000000000000)%js 2 "T"
  else if geb num (Fin 1000000000) then mkScaled (num / Fin 1000000000)%js 2 "B"
  else if geb num (Fin 1000000) then mkScaled (num / Fin 1000000)%js 1 "M"
  else if geb num (Fin 1000) then mkScaled (num / Fin 1000)%js 1 "K"
  else mkScaled num 0 "".

(** [getPriceFontSize]: [formatPrice] is the currency formatter of the
    platform ([Intl.NumberFormat]); only the length of its result is
    used. *)
Definition getPriceFontSize (formatPrice : number -> string) (screenWidth : number)
    (price : option number) : number :=
  match price with
  | None => Fin 48
  | Some p =>
      if truthy p then
        let priceText := formatPrice p in
        let baseSize := (screenWidth * Fin (12 # 100))%js in
        let adjustedSize :=
          JS.Math_min
            [baseSize;
             (screenWidth / (Fin (inject_Z (Z.of_nat (String.length priceText)))
                             * Fin (6 # 10)))%js] in
        JS.Math_max [adjustedSize; Fin 32]
      else Fin 48
  end.

(** What the price line shows: [price ? formatPrice(price) : 'N/A']. *)
Inductive PriceText : Type :=
| NotAvailable               (* 'N/A' *)
| Price (p : number).        (* formatPrice(price) *)

Definition price_text (price : option number) : PriceText :=
  match price with
  | Some p => if truthy p then Price p else NotAvailable
  | None => NotAvailable
  end.

End Display.

(* ================================================================== *)
(** * The screen with the chart: its effects

    [[
      useEffect(() => {
        fetchBitcoinData(true);
        fetchChartData(selectedInterval);
        const interval = setInterval(() => {
          fetchBitcoinData(false);
          fetchChartData(selectedInterval);
        }, 120000);
        return () => clearInterval(interval);
      }, []);

      useEffect(() => { fetchChartData(selectedInterval); }, [selectedInterval]);
    ]]
    The callback of the interval belongs to the first render: its
    [price] and its [selectedInterval] are the initial values of the
    cells.  The second effect runs in the render that follows a change
    of [selectedInterval], with the new value.  The two fetches of a
    tick are started together; here the price fetch runs first. *)

Module ChartScreen.

Definition with_selectedInterval (v : TimeInterval) (s : Home.State) : Home.State :=
  Home.mk (Home.price s) (Home.previousPrice s) (Home.loading s) (Home.lastUpdated s)
          (Home.priceColor s) (Home.performanceData s) (Home.error s) (Home.chartData s)
          v (Home.chartLoading s).

(** One tick of the interval. *)
Definition tick : Home.Act unit :=
  Detailed.fetchBitcoinData (Home.price Home.initial) false ;;;
  Chart.fetchChartData (Home.selectedInterval Home.initial).

(** A press on the button of a span: [setSelectedInterval(interval)],
    then the effect of the next render. *)
Definition select (interval : TimeInterval) : Home.Act unit :=
  fun net w =>
    Chart.fetchChartData interval net
      (mkWorld (with_selectedInterval interval (cells w)) (timers w) (clock w)).

End ChartScreen.

(** The series a chart fetch of a span leaves in the chart cell: it
    depends on the responses only. *)
Definition chart_of (interval : TimeInterval) (net : Network) : option ChartData.t :=
  Home.chartData
    (cells (world (Chart.fetchChartData interval net (mkWorld Home.initial [] 0)))).

(** The world [w] with the two cells of the chart replaced. *)
Definition with_chart (cd : option ChartData.t) (cl : bool) (w : World Home.State)
  : World Home.State :=
  mkWorld (Home.with_chartLoading cl (Home.with_chartData cd (cells w)))
          (timers w) (clock w).

(* ================================================================== *)
(** * [parseInt] and the volume of the equity screen *)

Module ParseInt.

Definition hex_digit_of (c : ascii) : option Z :=
  let n := nat_of_ascii c in
  if (48 <=? n)%nat && (n <=? 57)%nat then Some (Z.of_nat (n - 48))
  else if (97 <=? n)%nat && (n <=? 102)%nat then Some (Z.of_nat (n - 87))
  else if (65 <=? n)%nat && (n <=? 70)%nat then Some (Z.of_nat (n - 55))
  else None.

(** Reads a run of digits of the radix: the value and the number of
    digits read. *)
Fixpoint digits (radix : Z) (digit : ascii -> option Z) (s : string) (acc : Z) (n : nat)
  : Z * nat :=
  match s with
  | String c r =>
      match digit c with
      | Some d => digits radix digit r (radix * acc + d) (S n)
      | None => (acc, n)
      end
  | EmptyString => (acc, n)
  end.

(** [parseInt(s)], without a radix: leading white space and a sign are
    skipped, [0x] announces hexadecimal digits, and the longest run of
    digits is read; no digit gives NaN. *)
Definition parseInt (s : string) : number :=
  let t := Parse.skip_white s in
  let '(neg, u) :=
    match t with
    | String "-"%char r => (true, r)
    | String "+"%char r => (false, r)
    | _ => (false, t)
    end in
  let '(v, n) :=
    match u with
    | String "0"%char (String x r) =>
        if (nat_of_ascii x =? 120)%nat || (nat_of_ascii x =? 88)%nat
        then digits 16 hex_digit_of r 0 0%nat
        else digits 10 Parse.digit_of u 0 0%nat
    | _ => digits 10 Parse.digit_of u 0 0%nat
    end in
  match n with
  | O => NaN
  | _ => Fin (inject_Z (if neg then - v else v))
  end.

End ParseInt.

Module StrategyDisplay.

(** What [formatVolume] returns: a scaled number or [num.toString()]. *)
Inductive VolumeText : Type :=
| Scaled (s : Display.scaled)
| Plain (num : number).

(** [formatVolume] *)
Definition formatVolume (volume : string) : VolumeText :=
  let num := ParseInt.parseInt volume in
  if Display.geb num (Fin 1000000) then
    Scaled (Display.mkScaled (num / Fin 1000000)%js 1 "M")
  else if Display.geb num (Fin 1000) then
    Scaled (Display.mkScaled (num / Fin 1000)%js 1 "K")
  else Plain num.

(** [getPriceChangeColor] of the equity screen. *)
Definition getPriceChangeColor (mstrData : option MSTRData.t) : option string :=
  match mstrData with
  | None => None
  | Some m => Some (if Display.geb (MSTRData.priceChange m) (Fin 0) then green else red)
  end.

End StrategyDisplay.

(** What a call that holds the price [p] and fetches a strictly
    different [q] does: one timer due 2000 ms later, the colour by the
    direction of the change, and null again once the timer has fired. *)
Definition flashes (fetch body : option number -> bool -> Home.Act unit) : Prop :=
  forall p i net w q,
    out (body (Some p) i net w) = Normal tt ->
    Home.price (cells (world (fetch (Some p) i net w))) = Some q ->
    strict_neqb q p = true ->
    let r := fetch (Some p) i net w in
    timers (world r)
    = (timers w ++ [mkTimer (clock w + 2000) (Home.with_priceColor None)])%list
    /\ (gtb q p = true -> Home.priceColor (cells (world r)) = Some green)
    /\ (gtb q p = false -> ltb q p = true ->
        Home.priceColor (cells (world r)) = Some red)
    /\ Home.priceColor (cells (fire_due (clock w + 2000) (world r))) = None.


(* ================================================================== *)
(** * The first revision of the Bitcoin screen: the price alone

    [fetchBitcoinPrice] reads [/simple/price]; its [catch] only logs. *)

Module SimplePrice.

(** [{ bitcoin: { usd } }]; [None] is a payload without [bitcoin]. *)
Record BitcoinPrice : Type := { bitcoin : option Q }.

Record Net : Type := { simple_price : response BitcoinPrice }.

Record State : Type := mk {
  price : option number;
  previousPrice : option number;
  loading : bool;
  lastUpdated : option Z;
  priceColor : option string
}.

Definition initial : State := mk None None true None None.

Definition with_price v s :=
  mk v (previousPrice s) (loading s) (lastUpdated s) (priceColor s).
Definition with_previousPrice v s :=
  mk (price s) v (loading s) (lastUpdated s) (priceColor s).
Definition with_loading v s :=
  mk (price s) (previousPrice s) v (lastUpdated s) (priceColor s).
Definition with_lastUpdated v s :=
  mk (price s) (previousPrice s) (loading s) v (priceColor s).
Definition with_priceColor v s :=
  mk (price s) (previousPrice s) (loading s) (lastUpdated s) v.

Definition Act : Type -> Type := M Net State.

Definition setPrice v : Act unit := set_cell CPrice (with_price v).
Definition setPreviousPrice v : Act unit := set_cell CPreviousPrice (with_previousPrice v).
Definition setLoading v : Act unit := set_cell CLoading (with_loading v).
Definition setLastUpdated v : Act unit := set_cell CLastUpdated (with_lastUpdated v).
Definition setPriceColor v : Act unit := set_cell CPriceColor (with_priceColor v).

Definition body (price : option number) (isInitialLoad : bool) : Act unit :=
  (if isInitialLoad then setLoading true else ret tt) ;;;
  data <- fetch_json CoinGeckoSimplePrice simple_price ;;
  newPrice <- prop_of "usd" (bitcoin data) ;;
  (match price with
   | Some p =>
       if strict_neqb (Fin newPrice) p then
         (if gtb (Fin newPrice) p then setPriceColor (Some green)
          else if ltb (Fin newPrice) p then setPriceColor (Some red)
          else ret tt) ;;;
         setTimeout (with_priceColor None) 2000
       else ret tt
   | None => ret tt
   end) ;;;
  setPreviousPrice price ;;;
  setPrice (Some (Fin newPrice)) ;;;
  now <- new_Date ;;
  setLastUpdated (Some now).

Definition fetchBitcoinPrice (price : option number) (isInitialLoad : bool) : Act unit :=
  try_catch_finally (body price isInitialLoad)
    (fun error => console)
    (if isInitialLoad then setLoading false else ret tt).

End SimplePrice.

(** The price a [/simple/price] response carries, if it carries one. *)
Definition simple_price_of (net : SimplePrice.Net) : option Q :=
  match SimplePrice.simple_price net with
  | Resolves d => SimplePrice.bitcoin d
  | Rejects _ => None
  end.

(** Nothing of a flash is in the world: no colour, no pending timer. *)
Definition unflashed (S : Type) (color : S -> option string) (w : World S) : Prop :=
  color (cells w) = None /\ timers w = [].

(* ================================================================== *)
(** * Properties of the stride sampler *)

Section StrideFacts.
Local Open Scope nat_scope.
Variable A : Type.

Lemma filter_index_ext (p q : nat -> bool) (l : list A) :
  forall i, (forall j, p j = q j) -> filter_index p i l = filter_index q i l.
Proof.
  induction l as [|x r IH]; intros i E; simpl; [reflexivity|].
  rewrite E, (IH (S i) E). reflexivity.
Qed.

Lemma filter_index_subseq (p : nat -> bool) (l : list A) :
  forall i, subseq (filter_index p i l) l.
Proof.
  induction l as [|x r IH]; intros i; simpl.
  - constructor.
  - destruct (p i); constructor; apply IH.
Qed.

(** Indices that the predicate rejects can be skipped in one go. *)
Lemma filter_index_skip (p : nat -> bool) :
  forall k (l : list A) i,
    (forall j, j < k -> p (i + j) = false) ->
    filter_index p i l = filter_index p (i + k) (skipn k l).
Proof.
  induction k as [|k IH]; intros l i H.
  - rewrite Nat.add_0_r. reflexivity.
  - destruct l as [|x r]; [reflexivity|].
    simpl. rewrite <- (Nat.add_0_r i) at 1. rewrite (H 0) by lia.
    rewrite (IH r (S i)).
    + f_equal. lia.
    + intros j Hj. replace (S i + j) with (i + S j) by lia. apply H. lia.
Qed.

Lemma every_between (s i j : nat) :
  0 < s -> i mod s = 0 -> j < s - 1 -> every s (S i + j) = false.
Proof.
  intros Hs Hi Hj. unfold every. apply Nat.eqb_neq.
  replace (S i + j) with (S j + i) by lia.
  apply Nat.Div0.div_exact in Hi.
  rewrite Hi, (Nat.mul_comm s), Nat.Div0.mod_add.
  rewrite Nat.mod_small; lia.
Qed.

(** The sampler keeps the head and starts again [s] elements later. *)
Lemma filter_every_unfold (s i : nat) (l : list A) :
  0 < s -> i mod s = 0 ->
  filter_index (every s) i l =
  match l with
  | [] => []
  | x :: _ => x :: filter_index (every s) (i + s) (skipn s l)
  end.
Proof.
  intros Hs Hi. destruct l as [|x r]; [reflexivity|].
  simpl. unfold every at 1. rewrite Hi. simpl.
  f_equal.
  rewrite (@filter_index_skip (every s) (s - 1) r (S i)).
  - destruct s as [|s']; [lia|]. simpl.
    rewrite Nat.sub_0_r. f_equal. lia.
  - intros j Hj. apply every_between; assumption.
Qed.

Lemma next_stride (s i : nat) : 0 < s -> i mod s = 0 -> (i + s) mod s = 0.
Proof.
  intros Hs Hi. replace (i + s) with (i + 1 * s) by lia.
  rewrite Nat.Div0.mod_add. exact Hi.
Qed.

Lemma filter_every_nth (s : nat) :
  0 < s ->
  forall k (l : list A) i, i mod s = 0 ->
    nth_error (filter_index (every s) i l) k = nth_error l (k * s).
Proof.
  intros Hs. induction k as [|k IH]; intros l i Hi;
    rewrite (@filter_every_unfold s i l Hs Hi); destruct l as [|x r]; try reflexivity.
  - destruct (S k * s); reflexivity.
  - cbn [nth_error]. rewrite (IH _ (i + s) (@next_stride s i Hs Hi)).
    rewrite nth_error_skipn. f_equal; lia.
Qed.

Lemma ceil_div_step (s n : nat) :
  0 < s -> 0 < n -> S ((n - s + s - 1) / s) = (n + s - 1) / s.
Proof.
  intros Hs Hn. destruct (le_lt_dec s n) as [Hle|Hlt].
  - replace (n + s - 1) with ((n - s + s - 1) + 1 * s) by lia.
    rewrite Nat.div_add by lia. lia.
  - replace (n - s + s - 1) with (s - 1) by lia.
    rewrite Nat.div_small by lia.
    apply Nat.div_unique with (r := n - 1); lia.
Qed.

Lemma filter_every_length (s : nat) :
  0 < s ->
  forall n (l : list A) i, List.length l <= n -> i mod s = 0 ->
    List.length (filter_index (every s) i l) = (List.length l + s - 1) / s.
Proof.
  intros Hs. induction n as [|n IH]; intros l i Hn Hi;
    rewrite (@filter_every_unfold s i l Hs Hi); destruct l as [|x r].
  - simpl. rewrite Nat.div_small; lia.
  - simpl in Hn. lia.
  - simpl. rewrite Nat.div_small; lia.
  - cbn [List.length].
    rewrite (IH _ (i + s)).
    + rewrite length_skipn. apply ceil_div_step; cbn [List.length]; lia.
    + rewrite length_skipn. cbn [List.length] in *. lia.
    + apply next_stride; assumption.
Qed.

End StrideFacts.

(** The ceiling of a quotient of integers, as an integer division. *)
Lemma Qceiling_quotient (a : Z) (b : positive) :
  Qceiling (inject_Z a / inject_Z (Zpos b))%Q = (a + Zpos b - 1) / Zpos b.
Proof.
  rewrite (Qceiling_comp (inject_Z a / inject_Z (Zpos b))%Q (a # b)%Q)
    by (symmetry; apply Qmake_Qdiv).
  unfold Qceiling, Qfloor. simpl.
  pose proof (Z.div_mod (- a) (Zpos b) ltac:(lia)) as E.
  pose proof (Z.mod_pos_bound (- a) (Zpos b) ltac:(lia)) as B.
  apply Z.div_unique with (r := Zpos b - 1 - (- a) mod Zpos b); lia.
Qed.

Lemma stride_step_pos (L : nat) (T : positive) : 1 <= stride_step L T.
Proof. unfold stride_step. lia. Qed.

Lemma on_stride_every (s : Z) (i : nat) :
  1 <= s -> on_stride s i = every (Z.to_nat s) i.
Proof.
  intros Hs. unfold on_stride, every.
  rewrite Z.rem_mod_nonneg by lia.
  rewrite <- (Z2Nat.id s) at 1 by lia.
  rewrite <- Nat2Z.inj_mod.
  destruct (Nat.eqb_spec (i mod Z.to_nat s) 0) as [E|E].
  - rewrite E. reflexivity.
  - apply Z.eqb_neq. lia.
Qed.

Lemma stride_sample_every (A : Type) (T : positive) (l : list A) :
  stride_sample T l =
  filter_index (every (Z.to_nat (stride_step (List.length l) T))) 0 l.
Proof.
  unfold stride_sample. apply filter_index_ext.
  intros j. apply on_stride_every, stride_step_pos.
Qed.

(** C2.  For a series of length L and a target of T points the sampler
    uses step = max(1, ceil(L / T)); its output has ceil(L / step)
    elements; the k-th of them is the input's element of index
    k * step, unchanged (no interpolation, no averaging), so the
    elements kept are exactly those whose index is a multiple of step;
    and the output is an order-preserving subsequence of the input. *)
Theorem stride_sample_spec (A : Type) (T : positive) (l : list A) :
  let L := List.length l in
  let step := Z.to_nat (stride_step L T) in
  stride_step L T = Z.max 1 ((Z.of_nat L + Zpos T - 1) / Zpos T)
  /\ (forall index, on_stride (stride_step L T) index = (index mod step =? 0)%nat)
  /\ List.length (stride_sample T l) = ((L + step - 1) / step)%nat
  /\ (forall k, nth_error (stride_sample T l) k = nth_error l (k * step))
  /\ subseq (stride_sample T l) l.
Proof.
  intros L step.
  assert (Hs : (0 < step)%nat).
  { unfold step. pose proof (stride_step_pos L T). lia. }
  split; [|split; [|split; [|split]]].
  - unfold stride_step. rewrite Qceiling_quotient. reflexivity.
  - intros index. apply on_stride_every, stride_step_pos.
  - rewrite stride_sample_every.
    apply (@filter_every_length A step Hs L l 0%nat); [apply Nat.le_refl|].
    apply Nat.Div0.mod_0_l.
  - intros k. rewrite stride_sample_every.
    apply filter_every_nth; [exact Hs | apply Nat.Div0.mod_0_l].
  - apply filter_index_subseq.
Qed.

(** The stride as a count, and what it gives the sample. *)

Lemma step_of_ceiling (L : nat) (T : positive) :
  step_of L T = Nat.max 1 ((L + Pos.to_nat T - 1) / Pos.to_nat T).
Proof.
  unfold step_of, stride_step. rewrite Qceiling_quotient.
  pose proof (Pos2Nat.is_pos T) as HT.
  assert (E : (Z.of_nat L + Z.pos T - 1) / Z.pos T
              = Z.of_nat ((L + Pos.to_nat T - 1) / Pos.to_nat T)).
  { rewrite Nat2Z.inj_div, Nat2Z.inj_sub, Nat2Z.inj_add, positive_nat_Z by lia.
    reflexivity. }
  rewrite E. lia.
Qed.

Lemma step_of_pos (L : nat) (T : positive) : (0 < step_of L T)%nat.
Proof. rewrite step_of_ceiling. lia. Qed.

Lemma stride_sample_length (A : Type) (T : positive) (l : list A) :
  List.length (stride_sample T l)
  = ((List.length l + step_of (List.length l) T - 1) / step_of (List.length l) T)%nat.
Proof.
  rewrite stride_sample_every. fold (step_of (List.length l) T).
  apply (@filter_every_length A _ (step_of_pos _ T) (List.length l) l 0%nat);
    [apply Nat.le_refl | apply Nat.Div0.mod_0_l].
Qed.

(** The ceiling of a quotient, by its two bounds. *)
Lemma ceil_bounds (n d : nat) :
  (0 < d)%nat ->
  (n <= d * ((n + d - 1) / d) /\ (0 < n -> d * ((n + d - 1) / d) < n + d))%nat.
Proof.
  intros Hd.
  pose proof (Nat.div_mod_eq (n + d - 1) d) as E.
  pose proof (Nat.mod_upper_bound (n + d - 1) d ltac:(lia)) as B.
  split; [|intros Hn]; nia.
Qed.

Lemma filter_every_one (A : Type) (l : list A) :
  forall i, filter_index (every 1) i l = l.
Proof.
  induction l as [|x r IH]; intros i; [reflexivity|].
  cbn [filter_index]. unfold every at 1. rewrite Nat.mod_1_r. cbn.
  f_equal. apply IH.
Qed.

Lemma stride_sample_length_le (A : Type) (T : positive) (l : list A) :
  (List.length (stride_sample T l) <= Pos.to_nat T)%nat.
Proof.
  pose proof (Pos2Nat.is_pos T) as HT.
  pose proof (step_of_ceiling (List.length l) T) as Es.
  pose proof (@ceil_bounds (List.length l) (Pos.to_nat T) HT) as [B1 B2].
  rewrite stride_sample_length.
  set (s := step_of (List.length l) T) in *.
  assert (Hs : (0 < s)%nat) by apply step_of_pos.
  destruct (Nat.eq_dec (List.length l) 0) as [Z|NZ].
  - rewrite Z. rewrite Nat.div_small; lia.
  - apply Nat.lt_succ_r. apply Nat.Div0.div_lt_upper_bound. nia.
Qed.

Lemma stride_sample_short (A : Type) (T : positive) (l : list A) :
  (List.length l <= Pos.to_nat T)%nat -> stride_sample T l = l.
Proof.
  intros Hle.
  pose proof (Pos2Nat.is_pos T) as HT.
  pose proof (step_of_ceiling (List.length l) T) as Es.
  assert (S1 : step_of (List.length l) T = 1%nat).
  { rewrite Es. destruct (Nat.eq_dec (List.length l) 0) as [Z|NZ].
    - rewrite Z. rewrite Nat.div_small; lia.
    - assert ((List.length l + Pos.to_nat T - 1) / Pos.to_nat T = 1)%nat; [|lia].
      symmetry. apply Nat.div_unique with (r := (List.length l - 1)%nat); lia. }
  rewrite stride_sample_every. fold (step_of (List.length l) T). rewrite S1.
  apply filter_every_one.
Qed.

Lemma stride_sample_nth (A : Type) (T : positive) (l : list A) (k : nat) :
  nth_error (stride_sample T l) k = nth_error l (k * step_of (List.length l) T).
Proof.
  rewrite stride_sample_every. fold (step_of (List.length l) T).
  apply filter_every_nth; [apply step_of_pos | apply Nat.Div0.mod_0_l].
Qed.

(* ================================================================== *)
(** * Running the fetch functions *)

Arguments Parse.parseFloat : simpl never.
Arguments JS.sub : simpl never.
Arguments JS.div : simpl never.
Arguments JS.mul : simpl never.
Arguments JS.Math_max : simpl never.
Arguments JS.Math_min : simpl never.
Arguments stride_sample : simpl never.
Arguments slice_last : simpl never.
Arguments JS.strict_neqb : simpl never.
Arguments JS.strict_eqb : simpl never.
Arguments JS.gtb : simpl never.
Arguments JS.ltb : simpl never.
Arguments js_index : simpl never.
Arguments get_key : simpl never.
Arguments Object_keys : simpl never.
Arguments Z.gtb : simpl never.
Arguments Z.of_nat : simpl never.

(** Unfolds a fetch function down to the case analysis it makes on the
    responses. *)
Ltac run_defs :=
  cbv [Detailed.fetchBitcoinData Detailed.body
       SelfDerived.fetchBitcoinData SelfDerived.body SelfDerived.second_from_end
       Home.on_error Home.on_exit Home.flash
       Home.setPrice Home.setPreviousPrice Home.setLoading Home.setLastUpdated
       Home.setPriceColor Home.setPerformanceData Home.setError
       Home.setChartData Home.setChartLoading
       Chart.fetchChartData Chart.body Chart.from_gemini Chart.from_coingecko
       Chart.from_coingecko_1D Chart.coingecko_prices Chart.log_1W Chart.toISOString
       Chart.dayMap Chart.source_days
       Strategy.fetchMSTRData Strategy.body Strategy.parse_series Strategy.flash
       Strategy.setMstrData Strategy.setPreviousPrice Strategy.setLoading
       Strategy.setLastUpdated Strategy.setPriceColor Strategy.setError
       try_catch_finally try_finally try_catch bind ret throw emit set_cell
       setTimeout new_Date fetch_json parseFloat console prop_of
       out world log cells timers clock] in *.

(** Splits on the innermost scrutinee of the goal. *)
Ltac break_one :=
  match goal with
  | |- context [match ?x with _ => _ end] =>
      lazymatch x with
      | context [match _ with _ => _ end] => fail
      | _ => destruct x eqn:?
      end
  end.

Ltac run_cases := run_defs; repeat (break_one; cbn in *).

Ltac in_log :=
  repeat match goal with
         | H : False |- _ => destruct H
         | H : _ \/ _ |- _ => destruct H as [H|H]
         | H : In _ (_ :: _) |- _ => destruct H as [H|H]
         | H : In _ [] |- _ => destruct H
         | H : In _ (_ ++ _) |- _ => apply in_app_or in H; destruct H as [H|H]
         | H : EvSet _ = EvSet _ |- _ => inversion H; clear H; subst
         | H : @eq event _ _ |- _ => discriminate H
         end.

(** The ways a cycle fails: a request that rejects (no network, a body
    that is not JSON), a field that is missing, a soft error of the
    API.  Each makes the [try] block throw. *)
Lemma failure_kinds :
  (forall price i net w e,
      coins_bitcoin net = Rejects e ->
      out (Detailed.body price i net w) = Throws e)
  /\ (forall price i net w,
      coins_bitcoin net = Resolves (Build_CoinData None) ->
      out (Detailed.body price i net w) = Throws (ErrorObj "Market data not available"))
  /\ (forall price i net w md,
      coins_bitcoin net = Resolves (Build_CoinData (Some md)) ->
      current_price md = None ->
      out (Detailed.body price i net w) = Throws (TypeError_undefined "usd"))
  /\ (forall price i net w e,
      market_chart net D365 = Rejects e ->
      out (SelfDerived.body price i net w) = Throws e)
  /\ (forall previousPrice i net w data,
      alpha_vantage net = Resolves data ->
      Error_Message data = None -> Note data <> None ->
      out (Strategy.body previousPrice i net w) = Throws (ErrorObj Strategy.rate_limit)).
Proof.
  repeat split.
  - intros price i net w e H. run_defs. rewrite H. destruct i; reflexivity.
  - intros price i net w H. run_defs. rewrite H. destruct i; reflexivity.
  - intros price i net w md H C. run_defs. rewrite H. cbn. rewrite C.
    destruct i; reflexivity.
  - intros price i net w e H. run_defs. rewrite H. destruct i; reflexivity.
  - intros pp i net w data H E N. run_defs. rewrite H, E.
    destruct (Note data); [|congruence]. destruct i; reflexivity.
Qed.

(** C9.  When a fetch cycle fails, that is when the [try] block throws
    (a rejected request, a body that is not JSON, a missing field, a
    soft API error), the function itself ends normally; [price],
    [previousPrice], [performanceData] (or [mstrData]), [lastUpdated]
    and the flash colour keep the values they had; no one-shot timer is
    added; the only setters called are those of [loading] and [error];
    and [error] holds the message of the failure. *)
Theorem failed_fetch_keeps_data :
  (forall price isInitialLoad net w e,
      out (Detailed.body price isInitialLoad net w) = Throws e ->
      let r := Detailed.fetchBitcoinData price isInitialLoad net w in
      out r = Normal tt
      /\ home_data_kept (cells w) (cells (world r))
      /\ timers (world r) = timers w
      /\ only_status_set (log r)
      /\ Home.error (cells (world r)) = Some (message_of e))
  /\ (forall price isInitialLoad net w e,
      out (SelfDerived.body price isInitialLoad net w) = Throws e ->
      let r := SelfDerived.fetchBitcoinData price isInitialLoad net w in
      out r = Normal tt
      /\ home_data_kept (cells w) (cells (world r))
      /\ timers (world r) = timers w
      /\ only_status_set (log r)
      /\ Home.error (cells (world r)) = Some (message_of e))
  /\ (forall previousPrice isInitialLoad net w e,
      out (Strategy.body previousPrice isInitialLoad net w) = Throws e ->
      let r := Strategy.fetchMSTRData previousPrice isInitialLoad net w in
      out r = Normal tt
      /\ strategy_data_kept (cells w) (cells (world r))
      /\ timers (world r) = timers w
      /\ only_status_set (log r)
      /\ Strategy.error (cells (world r)) = Some (message_of e)).
Proof.
  unfold home_data_kept, strategy_data_kept, only_status_set.
  split; [|split]; intros p i net w e H; revert H.
  - run_cases; intros H; try discriminate H; inversion H; subst;
      (repeat split; try reflexivity); intros c Hc; in_log; auto.
  - run_cases; intros H; try discriminate H; inversion H; subst;
      (repeat split; try reflexivity); intros c Hc; in_log; auto.
  - run_cases; intros H; try discriminate H; inversion H; subst;
      (repeat split; try reflexivity); intros c Hc; in_log; auto.
Qed.

Lemma failed_fetch_keeps_data_witness :
  let w := mkWorld (Examples.held 50000) [] 120000 in
  let r := Detailed.fetchBitcoinData (Some (Fin 50000)) false Examples.offline w in
  out (Detailed.body (Some (Fin 50000)) false Examples.offline w) = Throws Examples.unreachable
  /\ out r = Normal tt
  /\ home_data_kept (cells w) (cells (world r))
  /\ timers (world r) = timers w
  /\ only_status_set (log r)
  /\ Home.error (cells (world r)) = Some "Network request failed".
Proof.
  intros w r. split; [reflexivity|].
  apply (proj1 failed_fetch_keeps_data (Some (Fin 50000)) false Examples.offline w
               Examples.unreachable).
  reflexivity.
Defined.

Ltac no_flash :=
  let H := fresh in
  intros [H | [? H]]; in_log.

(** C10.  [fetchBitcoinData], in the detailed and in the self-derived
    revision: when the price it holds is null (the first fetch) no
    flash colour is set and no timer is started, whatever price
    arrives; a flash happens only in a successful cycle whose held
    price exists and is strictly different from the fetched one; and a
    fetched price equal to the held one sets no flash. *)
Theorem flash_only_on_change :
  flash_law Detailed.body Detailed.fetchBitcoinData
  /\ flash_law SelfDerived.body SelfDerived.fetchBitcoinData.
Proof.
  unfold flash_law, flashed. split; intros price i net w.
  - split; [|split].
    + intros ->. run_cases; (split; [no_flash | split; reflexivity]).
    + run_cases; intros F; try solve [exfalso; revert F; no_flash];
        eexists; eexists; repeat split; try reflexivity; assumption.
    + intros p q ->. run_cases; intros S1 S2 E; try discriminate S1;
        inversion S2; subst;
        unfold strict_neqb in *;
        try match goal with
            | H1 : negb (strict_eqb ?a ?b) = true, H2 : strict_eqb ?a ?b = true |- _ =>
                rewrite H2 in H1; discriminate H1
            end;
        (split; [no_flash | split; reflexivity]).
  - split; [|split].
    + intros ->. run_cases; (split; [no_flash | split; reflexivity]).
    + run_cases; intros F; try solve [exfalso; revert F; no_flash];
        eexists; eexists; repeat split; try reflexivity; assumption.
    + intros p q ->. run_cases; intros S1 S2 E; try discriminate S1;
        inversion S2; subst;
        unfold strict_neqb in *;
        try match goal with
            | H1 : negb (strict_eqb ?a ?b) = true, H2 : strict_eqb ?a ?b = true |- _ =>
                rewrite H2 in H1; discriminate H1
            end;
        (split; [no_flash | split; reflexivity]).
Qed.

(** C4.  The equity fetch tests the payload in this order, the first
    test that applies deciding the outcome: the key 'Error Message'
    gives the symbol-not-found error state; the key 'Note' gives the
    rate-limit error state; a missing 'Time Series (Daily)' gives the
    missing-series error state.  In each case [parseFloat] is never
    called, [setMstrData] is never called and [mstrData] keeps its
    value.  The three messages differ from each other and from the
    generic 'Failed to fetch data'. *)
Theorem soft_errors_detected :
  forall previousPrice isInitialLoad net w data,
    alpha_vantage net = Resolves data ->
    let r := Strategy.fetchMSTRData previousPrice isInitialLoad net w in
    (Error_Message data <> None ->
       Strategy.error (cells (world r)) = Some Strategy.symbol_not_found
       /\ nothing_published w r)
    /\ (Error_Message data = None -> Note data <> None ->
       Strategy.error (cells (world r)) = Some Strategy.rate_limit
       /\ nothing_published w r)
    /\ (Error_Message data = None -> Note data = None ->
        Time_Series_Daily data = None ->
       Strategy.error (cells (world r)) = Some Strategy.missing_series
       /\ nothing_published w r)
    /\ (Strategy.symbol_not_found <> Strategy.rate_limit
        /\ Strategy.symbol_not_found <> Strategy.missing_series
        /\ Strategy.rate_limit <> Strategy.missing_series
        /\ ~ In (message_of NonError)
               [Strategy.symbol_not_found; Strategy.rate_limit; Strategy.missing_series]).
Proof.
  intros pp i net w data Hnet r. subst r.
  unfold nothing_published, no_parsing.
  split; [|split; [|split]].
  - intros HE. destruct (Error_Message data) eqn:E; [clear HE|congruence].
    run_defs. rewrite Hnet, E. destruct i, w; cbn;
      (repeat split; try reflexivity); intros; intro; in_log.
  - intros E HN. destruct (Note data) eqn:N; [clear HN|congruence].
    run_defs. rewrite Hnet, E, N. destruct i, w; cbn;
      (repeat split; try reflexivity); intros; intro; in_log.
  - intros E N T.
    run_defs. rewrite Hnet, E, N, T. destruct i, w; cbn;
      (repeat split; try reflexivity); intros; intro; in_log.
  - repeat split; try discriminate.
    cbn. intros [H|[H|[H|[]]]]; discriminate H.
Qed.

Lemma soft_errors_detected_witness :
  let data := Build_AlphaVantageResponse None None None
                (Some "Thank you for using Alpha Vantage! Please retry later.") in
  let net := Build_Network (Rejects Examples.unreachable) (fun _ => Rejects Examples.unreachable)
                           (Rejects Examples.unreachable) (Resolves data) in
  let w := mkWorld Strategy.initial [] 0 in
  let r := Strategy.fetchMSTRData None true net w in
  Note data <> None
  /\ Strategy.error (cells (world r)) = Some "API call frequency limit reached"
  /\ nothing_published w r.
Proof.
  intros data net w r. split; [discriminate|].
  apply (proj1 (proj2 (@soft_errors_detected None true net w data eq_refl)));
    [reflexivity | discriminate].
Defined.

(* ================================================================== *)
(** * The chart fetch *)

Lemma mapM_parseFloat (Net S : Type) (l : list string) (net : Net) (w : World S) :
  mapM (fun (s : string) (_ : Net) (w0 : World S) =>
          mkResult (Normal (Parse.parseFloat s)) w0 [EvParseFloat s]) l net w
  = mkResult (Normal (map Parse.parseFloat l)) w (map EvParseFloat l).
Proof.
  revert w. induction l as [|s r IH]; intros w; [reflexivity|].
  cbn [mapM map]. unfold bind at 1. unfold bind at 1. rewrite IH.
  unfold ret. cbn. rewrite app_nil_r. reflexivity.
Qed.

Lemma mapi_from_length (A B : Type) (f : A -> Z -> B) (l : list A) :
  forall i, List.length (mapi_from f i l) = List.length l.
Proof.
  induction l as [|x r IH]; intros i; cbn [mapi_from List.length]; [reflexivity|].
  rewrite IH. reflexivity.
Qed.

Lemma sampled_lengths (T : positive) (fmt : Q -> label) (ps : list (Q * Q)) :
  List.length (ChartData.labels (Chart.sampled T fmt ps))
  = List.length (ChartData.data (Chart.sampled T fmt ps)).
Proof. unfold Chart.sampled. cbn. rewrite !length_map. reflexivity. Qed.

Lemma subseq_Forall (A : Type) (P : A -> Prop) (s l : list A) :
  subseq s l -> Forall P l -> Forall P s.
Proof.
  induction 1 as [|x s l _ IH|x s l _ IH]; intros F.
  - constructor.
  - inversion F; subst. constructor; auto.
  - inversion F; subst. auto.
Qed.

Lemma subseq_sorted (A : Type) (R : A -> A -> Prop) (s l : list A) :
  subseq s l -> StronglySorted R l -> StronglySorted R s.
Proof.
  induction 1 as [|x s l Hs IH|x s l Hs IH]; intros F.
  - constructor.
  - inversion F; subst. constructor; [auto|].
    eapply subseq_Forall; eassumption.
  - inversion F; subst. auto.
Qed.

Lemma stride_sample_chronological (T : positive) (ps : list (Q * Q)) :
  chronological ps -> chronological (stride_sample T ps).
Proof. apply subseq_sorted, filter_index_subseq. Qed.

Lemma stride_sample_subseq (A : Type) (T : positive) (l : list A) :
  subseq (stride_sample T l) l.
Proof. apply filter_index_subseq. Qed.

Ltac chart_cases :=
  run_defs; repeat (first [rewrite mapM_parseFloat | break_one]; cbn in *).

(** C3.  Whatever the span and whichever source answered, a chart
    series that [fetchChartData] publishes has as many labels as
    values.  Its values are oldest first: on the Gemini path they are
    the parsed [changes] (received newest first) in reverse order; on
    every CoinGecko path they are the prices of a subsequence of the
    received points, labelled by the timestamps of the same points,
    and that subsequence is in timestamp order when the received
    series is. *)
Theorem chart_series_invariant :
  forall interval net w d,
    Home.chartData (cells (world (Chart.fetchChartData interval net w))) = Some d ->
    List.length (ChartData.labels d) = List.length (ChartData.data d)
    /\ ((interval = I1D
         /\ exists g cs,
             gemini_ticker net = Resolves g /\ changes g = Some cs
             /\ ChartData.data d = map Parse.parseFloat (rev cs))
        \/ (exists h ps sub fmt,
             market_chart net (Chart.source_days interval) = Resolves h
             /\ prices h = Some ps
             /\ subseq sub ps
             /\ ChartData.data d = map (fun item => Fin (snd item)) sub
             /\ ChartData.labels d = map (fun item => fmt (fst item)) sub
             /\ (chronological ps -> chronological sub))).
Proof.
  intros interval net w d.
  destruct interval; chart_cases; intros H; try discriminate H;
    inversion H; subst; clear H; cbn.
  all: try (split; [apply sampled_lengths|];
            right; do 4 eexists;
            repeat split; try eassumption; try reflexivity;
            [apply stride_sample_subseq | apply stride_sample_chronological]).
  all: split;
    [ unfold mapi; rewrite mapi_from_length, length_map; reflexivity
    | left; split; [reflexivity|]; do 2 eexists; repeat split; eassumption || reflexivity ].
Qed.

Lemma chart_series_invariant_witness :
  let r := Chart.fetchChartData I1D (Examples.gemini_day []) (mkWorld Home.initial [] 0) in
  exists d,
    Home.chartData (cells (world r)) = Some d
    /\ List.length (ChartData.labels d) = List.length (ChartData.data d)
    /\ ChartData.data d = [Fin (164001 # 4); Fin 42000; Fin (86001 # 2)].
Proof.
  intros r. eexists. split; [reflexivity|]. split; [|reflexivity].
  apply (proj1 (@chart_series_invariant I1D (Examples.gemini_day [])
                  (mkWorld Home.initial [] 0) _ eq_refl)).
Defined.

(** C5.  When the historical series of the span comes back with a
    missing or empty [prices] array (and, for 1D, the hourly source
    failed or was empty too), [fetchChartData] ends normally: nothing
    escapes it.  The chart cell is null and is rendered as 'Chart data
    unavailable'; every other cell is as it was, so an error panel is
    not raised and the rest of the screen shows what it showed. *)
Theorem empty_series_unavailable :
  forall interval net w,
    no_series (market_chart net (Chart.source_days interval)) ->
    (interval = I1D -> gemini_unusable (gemini_ticker net)) ->
    let r := Chart.fetchChartData interval net w in
    out r = Normal tt
    /\ Home.chartData (cells (world r)) = None
    /\ Chart.renderChart (cells (world r)) = Chart.Unavailable
    /\ cells (world r) = Home.with_chartLoading false (Home.with_chartData None (cells w))
    /\ timers (world r) = timers w
    /\ match Chart.render (cells w) with
       | Chart.ErrorPanel m => Chart.render (cells (world r)) = Chart.ErrorPanel m
       | Chart.Screen c _ => Chart.render (cells (world r)) = Chart.Screen c Chart.Unavailable
       end.
Proof.
  intros interval net w [h [Hh Hp]] Hg.
  assert (G : interval = I1D ->
              forall g, gemini_ticker net = Resolves g ->
                        changes g = None \/ changes g = Some []).
  { intros E g Eg. destruct (Hg E) as [[e He]|[g' [Eg' Hc]]]; congruence. }
  destruct w as [[p pp ld lu pc pd er cd si cl] tm ck].
  destruct interval; cbn in Hh;
    run_defs; rewrite Hh;
    try (destruct (gemini_ticker net) as [e|g] eqn:Eg;
         [| destruct (G eq_refl g eq_refl) as [Ec|Ec]; rewrite Ec]);
    destruct Hp as [Ep|Ep]; rewrite Ep; cbn;
    (repeat split); destruct er as [[|c m]|]; reflexivity.
Qed.

Lemma empty_series_unavailable_witness :
  let net := Build_Network (Rejects Examples.unreachable)
               (fun _ => Resolves (Build_BitcoinHistoricalData (Some []) None None))
               (Resolves (Build_GeminiData (Some []))) (Rejects Examples.unreachable) in
  let w := mkWorld (Examples.held 50000) [] 0 in
  let r := Chart.fetchChartData I1D net w in
  out r = Normal tt
  /\ Chart.renderChart (cells (world r)) = Chart.Unavailable
  /\ Home.price (cells (world r)) = Some (Fin 50000)
  /\ Home.error (cells (world r)) = None.
Proof.
  intros net w r.
  assert (H := @empty_series_unavailable I1D net w).
  destruct H as (H1 & _ & H3 & H4 & _).
  - eexists. split; [reflexivity|]. right. reflexivity.
  - intros _. right. eexists. split; [reflexivity|]. right. reflexivity.
  - split; [exact H1|]. split; [exact H3|].
    unfold r. rewrite H4. split; reflexivity.
Defined.

Lemma requests_app (a b : list event) :
  requests (a ++ b)%list = (requests a ++ requests b)%list.
Proof. apply flat_map_app. Qed.

Lemma requests_parseFloat (l : list string) : requests (map EvParseFloat l) = [].
Proof. induction l as [|s r IH]; [reflexivity | exact IH]. Qed.

(** What a chart fetch of the 1D span asks and publishes, by the
    answer of Gemini. *)
Lemma one_day_sources :
  forall net w,
    let r := Chart.fetchChartData I1D net w in
    (exists rest, requests (log r) = GeminiTicker :: rest)
    /\ (In (CoinGeckoMarketChart D1) (requests (log r))
        <-> gemini_unusable (gemini_ticker net))
    /\ (forall g cs,
          gemini_ticker net = Resolves g -> changes g = Some cs -> cs <> [] ->
          Home.chartData (cells (world r)) =
            Some (ChartData.mk (mapi (fun _ index => Chart.hour_label index) (rev cs))
                               (map Parse.parseFloat (rev cs))))
    /\ (forall h ps,
          gemini_unusable (gemini_ticker net) ->
          market_chart net D1 = Resolves h -> prices h = Some ps -> ps <> [] ->
          Home.chartData (cells (world r)) = Some (Chart.sampled 12 LTimeOfDay ps)).
Proof.
  intros net w r. subst r. unfold gemini_unusable.
  chart_cases.
  all: rewrite ?requests_app, ?requests_parseFloat; cbn.
  all: split; [eexists; reflexivity|].
  all: split; [split|split].
  (* the request to CoinGecko implies that Gemini was unusable *)
  all: try solve [intros _; left; eexists; reflexivity].
  all: try solve [intros _; right; eexists; split; [reflexivity|]; auto].
  all: try solve [intros [F|[]]; discriminate F].
  (* and conversely *)
  all: try solve [intros _; right; left; reflexivity].
  all: try solve [intros [[e' F]|[d' [F [C|C]]]];
                  [discriminate F | inversion F; subst; congruence ..]].
  (* Gemini answered: its prices, reversed *)
  all: try solve [intros g' cs' F; try discriminate F; inversion F; subst;
                  intros C N; try congruence;
                  match goal with
                  | H : changes _ = Some (_ :: _) |- _ => rewrite H in C
                  end; inversion C; subst; reflexivity].
  (* Gemini unusable: the sample of CoinGecko's prices *)
  all: intros h' ps' U Hh Hp N; try discriminate Hh.
  all: try solve [destruct U as [[e' F]|[d' [F [C|C]]]];
                  [discriminate F | inversion F; subst; congruence ..]].
  all: inversion Hh; subst; try congruence.
  all: match goal with
       | H1 : prices ?x = Some _, H2 : prices ?x = Some _ |- _ =>
           rewrite H1 in H2; inversion H2; subst; reflexivity
       end.
Qed.


(** C6.  For the 1D span the first request goes to the Gemini ticker.
    When it answers with a non-empty [changes] array the published
    values are the parsed prices in reverse order of arrival, so
    oldest first.  CoinGecko (days=1) is requested if and only if the
    Gemini request threw or its [changes] array was missing or empty,
    and then the published series is the stride sample of CoinGecko's
    L prices: with step = max(1, ceil(L / 12)) it has ceil(L / step)
    points, at most 12, and its k-th value and label are the price and
    the time of day of the point of index k * step. *)
Theorem one_day_prefers_gemini :
  forall net w,
    let r := Chart.fetchChartData I1D net w in
    (exists rest, requests (log r) = GeminiTicker :: rest)
    /\ (In (CoinGeckoMarketChart D1) (requests (log r))
        <-> gemini_unusable (gemini_ticker net))
    /\ (forall g cs,
          gemini_ticker net = Resolves g -> changes g = Some cs -> cs <> [] ->
          Home.chartData (cells (world r)) =
            Some (ChartData.mk (mapi (fun _ index => Chart.hour_label index) (rev cs))
                               (map Parse.parseFloat (rev cs))))
    /\ (forall h ps,
          gemini_unusable (gemini_ticker net) ->
          market_chart net D1 = Resolves h -> prices h = Some ps -> ps <> [] ->
          let L := List.length ps in
          let step := Nat.max 1 ((L + 12 - 1) / 12) in
          exists d,
            Home.chartData (cells (world r)) = Some d
            /\ List.length (ChartData.data d) = ((L + step - 1) / step)%nat
            /\ (List.length (ChartData.data d) <= 12)%nat
            /\ (forall k,
                  nth_error (ChartData.data d) k
                  = option_map (fun item => Fin (snd item)) (nth_error ps (k * step)))
            /\ (forall k,
                  nth_error (ChartData.labels d) k
                  = option_map (fun item => LTimeOfDay (fst item))
                               (nth_error ps (k * step)))).
Proof.
  intros net w r.
  destruct (one_day_sources net w) as (H1 & H2 & H3 & H4).
  split; [exact H1|]. split; [exact H2|]. split; [exact H3|].
  intros h ps U Hh Hp N L step.
  exists (Chart.sampled 12 LTimeOfDay ps).
  split; [exact (H4 h ps U Hh Hp N)|].
  assert (Es : step_of L 12 = step).
  { unfold L, step. rewrite step_of_ceiling. reflexivity. }
  unfold Chart.sampled. cbn [ChartData.data ChartData.labels].
  rewrite length_map.
  split; [|split; [|split]].
  - rewrite stride_sample_length. fold L. rewrite Es. reflexivity.
  - apply (stride_sample_length_le 12 ps).
  - intros k. rewrite nth_error_map, stride_sample_nth. fold L. rewrite Es. reflexivity.
  - intros k. rewrite nth_error_map, stride_sample_nth. fold L. rewrite Es. reflexivity.
Qed.

Lemma one_day_prefers_gemini_witness :
  let w := mkWorld Home.initial [] 0 in
  let quotes := [41000; 41100; 41200; 41300; 41400; 41500; 41600; 41700; 41800;
                 41900; 42000; 42100; 42200; 42300]%Q in
  let up := Chart.fetchChartData I1D (Examples.gemini_day quotes) w in
  let down := Chart.fetchChartData I1D (Examples.gemini_down quotes) w in
  requests (log up) = [GeminiTicker]
  /\ requests (log down) = [GeminiTicker; CoinGeckoMarketChart D1]
  /\ Home.chartData (cells (world up)) =
       Some (ChartData.mk [LBlank; LBlank; LBlank]
                          [Fin (164001 # 4); Fin 42000; Fin (86001 # 2)])
  /\ exists d,
       Home.chartData (cells (world down)) = Some d
       /\ List.length (ChartData.data d) = 7%nat
       /\ nth_error (ChartData.data d) 1 = Some (Fin 41200)
       /\ nth_error (ChartData.data d) 6 = Some (Fin 42200)
       /\ nth_error (ChartData.data d) 7 = None
       /\ nth_error (ChartData.labels d) 1 = Some (LTimeOfDay 1700007200000).
Proof.
  intros w quotes up down.
  split; [reflexivity|]. split; [reflexivity|]. split.
  - apply (proj1 (proj2 (proj2 (@one_day_prefers_gemini
             (Examples.gemini_day quotes) w)))
             (Build_GeminiData (Some ["43000.5"; "42000"; "41000.25"]))
             ["43000.5"; "42000"; "41000.25"] eq_refl eq_refl).
    discriminate.
  - destruct (proj2 (proj2 (proj2 (@one_day_prefers_gemini
                (Examples.gemini_down quotes) w)))
                (Examples.series quotes)
                (Examples.hourly 1700000000000 quotes)
                (or_introl (ex_intro _ Examples.unreachable eq_refl))
                eq_refl eq_refl ltac:(discriminate))
      as (d & E & Hn & _ & Hv & Hl).
    exists d. split; [exact E|]. split; [exact Hn|].
    split; [exact (Hv 1%nat)|]. split; [exact (Hv 6%nat)|].
    split; [exact (Hv 7%nat)|]. exact (Hl 1%nat).
Defined.

(* ================================================================== *)
(** * The performance snapshot *)

Lemma num_eq_refl (a : number) : a =n= a.
Proof. destruct a; cbn; auto. apply Qeq_refl. Qed.

Lemma Qis_zero_spec (q : Q) : Qis_zero q = true <-> (q == 0)%Q.
Proof. unfold Qis_zero. apply Qeq_bool_iff. Qed.

Lemma Qis_zero_false (q : Q) : Qis_zero q = false <-> ~ (q == 0)%Q.
Proof.
  rewrite <- Qis_zero_spec. destruct (Qis_zero q); split; intros H; congruence.
Qed.

(** A quotient by zero, times a hundred, is an infinity or NaN. *)
Lemma percent_of_zero_not_finite (x d : number) :
  d =n= Fin 0 -> is_finite ((x / d) * Fin 100)%js = false.
Proof.
  destruct d as [q| | |]; cbn; try contradiction.
  intros Hq. apply Qis_zero_spec in Hq.
  destruct x as [a| | |]; unfold JS.div, JS.mul; rewrite ?Hq; cbn;
    try reflexivity.
  - destruct (Qis_zero a), (Qsgn_pos a); reflexivity.
  - assert (E : Qsgn_pos q = true).
    { unfold Qsgn_pos. apply Qle_bool_iff. apply Qis_zero_spec in Hq.
      rewrite Hq. apply Qle_refl. }
    rewrite E. reflexivity.
  - assert (E : Qsgn_pos q = true).
    { unfold Qsgn_pos. apply Qle_bool_iff. apply Qis_zero_spec in Hq.
      rewrite Hq. apply Qle_refl. }
    rewrite E. reflexivity.
Qed.

Lemma detailed_percent_law (cur chg pct : Q) :
  Fin pct =n= ((Fin chg / (Fin cur - Fin chg)) * Fin 100)%js
  <-> (~ cur - chg == 0 /\ pct == chg / (cur - chg) * 100)%Q.
Proof.
  unfold JS.sub, JS.add, JS.neg, JS.div.
  destruct (Qis_zero (cur + - chg)) eqn:Z.
  - apply Qis_zero_spec in Z. split.
    + intros H. exfalso.
      destruct (Qis_zero chg), (Qsgn_pos chg); cbn in H; exact H.
    + intros [N _]. exfalso. apply N. exact Z.
  - apply Qis_zero_false in Z. cbn. split.
    + intros H. split; [exact Z | exact H].
    + intros [_ H]. exact H.
Qed.

(** C1, as the code has it.  A successful cycle publishes a snapshot
    with [priceChange == currentPrice - previousPrice] in both
    strategies.  In the self-derived strategy
    [priceChangePercent == priceChange / previousPrice * 100] as well.
    In the detailed strategy [priceChange] and [priceChangePercent] are
    the provider's [price_change_24h] and
    [price_change_percentage_24h] (0 when absent), copied and not
    recomputed: the percent relation holds exactly when those two
    fields agree with each other. *)
Theorem snapshot_relations :
  (forall price isInitialLoad net w,
      out (SelfDerived.body price isInitialLoad net w) = Normal tt ->
      exists p,
        Home.performanceData
          (cells (world (SelfDerived.fetchBitcoinData price isInitialLoad net w))) = Some p
        /\ change_law p /\ percent_law p)
  /\ (forall price isInitialLoad net w,
      out (Detailed.body price isInitialLoad net w) = Normal tt ->
      exists p md cur,
        Home.performanceData
          (cells (world (Detailed.fetchBitcoinData price isInitialLoad net w))) = Some p
        /\ coins_bitcoin net = Resolves (Build_CoinData (Some md))
        /\ current_price md = Some cur
        /\ change_law p
        /\ BitcoinPerformanceData.priceChange p = Fin (or_zero (price_change_24h md))
        /\ BitcoinPerformanceData.priceChangePercent p
           = Fin (or_zero (price_change_percentage_24h md))
        /\ (percent_law p
            <-> provider_consistent cur (price_change_24h md)
                                    (price_change_percentage_24h md))).
Proof.
  unfold change_law, percent_law, provider_consistent. split.
  - intros price i net w. run_cases; intros H; try discriminate H;
      eexists; (split; [reflexivity|]); cbn; split; apply num_eq_refl.
  - intros price i net w. run_cases; intros H; try discriminate H.
    all: match goal with
         | H : coins_bitcoin _ = Resolves ?c |- _ => destruct c as [omd]; cbn in *; subst
         end.
    all: do 3 eexists; (split; [reflexivity|]);
      (split; [first [eassumption | reflexivity]|]); (split; [eassumption|]);
      unfold Detailed.snapshot; cbn;
      (split; [|split; [reflexivity|split; [reflexivity|]]]).
    all: try apply detailed_percent_law.
    all: unfold JS.sub, JS.add, JS.neg; cbn; ring.
Qed.

(** The detailed strategy on a payload whose percentage (5) is not its
    change (1000) over the price of the day before (50000): the
    published percent is 5, not 2. *)
Lemma snapshot_percent_counterexample :
  let net := Examples.quote 51000 1000 5 [30000; 51000]%Q in
  let w := mkWorld Home.initial [] 0 in
  out (Detailed.body None true net w) = Normal tt
  /\ exists p,
      Home.performanceData (cells (world (Detailed.fetchBitcoinData None true net w))) = Some p
      /\ ~ percent_law p.
Proof.
  intros net w. split; [reflexivity|].
  eexists. split; [reflexivity|].
  unfold percent_law. vm_compute. intros H. discriminate H.
Qed.

Lemma snapshot_relations_witness :
  let net := Examples.quote 51000 1000 2 [30000; 50000; 51000]%Q in
  let w := mkWorld Home.initial [] 0 in
  (exists p,
      Home.performanceData (cells (world (SelfDerived.fetchBitcoinData None true net w))) = Some p
      /\ change_law p /\ percent_law p)
  /\ (exists p,
      Home.performanceData (cells (world (Detailed.fetchBitcoinData None true net w))) = Some p
      /\ change_law p /\ percent_law p).
Proof.
  intros net w. split.
  - apply (proj1 snapshot_relations None true net w). reflexivity.
  - destruct (proj2 snapshot_relations None true net w eq_refl)
      as (p & md & cur & Hp & Hmd & Hcur & Hc & _ & _ & Hiff).
    exists p. split; [exact Hp|]. split; [exact Hc|].
    apply Hiff. inversion Hmd; subst md. inversion Hcur; subst cur.
    vm_compute. split; [intros H; discriminate H | reflexivity].
Defined.

(* ================================================================== *)
(** * The denominator of the percent change *)

(** C7, as the code has it.  No strategy tests the denominator.  In
    the self-derived strategy and on the equity screen the percent is
    [priceChange / previous * 100] whatever [previous] is, so a zero
    previous price publishes Infinity, -Infinity or NaN.  On the equity
    screen a series with a single date has no previous close, and the
    open of that date is the denominator.  The detailed strategy makes
    no division for the 24h percent: it publishes the provider's field,
    zero when the field is absent, always finite. *)
Theorem percent_denominator_unguarded :
  (forall price isInitialLoad net w,
      out (SelfDerived.body price isInitialLoad net w) = Normal tt ->
      exists p,
        Home.performanceData
          (cells (world (SelfDerived.fetchBitcoinData price isInitialLoad net w))) = Some p
        /\ percent_law p
        /\ (BitcoinPerformanceData.previousPrice p =n= Fin 0 ->
            is_finite (BitcoinPerformanceData.priceChangePercent p) = false))
  /\ (forall previousPrice isInitialLoad net w,
      out (Strategy.body previousPrice isInitialLoad net w) = Normal tt ->
      exists data ts latest m,
        alpha_vantage net = Resolves data
        /\ Time_Series_Daily data = Some ts
        /\ get_key ts (js_index (Object_keys ts) 0) = Some latest
        /\ Strategy.mstrData
             (cells (world (Strategy.fetchMSTRData previousPrice isInitialLoad net w))) = Some m
        /\ MSTRData.price m = Parse.parseFloat (bar_close latest)
        /\ MSTRData.priceChange m
           = (MSTRData.price m - Parse.parseFloat (previous_close_text ts latest))%js
        /\ MSTRData.priceChangePercent m
           = ((MSTRData.priceChange m / Parse.parseFloat (previous_close_text ts latest))
              * Fin 100)%js
        /\ (Parse.parseFloat (previous_close_text ts latest) =n= Fin 0 ->
            is_finite (MSTRData.priceChangePercent m) = false))
  /\ (forall price isInitialLoad net w,
      out (Detailed.body price isInitialLoad net w) = Normal tt ->
      exists p,
        Home.performanceData
          (cells (world (Detailed.fetchBitcoinData price isInitialLoad net w))) = Some p
        /\ is_finite (BitcoinPerformanceData.priceChangePercent p) = true).
Proof.
  unfold percent_law, previous_close_text. split; [|split].
  - intros price i net w. run_cases; intros H; try discriminate H;
      eexists; (split; [reflexivity|]);
      (split; [apply num_eq_refl | apply percent_of_zero_not_finite]).
  - intros pp i net w. run_cases; intros H; try discriminate H.
    all: do 4 eexists; (split; [reflexivity|]); (split; [eassumption|]);
      (split; [eassumption|]); (split; [reflexivity|]);
      cbn [MSTRData.price MSTRData.priceChange MSTRData.priceChangePercent];
      repeat match goal with
             | H : get_key _ _ = _ |- _ => rewrite H
             end;
      (split; [reflexivity|]); (split; [reflexivity|]); (split; [reflexivity|]);
      apply percent_of_zero_not_finite.
  - intros price i net w. run_cases; intros H; try discriminate H;
      eexists; (split; reflexivity).
Qed.

(** The self-derived strategy on a series whose point of a day ago is
    priced 0: the published percent is not a finite number. *)
Lemma zero_previous_counterexample :
  let net := Examples.quote 100 100 0 [0; 100]%Q in
  let w := mkWorld Home.initial [] 0 in
  out (SelfDerived.body None true net w) = Normal tt
  /\ exists p,
      Home.performanceData
        (cells (world (SelfDerived.fetchBitcoinData None true net w))) = Some p
      /\ BitcoinPerformanceData.previousPrice p = Fin 0
      /\ BitcoinPerformanceData.priceChangePercent p = PosInf.
Proof.
  intros net w. split; [reflexivity|].
  eexists. split; [reflexivity|]. split; reflexivity.
Qed.

Lemma percent_denominator_unguarded_witness :
  let net := Examples.quote 100 100 0 [0; 100]%Q in
  let w := mkWorld Home.initial [] 0 in
  exists p,
    Home.performanceData
      (cells (world (SelfDerived.fetchBitcoinData None true net w))) = Some p
    /\ is_finite (BitcoinPerformanceData.priceChangePercent p) = false.
Proof.
  intros net w.
  destruct (proj1 percent_denominator_unguarded None true net w eq_refl)
    as (p & Hp & _ & Hz).
  exists p. split; [exact Hp|]. apply Hz.
  inversion Hp. vm_compute. reflexivity.
Defined.

(** A series with a single point: [prices[prices.length - 2]] is
    undefined, the cycle fails and nothing is published. *)
Lemma single_point_series_fails :
  let net := Examples.quote 100 0 0 [100]%Q in
  let r := SelfDerived.fetchBitcoinData None true net (mkWorld Home.initial [] 0) in
  Home.performanceData (cells (world r)) = None
  /\ Home.error (cells (world r)) = Some "Cannot read property '1' of undefined".
Proof. split; reflexivity. Qed.

(* ================================================================== *)
(** * The flash of the price *)

(** What the comparison does with the price it is given: a different
    price sets the colour (green above, red below) and starts the
    one-shot timer that clears it 2000 ms later. *)
Lemma flash_sets_then_clears (p q : number) (net : Network) (w : World Home.State) :
  strict_neqb q p = true ->
  let r := Home.flash (Some p) q net w in
  timers (world r) = (timers w ++ [mkTimer (clock w + 2000) (Home.with_priceColor None)])%list
  /\ (gtb q p = true -> Home.priceColor (cells (world r)) = Some green)
  /\ (gtb q p = false -> ltb q p = true -> Home.priceColor (cells (world r)) = Some red)
  /\ Home.priceColor (cells (fire_due (clock w + 2000) (world r))) = None.
Proof.
  intros N. unfold Home.flash. rewrite N.
  assert (L : forall c0 : Home.State,
             Home.priceColor
               (cells (fire_due (clock w + 2000)
                  (mkWorld c0 (timers w ++ [mkTimer (clock w + 2000) (Home.with_priceColor None)])
                           (clock w)))) = None).
  { intros c0. unfold fire_due. cbn [timers cells clock].
    rewrite filter_app, fold_left_app. cbn [filter due].
    rewrite Z.leb_refl. reflexivity. }
  destruct (gtb q p) eqn:G; [|destruct (ltb q p) eqn:B];
    run_defs; cbn; repeat split; intros; try congruence; apply L.
Qed.

(** The polls of a session are calls of the function of the first
    render. *)
Lemma session_polls (Net S : Type) (fetcher : S -> bool -> M Net S unit)
    (initial : S) (period t0 : Z) (nets : list Net) (r : result S unit) :
  In r (Component.session fetcher initial period t0 nets) ->
  exists i net w, r = fetcher initial i net w.
Proof.
  assert (T : forall nets t w,
             In r (Component.ticks fetcher initial period t nets w) ->
             exists i net w', r = fetcher initial i net w').
  { induction nets0 as [|n rest IH]; intros t w H; [destruct H|].
    cbn in H. destruct H as [H|H].
    - subst r. unfold Component.poll, Component.captured. eauto.
    - eapply IH. exact H. }
  destruct nets as [|n rest]; intros H; [destruct H|].
  cbn in H. destruct H as [H|H].
  - subst r. unfold Component.poll, Component.captured. eauto.
  - eapply T. exact H.
Qed.

Lemma null_price_no_flash :
  (forall i net w, ~ flashed (log (Detailed.fetchBitcoinData None i net w)))
  /\ (forall i net w, ~ flashed (log (SelfDerived.fetchBitcoinData None i net w)))
  /\ (forall i net w, ~ flashed (log (Strategy.fetchMSTRData None i net w))).
Proof.
  unfold flashed. repeat split; intros i net w; run_cases; no_flash.
Qed.

(** In no session of a screen does a poll set the flash colour or start
    its timer: the function that polls holds the initial, null price. *)
Lemma session_never_flashes :
  (forall t0 nets r, In r (Component.index_tsx t0 nets) -> ~ flashed (log r))
  /\ (forall t0 nets r, In r (Component.self_derived t0 nets) -> ~ flashed (log r))
  /\ (forall t0 nets r, In r (Component.strategy_tsx t0 nets) -> ~ flashed (log r)).
Proof.
  destruct null_price_no_flash as (D & S & E).
  repeat split; intros t0 nets r H;
    apply session_polls in H; destruct H as (i & net & w & ->); cbn; auto.
Qed.

(** C8 at its failing input.  The screen is mounted and its first
    fetch brings 50000; the tick of the interval brings 51000.  The
    price cell goes from 50000 to 51000, yet the second poll sets no
    colour and starts no timer, on the Bitcoin screen (both
    revisions) and, with closes 600.00 then 650.00, on the equity
    screen. *)
Theorem flash_missing_after_price_change :
  let nets := [Examples.quote 50000 1000 2 [30000; 49000; 50000]%Q;
               Examples.quote 51000 1000 2 [30000; 50000; 51000]%Q] in
  let quiet (S : Type) (color : S -> option string) (r : result S unit) :=
    ~ flashed (log r) /\ color (cells (world r)) = None /\ timers (world r) = [] in
  match Component.index_tsx 0 nets with
  | [first; second] =>
      Home.price (cells (world first)) = Some (Fin 50000)
      /\ Home.price (cells (world second)) = Some (Fin 51000)
      /\ quiet Home.State Home.priceColor second
  | _ => False
  end
  /\ match Component.self_derived 0 nets with
     | [first; second] =>
         Home.price (cells (world first)) = Some (Fin 50000)
         /\ Home.price (cells (world second)) = Some (Fin 51000)
         /\ quiet Home.State Home.priceColor second
     | _ => False
     end
  /\ match Component.strategy_tsx 0 [Examples.equity "600.00"; Examples.equity "650.00"] with
     | [first; second] =>
         option_map MSTRData.price (Strategy.mstrData (cells (world first))) = Some (Fin 600)
         /\ option_map MSTRData.price (Strategy.mstrData (cells (world second))) = Some (Fin 650)
         /\ quiet Strategy.State Strategy.priceColor second
     | _ => False
     end.
Proof.
  intros nets quiet. subst quiet. unfold flashed.
  repeat split; try reflexivity;
    intros [H|[ms H]]; vm_compute in H; in_log.
Qed.

Lemma flash_only_on_change_witness :
  let net := Examples.quote 51000 1000 2 [30000; 50000; 51000]%Q in
  let w := mkWorld Home.initial [] 0 in
  let first := Detailed.fetchBitcoinData None true net w in
  let same := SelfDerived.fetchBitcoinData (Some (Fin 51000)) false net w in
  (~ flashed (log first)
   /\ Home.priceColor (cells (world first)) = None
   /\ timers (world first) = [])
  /\ (~ flashed (log same)
      /\ Home.priceColor (cells (world same)) = None
      /\ timers (world same) = []).
Proof.
  intros net w first same. split.
  - apply (proj1 (proj1 flash_only_on_change None true net w)). reflexivity.
  - apply (proj2 (proj2 (proj2 flash_only_on_change (Some (Fin 51000)) false net w))
             (Fin 51000) (Fin 51000)); reflexivity.
Defined.

(* ================================================================== *)
(** * More on the stride sampler *)

(** X1.  The sample never has more points than the target, whatever
    the length of the series; a series no longer than the target is
    kept whole. *)
Theorem stride_sample_within_target (A : Type) (T : positive) (l : list A) :
  (List.length (stride_sample T l) <= Pos.to_nat T)%nat
  /\ ((List.length l <= Pos.to_nat T)%nat -> stride_sample T l = l).
Proof.
  split; [apply stride_sample_length_le | apply stride_sample_short].
Qed.

(** X2.  A series longer than the target is sampled to more than half
    the target, and the oldest point of a series is always kept. *)
Theorem stride_sample_fills_target (A : Type) (T : positive) (l : list A) :
  ((Pos.to_nat T < List.length l)%nat ->
   (Pos.to_nat T < 2 * List.length (stride_sample T l))%nat)
  /\ (forall x r, l = x :: r -> exists r', stride_sample T l = x :: r').
Proof.
  split.
  - intros Hlt.
    pose proof (Pos2Nat.is_pos T) as HT.
    pose proof (step_of_ceiling (List.length l) T) as Es.
    pose proof (@ceil_bounds (List.length l) (Pos.to_nat T) HT) as [B1 B2].
    rewrite stride_sample_length.
    set (s := step_of (List.length l) T) in *.
    assert (Hs : (0 < s)%nat) by apply step_of_pos.
    pose proof (@ceil_bounds (List.length l) s Hs) as [C1 C2].
    assert (Ec : s = ((List.length l + Pos.to_nat T - 1) / Pos.to_nat T)%nat).
    { rewrite Es. apply Nat.max_r. nia. }
    rewrite <- Ec in B1, B2. nia.
  - intros x r ->. rewrite stride_sample_every.
    fold (step_of (List.length (x :: r)) T).
    rewrite (@filter_every_unfold A _ 0%nat (x :: r) (step_of_pos _ T)
               (Nat.Div0.mod_0_l _)).
    eexists. reflexivity.
Qed.

Lemma stride_sample_fills_target_witness :
  (12 < 2 * List.length (stride_sample 12 (seq 0 13)))%nat
  /\ exists r', stride_sample 12 (seq 0 13) = 0%nat :: r'.
Proof.
  split.
  - apply (proj1 (@stride_sample_fills_target nat 12 (seq 0 13))). vm_compute. lia.
  - apply (proj2 (@stride_sample_fills_target nat 12 (seq 0 13)) 0%nat (seq 1 12)).
    reflexivity.
Defined.

(** X3.  The last point of the sample is the point of index
    (n - 1) * step, fewer than step points before the end of the
    series; it is the newest point exactly when step divides L - 1. *)
Theorem stride_sample_last (A : Type) (T : positive) (l : list A) :
  let L := List.length l in
  let s := step_of L T in
  let n := List.length (stride_sample T l) in
  (0 < L)%nat ->
  nth_error (stride_sample T l) (n - 1) = nth_error l ((n - 1) * s)
  /\ (L - s <= (n - 1) * s <= L - 1)%nat
  /\ (((n - 1) * s = L - 1)%nat <-> ((L - 1) mod s = 0)%nat).
Proof.
  intros L s n HL.
  assert (Hs : (0 < s)%nat) by apply step_of_pos.
  assert (En : n = ((L + s - 1) / s)%nat) by apply stride_sample_length.
  pose proof (@ceil_bounds L s Hs) as [C1 C2]. rewrite <- En in C1, C2.
  specialize (C2 HL).
  split; [apply stride_sample_nth|].
  clearbody n L s. clear En.
  destruct n as [|m]; [nia|].
  replace (S m - 1)%nat with m by lia.
  replace (s * S m)%nat with (s + m * s)%nat in C1, C2 by (rewrite Nat.mul_succ_r; lia).
  split; [lia|]. split.
  - intros E. rewrite <- E. apply Nat.Div0.mod_mul.
  - intros M. apply Nat.Div0.div_exact in M.
    set (k := ((L - 1) / s)%nat) in *.
    assert (k = m); [|subst k; lia].
    destruct (Nat.lt_trichotomy k m) as [Lt|[Eq|Gt]]; [|exact Eq|].
    + assert (s * S k <= s * m)%nat by (apply Nat.mul_le_mono_l; lia).
      rewrite Nat.mul_succ_r in *. lia.
    + assert (s * S m <= s * k)%nat by (apply Nat.mul_le_mono_l; lia).
      rewrite Nat.mul_succ_r in *. lia.
Qed.

Lemma stride_sample_last_witness :
  let l := seq 0 26 in
  nth_error (stride_sample 10 l) 8 = Some 24%nat
  /\ ~ ((9 - 1) * step_of 26 10 = 26 - 1)%nat.
Proof.
  intros l.
  destruct (@stride_sample_last nat 10 l) as (H1 & _ & H3).
  - vm_compute. lia.
  - split.
    + exact H1.
    + intros E. apply H3 in E. vm_compute in E. discriminate E.
Defined.

Lemma stride_sample_within_target_witness :
  (5 <= Pos.to_nat 12)%nat /\ stride_sample 12 (seq 0 5) = seq 0 5.
Proof.
  split; [vm_compute; lia|].
  apply (proj2 (@stride_sample_within_target nat 12 (seq 0 5))). vm_compute. lia.
Defined.

(* ================================================================== *)
(** * More on the chart fetch *)

Lemma stride_sample_cons (A : Type) (T : positive) (x : A) (r : list A) :
  exists r', stride_sample T (x :: r) = x :: r'.
Proof.
  rewrite stride_sample_every. fold (step_of (List.length (x :: r)) T).
  rewrite (@filter_every_unfold A _ 0%nat (x :: r) (step_of_pos _ T)
             (Nat.Div0.mod_0_l _)).
  eexists. reflexivity.
Qed.

Lemma sampled_data_cons (T : positive) (fmt : Q -> label) (p : Q * Q) (ps : list (Q * Q)) :
  exists v vs, ChartData.data (Chart.sampled T fmt (p :: ps)) = v :: vs.
Proof.
  unfold Chart.sampled. destruct (stride_sample_cons T p ps) as [r' E].
  rewrite E. cbn. eauto.
Qed.

Lemma map_snoc_cons (A B : Type) (f : A -> B) (l : list A) (x : A) :
  exists v vs, map f (l ++ [x])%list = v :: vs.
Proof. destruct l; cbn; eauto. Qed.

Lemma chart_fetch_cells :
  forall interval net w,
    let r := Chart.fetchChartData interval net w in
    out r = Normal tt
    /\ timers (world r) = timers w
    /\ exists cd,
        cells (world r) = Home.with_chartLoading false (Home.with_chartData cd (cells w))
        /\ (forall d, cd = Some d -> ChartData.data d <> []).
Proof.
  intros interval net [[p pp ld lu pc pd er cd0 si cl] tm ck].
  destruct interval; chart_cases.
  all: split; [reflexivity|]; split; [reflexivity|]; eexists;
    (split; [reflexivity|]); cbn.
  all: try solve [intros d F; discriminate F].
  all: try match goal with
       | |- context [Chart.sampled ?T ?f (?p :: ?ps)] =>
           destruct (sampled_data_cons T f p ps) as (v & vs & E);
           intros d F; inversion F; subst; rewrite E; discriminate
       end.
  all: match goal with
       | |- context [map Parse.parseFloat (?l ++ [?x])%list] =>
           destruct (map_snoc_cons Parse.parseFloat l x) as (v & vs & E);
           intros d F; inversion F; subst; cbn; rewrite E; discriminate
       end.
Qed.

(** X4.  [fetchChartData] always ends normally, with the spinner off,
    no timer added and every cell but the two of the chart as it was.
    What it leaves in the chart cell is null or a series with at least
    one value, so the chart region shows the line chart or
    'Chart data unavailable', never the spinner and never an empty
    chart. *)
Theorem chart_fetch_settles :
  forall interval net w,
    let r := Chart.fetchChartData interval net w in
    out r = Normal tt
    /\ timers (world r) = timers w
    /\ exists cd,
        cells (world r) = Home.with_chartLoading false (Home.with_chartData cd (cells w))
        /\ (forall d, cd = Some d -> ChartData.data d <> [])
        /\ Chart.renderChart (cells (world r))
           = match cd with Some d => Chart.LineChart d | None => Chart.Unavailable end.
Proof.
  intros interval net w r.
  destruct (chart_fetch_cells interval net w) as (H1 & H2 & cd & H3 & H4).
  split; [exact H1|]. split; [exact H2|]. exists cd.
  split; [exact H3|]. split; [exact H4|].
  unfold r. rewrite H3. unfold Chart.renderChart. cbn.
  destruct cd as [d|]; [|reflexivity].
  specialize (H4 d eq_refl). destruct (ChartData.data d); [congruence | reflexivity].
Qed.

(** X5.  A published series has at most as many points as the target
    of its span (12 for 1D and 1Y, 10 for 1W, 8 for 1M, 15 for ALL),
    except on the Gemini path, where it has one point per entry of
    [changes]. *)
Theorem chart_points_bounded :
  forall interval net w d,
    Home.chartData (cells (world (Chart.fetchChartData interval net w))) = Some d ->
    (List.length (ChartData.data d) <= Pos.to_nat (target_points interval))%nat
    \/ (interval = I1D
        /\ exists g cs,
            gemini_ticker net = Resolves g /\ changes g = Some cs
            /\ List.length (ChartData.data d) = List.length cs).
Proof.
  intros interval net w d.
  destruct interval; chart_cases; intros H; try discriminate H;
    inversion H; subst; clear H.
  all: try solve [left; unfold Chart.sampled; cbn [ChartData.data];
                  rewrite length_map; apply stride_sample_length_le].
  all: right; split; [reflexivity|]; do 2 eexists;
    split; [reflexivity|]; split; [eassumption|];
    cbn [ChartData.data]; rewrite length_map, length_app, length_rev; cbn; lia.
Qed.

Lemma chart_points_bounded_witness :
  let net := Examples.gemini_down (map inject_Z (map Z.of_nat (seq 1 100))) in
  let r := Chart.fetchChartData I1M net (mkWorld Home.initial [] 0) in
  exists d,
    Home.chartData (cells (world r)) = Some d
    /\ (List.length (ChartData.data d) <= 8)%nat.
Proof.
  intros net r. eexists. split; [reflexivity|].
  destruct (@chart_points_bounded I1M net (mkWorld Home.initial [] 0) _ eq_refl)
    as [H|[H _]]; [exact H | discriminate H].
Defined.

Lemma nth_error_mapi_from (A B : Type) (f : A -> Z -> B) (l : list A) :
  forall k i,
    nth_error (mapi_from f k l) i
    = option_map (fun x => f x (k + Z.of_nat i)) (nth_error l i).
Proof.
  induction l as [|x r IH]; intros k i.
  - destruct i; reflexivity.
  - destruct i as [|i]; cbn [mapi_from nth_error option_map].
    + rewrite Z.add_0_r. reflexivity.
    + rewrite IH. destruct (nth_error r i); cbn; [|reflexivity].
      do 2 f_equal. lia.
Qed.

Lemma hour_label_now (index : Z) : Chart.hour_label index = LNow <-> index = 23.
Proof.
  unfold Chart.hour_label. destruct (Z.eqb_spec (23 - index) 0) as [E|E].
  - split; [lia | reflexivity].
  - destruct (Z.rem (23 - index) 6 =? 0); split; intros H; try discriminate H; lia.
Qed.

Lemma hour_label_hours (index h : Z) :
  Chart.hour_label index = LHoursAgo h ->
  h = 23 - index /\ h <> 0 /\ Z.rem h 6 = 0.
Proof.
  unfold Chart.hour_label. destruct (Z.eqb_spec (23 - index) 0) as [E|E];
    [discriminate|].
  destruct (Z.eqb_spec (Z.rem (23 - index) 6) 0) as [R|R]; [|discriminate].
  intros H. inversion H; subst. auto.
Qed.

(** X6.  On the Gemini path the labels are one per price.  The label
    'Now' is the label of index 23 and of no other, so it is the label
    of the newest point exactly when [changes] has 24 entries; a label
    `Nh` stands at index 23 - N, for N a non-zero multiple of 6. *)
Theorem gemini_labels :
  forall net w g cs,
    gemini_ticker net = Resolves g -> changes g = Some cs -> cs <> [] ->
    exists d,
      Home.chartData (cells (world (Chart.fetchChartData I1D net w))) = Some d
      /\ List.length (ChartData.labels d) = List.length cs
      /\ (forall i, nth_error (ChartData.labels d) i = Some LNow
                    <-> (i = 23 /\ 23 < List.length cs)%nat)
      /\ (nth_error (ChartData.labels d) (List.length cs - 1) = Some LNow
          <-> List.length cs = 24%nat)
      /\ (forall i h, nth_error (ChartData.labels d) i = Some (LHoursAgo h) ->
                      h = 23 - Z.of_nat i /\ h <> 0 /\ Z.rem h 6 = 0).
Proof.
  intros net w g cs Hg Hc Hne.
  assert (Now : forall i,
             nth_error (mapi (fun (_ : string) index => Chart.hour_label index) (rev cs)) i
             = Some LNow <-> (i = 23 /\ 23 < List.length cs)%nat).
  { intros i. unfold mapi. rewrite nth_error_mapi_from.
    destruct (nth_error (rev cs) i) eqn:E; cbn.
    - assert (Hi : (i < List.length cs)%nat)
        by (rewrite <- length_rev; apply nth_error_Some; congruence).
      split.
      + intros H. inversion H as [H']. apply hour_label_now in H'. lia.
      + intros [-> _]. reflexivity.
    - apply nth_error_None in E. rewrite length_rev in E.
      split; [discriminate | lia]. }
  exists (ChartData.mk (mapi (fun _ index => Chart.hour_label index) (rev cs))
                       (map Parse.parseFloat (rev cs))).
  split.
  - destruct cs as [|c cs']; [congruence|].
    run_defs. rewrite Hg. cbn. rewrite Hc. cbn.
    rewrite mapM_parseFloat. destruct w as [cw tw kw]. reflexivity.
  - cbn [ChartData.labels]. split.
    + unfold mapi. rewrite mapi_from_length, length_rev. reflexivity.
    + split; [exact Now|]. split.
      * rewrite Now. split; [lia|].
        intros E. rewrite E. split; [reflexivity | lia].
      * intros i h. unfold mapi. rewrite nth_error_mapi_from.
        destruct (nth_error (rev cs) i); cbn; [|discriminate].
        intros H. inversion H as [H']. apply hour_label_hours in H'. exact H'.
Qed.

Lemma gemini_labels_witness :
  let net := Examples.gemini_day [] in
  exists d,
    Home.chartData (cells (world (Chart.fetchChartData I1D net (mkWorld Home.initial [] 0))))
      = Some d
    /\ ~ nth_error (ChartData.labels d) 2 = Some LNow.
Proof.
  intros net.
  destruct (@gemini_labels net (mkWorld Home.initial [] 0)
              (Build_GeminiData (Some ["43000.5"; "42000"; "41000.25"]))
              ["43000.5"; "42000"; "41000.25"] eq_refl eq_refl)
    as (d & Hd & _ & Hnow & _).
  - discriminate.
  - exists d. split; [exact Hd|]. intros F. apply Hnow in F. destruct F as [F _].
    discriminate F.
Defined.

(* ================================================================== *)
(** * More on the fetch cycles *)

(** X7.  The requests of one cycle.  The self-derived strategy makes
    exactly one, for the 365-day series; the equity screen exactly
    one; the detailed strategy asks for the coin and then, unless that
    already failed, for the 365-day series; a chart fetch asks for the
    series of its span, after Gemini (if at all) for 1D. *)
Theorem request_budget :
  (forall price i net w,
      requests (log (SelfDerived.fetchBitcoinData price i net w))
      = [CoinGeckoMarketChart D365])
  /\ (forall previousPrice i net w,
      requests (log (Strategy.fetchMSTRData previousPrice i net w))
      = [AlphaVantageDaily])
  /\ (forall price i net w,
      let rq := requests (log (Detailed.fetchBitcoinData price i net w)) in
      rq = [CoinGeckoCoin; CoinGeckoMarketChart D365]
      \/ (rq = [CoinGeckoCoin]
          /\ exists e, out (Detailed.body price i net w) = Throws e))
  /\ (forall interval net w,
      let rq := requests (log (Chart.fetchChartData interval net w)) in
      rq = [CoinGeckoMarketChart (Chart.source_days interval)]
      \/ (interval = I1D
          /\ (rq = [GeminiTicker] \/ rq = [GeminiTicker; CoinGeckoMarketChart D1]))).
Proof.
  split; [|split; [|split]].
  - intros price i net w. run_cases; reflexivity.
  - intros pp i net w. run_cases; reflexivity.
  - intros price i net w. run_cases;
      first [left; reflexivity | right; split; [reflexivity | eexists; reflexivity]].
  - intros interval net w. destruct interval; chart_cases;
      rewrite ?requests_app, ?requests_parseFloat; cbn;
      first [left; reflexivity
            | right; split; [reflexivity|]; first [left; reflexivity | right; reflexivity]].
Qed.

Lemma js_index_Some_bounds (A : Type) (l : list A) (i : Z) (x : A) :
  js_index l i = Some x -> 0 <= i < Z.of_nat (List.length l).
Proof.
  unfold js_index. destruct (Z.ltb_spec i 0) as [N|N]; [discriminate|].
  intros H. assert (Hn : nth_error l (Z.to_nat i) <> None) by congruence.
  apply nth_error_Some in Hn. lia.
Qed.

Lemma js_index_None_bounds (A : Type) (l : list A) (i : Z) :
  js_index l i = None -> i < 0 \/ Z.of_nat (List.length l) <= i.
Proof.
  unfold js_index. destruct (Z.ltb_spec i 0) as [N|N]; [auto|].
  intros H. apply nth_error_None in H. lia.
Qed.

(** Turns what is known of the array reads into arithmetic. *)
Ltac index_facts :=
  repeat match goal with
         | H : js_index _ _ = Some _ |- _ => apply js_index_Some_bounds in H
         | H : js_index _ _ = None |- _ => apply js_index_None_bounds in H
         | H : (_ >? _) = true |- _ => apply Z.gtb_lt in H
         | H : (_ >? _) = false |- _ => rewrite Z.gtb_ltb in H; apply Z.ltb_ge in H
         end;
  cbn [List.length] in *.

(** X8.  The self-derived cycle succeeds exactly when the 365-day
    series arrives with at least two price points and with non-empty
    [market_caps] and [total_volumes]. *)
Theorem self_derived_succeeds_iff :
  forall price i net w,
    out (SelfDerived.body price i net w) = Normal tt
    <-> exists h ps mc vs,
        market_chart net D365 = Resolves h
        /\ prices h = Some ps /\ (2 <= List.length ps)%nat
        /\ market_caps h = Some mc /\ mc <> []
        /\ total_volumes h = Some vs /\ vs <> [].
Proof.
  intros price i net w. run_cases; split; intros H; try discriminate H;
    try reflexivity.
  all: try solve [do 4 eexists; repeat split; try eassumption; try reflexivity;
                  index_facts; try lia; intros F; subst; cbn in *; lia].
  all: destruct H as (h & ps & mc & vs & Hh & Hp & Hl & Hm & Hmn & Hv & Hvn).
  all: try congruence.
  all: inversion Hh; subst h.
  all: repeat match goal with
       | H1 : ?x = Some _, H2 : ?x = Some _ |- _ =>
           rewrite H1 in H2; inversion H2; subst; clear H2
       | H1 : ?x = None, H2 : ?x = Some _ |- _ => congruence
       end.
  all: try congruence.
  all: index_facts.
  all: try lia.
  all: try solve [destruct mc; [congruence | cbn [List.length] in *; lia]].
  all: try solve [destruct vs; [congruence | cbn [List.length] in *; lia]].
Qed.

(** X9.  The detailed cycle succeeds exactly when the coin arrives with
    [market_data] and its five [usd] objects, and the 365-day series
    with at least one price point. *)
Theorem detailed_succeeds_iff :
  forall price i net w,
    out (Detailed.body price i net w) = Normal tt
    <-> exists md cur hi lo vol cap h p ps,
        coins_bitcoin net = Resolves (Build_CoinData (Some md))
        /\ current_price md = Some cur
        /\ high_24h md = Some hi /\ low_24h md = Some lo
        /\ total_volume md = Some vol /\ market_cap md = Some cap
        /\ market_chart net D365 = Resolves h
        /\ prices h = Some (p :: ps).
Proof.
  intros price i net w. run_cases; split; intros H; try discriminate H;
    try reflexivity.
  all: try match goal with
       | H : coins_bitcoin _ = Resolves ?c |- _ => destruct c as [omd]; cbn in *; subst
       end.
  all: try solve [do 9 eexists; repeat split; try eassumption; reflexivity].
  all: destruct H as (md & cur & hi & lo & vol & cap & h & p0 & ps
                      & Hc & H1 & H2 & H3 & H4 & H5 & Hh & Hp).
  all: try congruence.
  all: try (inversion Hc; subst md).
  all: try congruence.
  all: try (inversion Hh; subst h); congruence.
Qed.

Lemma object_first_key (A : Type) (o : list (string * A)) :
  match js_index (Object_keys o) 0 with
  | Some k => exists v r, o = (k, v) :: r /\ get_key o (Some k) = Some v
  | None => o = []
  end.
Proof.
  destruct o as [|[k v] r]; [reflexivity|].
  unfold js_index, Object_keys, get_key. cbn.
  rewrite String.eqb_refl. eauto.
Qed.

(** X10.  The equity cycle succeeds exactly when the payload has
    neither 'Error Message' nor 'Note', has a 'Time Series (Daily)'
    with at least one date, and has its 'Meta Data'. *)
Theorem equity_succeeds_iff :
  forall previousPrice i net w,
    out (Strategy.body previousPrice i net w) = Normal tt
    <-> exists data ts meta,
        alpha_vantage net = Resolves data
        /\ Error_Message data = None /\ Note data = None
        /\ Time_Series_Daily data = Some ts /\ ts <> []
        /\ Meta_Data data = Some meta.
Proof.
  intros pp i net w. run_cases; split; intros H; try discriminate H;
    try reflexivity.
  all: try solve [do 3 eexists; repeat split; try eassumption; try reflexivity;
                  intros F; subst; unfold get_key, js_index, Object_keys in *;
                  cbn in *; congruence].
  all: destruct H as (data & ts & meta & Ha & He & Hn & Ht & Hne & Hm).
  all: try congruence.
  all: inversion Ha; subst data.
  all: try congruence.
  all: repeat match goal with
       | H1 : ?x = Some _, H2 : ?x = Some _ |- _ =>
           rewrite H1 in H2; inversion H2; subst; clear H2
       end.
  all: try congruence.
  all: match goal with
       | H : get_key ?o (js_index (Object_keys ?o) 0) = None |- _ =>
           pose proof (object_first_key o) as K;
           destruct (js_index (Object_keys o) 0);
           [destruct K as (v & r & _ & K) | ]; congruence
       end.
Qed.

Lemma self_derived_succeeds_iff_witness :
  let net := Examples.quote 100 0 0 [100]%Q in
  let w := mkWorld Home.initial [] 0 in
  ~ out (SelfDerived.body None true net w) = Normal tt.
Proof.
  intros net w F.
  apply (proj1 (self_derived_succeeds_iff None true net w)) in F.
  destruct F as (h & ps & mc & vs & Hh & Hp & Hl & _).
  inversion Hh; subst h. inversion Hp; subst ps. vm_compute in Hl. lia.
Defined.

Lemma detailed_succeeds_iff_witness :
  let net := Examples.quote 100 0 0 [100]%Q in
  out (Detailed.body None true net (mkWorld Home.initial [] 0)) = Normal tt.
Proof.
  intros net.
  apply (proj2 (detailed_succeeds_iff None true net (mkWorld Home.initial [] 0))).
  do 9 eexists. repeat split; reflexivity.
Defined.

Lemma equity_succeeds_iff_witness :
  let net := Examples.equity "650.00" in
  out (Strategy.body None true net (mkWorld Strategy.initial [] 0)) = Normal tt.
Proof.
  intros net.
  apply (proj2 (equity_succeeds_iff None true net (mkWorld Strategy.initial [] 0))).
  do 3 eexists. repeat split; try reflexivity. discriminate.
Defined.

(** X11.  Only the first call shows the loading indicator: a call with
    [isInitialLoad] false never calls [setLoading] and leaves [loading]
    as it was, and a call with [isInitialLoad] true ends with [loading]
    false whether the cycle succeeded or failed.  The same on the three
    screens. *)
Theorem loading_only_on_first_call :
  (forall price net w,
      let r := Detailed.fetchBitcoinData price false net w in
      ~ In (EvSet CLoading) (log r)
      /\ Home.loading (cells (world r)) = Home.loading (cells w))
  /\ (forall price net w,
      Home.loading (cells (world (Detailed.fetchBitcoinData price true net w))) = false)
  /\ (forall price net w,
      let r := SelfDerived.fetchBitcoinData price false net w in
      ~ In (EvSet CLoading) (log r)
      /\ Home.loading (cells (world r)) = Home.loading (cells w))
  /\ (forall price net w,
      Home.loading (cells (world (SelfDerived.fetchBitcoinData price true net w))) = false)
  /\ (forall previousPrice net w,
      let r := Strategy.fetchMSTRData previousPrice false net w in
      ~ In (EvSet CLoading) (log r)
      /\ Strategy.loading (cells (world r)) = Strategy.loading (cells w))
  /\ (forall previousPrice net w,
      Strategy.loading
        (cells (world (Strategy.fetchMSTRData previousPrice true net w))) = false).
Proof.
  repeat split; intros; try (intro; revert H); run_cases;
    try reflexivity; intros H; in_log.
Qed.

(** X12.  A successful cycle publishes one coherent state: the price
    cell is the current price of the published snapshot, the
    previous-price cell is the price the function held, the time of the
    update is the time of the cycle, and the error of an earlier cycle
    is cleared.  On the equity screen the previous-price cell is the
    price just published. *)
Theorem success_publishes_coherent_state :
  (forall price i net w,
      out (Detailed.body price i net w) = Normal tt ->
      let s := cells (world (Detailed.fetchBitcoinData price i net w)) in
      exists p,
        Home.performanceData s = Some p
        /\ Home.price s = Some (BitcoinPerformanceData.currentPrice p)
        /\ Home.previousPrice s = price
        /\ Home.lastUpdated s = Some (clock w)
        /\ Home.error s = None)
  /\ (forall price i net w,
      out (SelfDerived.body price i net w) = Normal tt ->
      let s := cells (world (SelfDerived.fetchBitcoinData price i net w)) in
      exists p,
        Home.performanceData s = Some p
        /\ Home.price s = Some (BitcoinPerformanceData.currentPrice p)
        /\ Home.previousPrice s = price
        /\ Home.lastUpdated s = Some (clock w)
        /\ Home.error s = None)
  /\ (forall previousPrice i net w,
      out (Strategy.body previousPrice i net w) = Normal tt ->
      let s := cells (world (Strategy.fetchMSTRData previousPrice i net w)) in
      exists m,
        Strategy.mstrData s = Some m
        /\ Strategy.previousPrice s = Some (MSTRData.price m)
        /\ Strategy.lastUpdated s = Some (clock w)
        /\ Strategy.error s = None).
Proof.
  split; [|split]; intros p i net w; run_cases; intros H; try discriminate H;
    eexists; repeat split; reflexivity.
Qed.

Lemma success_publishes_coherent_state_witness :
  let net := Examples.quote 51000 1000 2 [30000; 50000; 51000]%Q in
  let w := mkWorld (Home.with_error (Some "Network request failed") (Examples.held 50000))
                   [] 240000 in
  let s := cells (world (Detailed.fetchBitcoinData (Some (Fin 50000)) false net w)) in
  Home.price s = Some (Fin 51000)
  /\ Home.previousPrice s = Some (Fin 50000)
  /\ Home.lastUpdated s = Some 240000
  /\ Home.error s = None.
Proof.
  intros net w s.
  destruct (proj1 success_publishes_coherent_state (Some (Fin 50000)) false net w eq_refl)
    as (p & Hp & H1 & H2 & H3 & H4).
  inversion Hp; subst p.
  repeat split; assumption.
Defined.

(* ================================================================== *)
(** * The 24h range of the self-derived snapshot *)

Lemma ltb_Fin (x y : Q) : JS.ltb (Fin x) (Fin y) = true <-> (x < y)%Q.
Proof.
  unfold JS.ltb. rewrite andb_true_iff, negb_true_iff.
  rewrite Qle_bool_iff. split.
  - intros [L N]. apply Qle_lteq in L. destruct L as [L|E]; [exact L|].
    apply Qeq_bool_iff in E. congruence.
  - intros L. split; [apply Qlt_le_weak; exact L|].
    destruct (Qeq_bool x y) eqn:E; [|reflexivity].
    apply Qeq_bool_iff in E. rewrite E in L. exfalso. exact (Qlt_irrefl _ L).
Qed.

Lemma fold_max_Fin (l : list Q) :
  forall acc, exists m,
    fold_left JS.max2 (map Fin l) (Fin acc) = Fin m
    /\ (acc <= m)%Q /\ Forall (fun x => (x <= m)%Q) l.
Proof.
  induction l as [|x r IH]; intros acc.
  - exists acc. repeat split; [apply Qle_refl | constructor].
  - cbn [map fold_left]. unfold JS.max2 at 2.
    destruct (JS.ltb (Fin acc) (Fin x)) eqn:L.
    + apply ltb_Fin in L. destruct (IH x) as (m & E & B & F).
      exists m. repeat split; [exact E | | constructor; assumption].
      apply Qle_trans with x; [apply Qlt_le_weak; exact L | exact B].
    + destruct (IH acc) as (m & E & B & F).
      exists m. repeat split; [exact E | exact B | constructor; [|exact F]].
      apply Qle_trans with acc; [|exact B].
      apply Qnot_lt_le. intros C. apply ltb_Fin in C. congruence.
Qed.

Lemma fold_min_Fin (l : list Q) :
  forall acc, exists m,
    fold_left JS.min2 (map Fin l) (Fin acc) = Fin m
    /\ (m <= acc)%Q /\ Forall (fun x => (m <= x)%Q) l.
Proof.
  induction l as [|x r IH]; intros acc.
  - exists acc. repeat split; [apply Qle_refl | constructor].
  - cbn [map fold_left]. unfold JS.min2 at 2.
    destruct (JS.ltb (Fin x) (Fin acc)) eqn:L.
    + apply ltb_Fin in L. destruct (IH x) as (m & E & B & F).
      exists m. repeat split; [exact E | | constructor; assumption].
      apply Qle_trans with x; [exact B | apply Qlt_le_weak; exact L].
    + destruct (IH acc) as (m & E & B & F).
      exists m. repeat split; [exact E | exact B | constructor; [|exact F]].
      apply Qle_trans with acc; [exact B|].
      apply Qnot_lt_le. intros C. apply ltb_Fin in C. congruence.
Qed.

(** The greatest and the least of a non-empty list of finite numbers. *)
Lemma Math_max_min_Fin (x : Q) (r : list Q) :
  exists lo hi,
    JS.Math_min (map Fin (x :: r)) = Fin lo
    /\ JS.Math_max (map Fin (x :: r)) = Fin hi
    /\ Forall (fun y => (lo <= y <= hi)%Q) (x :: r).
Proof.
  unfold JS.Math_min, JS.Math_max. cbn [map fold_left].
  change (JS.min2 PosInf (Fin x)) with (Fin x).
  change (JS.max2 NegInf (Fin x)) with (Fin x).
  destruct (fold_min_Fin r x) as (lo & E1 & B1 & F1).
  destruct (fold_max_Fin r x) as (hi & E2 & B2 & F2).
  exists lo, hi. repeat split; [exact E1 | exact E2 |].
  constructor; [split; assumption|].
  rewrite Forall_forall in *. intros y Hy. split; auto.
Qed.

Lemma in_slice_last (A : Type) (n : nat) (l : list A) (i : Z) (e : A) :
  js_index l i = Some e ->
  Z.of_nat (List.length l) - Z.of_nat n <= i ->
  In e (slice_last n l).
Proof.
  intros H B. pose proof (js_index_Some_bounds _ _ H) as [B0 B1].
  unfold js_index in H. destruct (Z.ltb_spec i 0) as [N|N]; [lia|].
  unfold slice_last.
  apply nth_error_In with (n := (Z.to_nat i - (List.length l - n))%nat).
  rewrite nth_error_skipn. rewrite <- H. f_equal. lia.
Qed.

Lemma range_of_points (L : list (Q * Q)) (e1 e2 : Q * Q) :
  In e1 L -> In e2 L ->
  exists lo hi,
    JS.Math_min (map (fun p => Fin (snd p)) L) = Fin lo
    /\ JS.Math_max (map (fun p => Fin (snd p)) L) = Fin hi
    /\ (lo <= snd e1 <= hi)%Q /\ (lo <= snd e2 <= hi)%Q.
Proof.
  intros I1 I2.
  rewrite <- (map_map snd Fin).
  apply (in_map snd) in I1. apply (in_map snd) in I2.
  destruct (map snd L) as [|x r]; [destruct I1|].
  destruct (Math_max_min_Fin x r) as (lo & hi & E1 & E2 & F).
  exists lo, hi. rewrite Forall_forall in F.
  repeat split; try assumption; apply F; assumption.
Qed.

(** X13.  In the self-derived snapshot the current price and the
    previous price both lie between [low24h] and [high24h]: all four
    are read from the last 48 points of the same series. *)
Theorem self_derived_range :
  forall price i net w,
    out (SelfDerived.body price i net w) = Normal tt ->
    exists p lo hi cur prev,
      Home.performanceData
        (cells (world (SelfDerived.fetchBitcoinData price i net w))) = Some p
      /\ BitcoinPerformanceData.low24h p = Fin lo
      /\ BitcoinPerformanceData.high24h p = Fin hi
      /\ BitcoinPerformanceData.currentPrice p = Fin cur
      /\ BitcoinPerformanceData.previousPrice p = Fin prev
      /\ (lo <= cur <= hi)%Q /\ (lo <= prev <= hi)%Q.
Proof.
  intros price i net w. run_cases; intros H; try discriminate H.
  all: match goal with
       | Hc : js_index ?ps (Z.of_nat ?len - 1) = Some ?c,
         Hp : js_index ?ps (Z.of_nat ?len - ?k) = Some ?q,
         Hb : (Z.of_nat ?len >? 48) = _ |- _ =>
           lazymatch k with
           | 1 => fail
           | _ =>
               assert (Ic : In c (slice_last 48 ps))
                 by (apply (in_slice_last 48 _ Hc); cbn [List.length]; lia);
               assert (Ip : In q (slice_last 48 ps))
                 by (apply (in_slice_last 48 _ Hp);
                     first [apply Z.gtb_lt in Hb
                           | rewrite Z.gtb_ltb in Hb; apply Z.ltb_ge in Hb];
                     cbn [List.length] in *; lia);
               destruct (range_of_points _ _ _ Ic Ip) as (lo & hi & E1 & E2 & B1 & B2)
           end
       end.
  all: eexists; exists lo, hi; do 2 eexists;
    (split; [reflexivity|]);
    cbn [BitcoinPerformanceData.low24h BitcoinPerformanceData.high24h
         BitcoinPerformanceData.currentPrice BitcoinPerformanceData.previousPrice];
    repeat split; try eassumption; try reflexivity;
    first [apply B1 | apply B2].
Qed.

Lemma self_derived_range_witness :
  let net := Examples.quote 51000 1000 2 [30000; 50000; 51000]%Q in
  let w := mkWorld Home.initial [] 0 in
  exists p,
    Home.performanceData (cells (world (SelfDerived.fetchBitcoinData None true net w)))
      = Some p
    /\ BitcoinPerformanceData.low24h p = Fin 30000
    /\ BitcoinPerformanceData.high24h p = Fin 51000.
Proof.
  intros net w.
  destruct (@self_derived_range None true net w eq_refl)
    as (p & lo & hi & cur & prev & Hp & _).
  exists p. split; [exact Hp|]. inversion Hp. split; reflexivity.
Defined.

(* ================================================================== *)
(** * The yearly performance *)

Lemma geb_Fin_zero (x : Q) : Display.geb (Fin x) (Fin 0) = true <-> (0 <= x)%Q.
Proof.
  unfold Display.geb. rewrite negb_true_iff. split.
  - intros H. apply Qnot_lt_le. intros C. apply ltb_Fin in C. congruence.
  - intros H. destruct (JS.ltb (Fin x) (Fin 0)) eqn:E; [|reflexivity].
    apply ltb_Fin in E. exfalso. exact (Qlt_not_le _ _ E H).
Qed.

Lemma yearly_facts (cur ago : Q) :
  let yc := (Fin cur - Fin ago)%js in
  let ycp := ((yc / Fin ago) * Fin 100)%js in
  yc =n= Fin (cur - ago)
  /\ (~ (ago == 0)%Q -> ycp =n= Fin ((cur - ago) / ago * 100))
  /\ ((ago == 0)%Q -> is_finite ycp = false)
  /\ (Display.geb yc (Fin 0) = true <-> (ago <= cur)%Q).
Proof.
  intros yc ycp. subst yc ycp.
  unfold JS.sub, JS.add, JS.neg. split; [cbn; apply Qeq_refl|]. split; [|split].
  - intros N. apply Qis_zero_false in N. unfold JS.div. rewrite N. cbn.
    apply Qeq_refl.
  - intros Z. apply percent_of_zero_not_finite. exact Z.
  - rewrite geb_Fin_zero. split; intros H.
    + apply Qplus_le_l with (z := (- ago)%Q). rewrite Qplus_opp_r. exact H.
    + apply Qplus_le_l with (z := (- ago)%Q) in H. rewrite Qplus_opp_r in H. exact H.
Qed.

(** X14.  In both strategies the price of a year ago is the oldest
    point of the 365-day series, the yearly change is the current price
    minus it, and the yearly percent is that change over it times 100:
    a finite number unless the oldest point is priced 0.  The colour of
    the yearly line is green exactly when the current price is not
    below the oldest one. *)
Theorem yearly_performance :
  forall fetch body,
    (fetch = Detailed.fetchBitcoinData /\ body = Detailed.body)
    \/ (fetch = SelfDerived.fetchBitcoinData /\ body = SelfDerived.body) ->
    forall price i net w,
      out (body price i net w) = Normal tt ->
      exists p h t0 ago rest cur,
        market_chart net D365 = Resolves h
        /\ prices h = Some ((t0, ago) :: rest)
        /\ Home.performanceData (cells (world (fetch price i net w))) = Some p
        /\ BitcoinPerformanceData.currentPrice p = Fin cur
        /\ BitcoinPerformanceData.priceOneYearAgo p = Fin ago
        /\ BitcoinPerformanceData.yearlyChange p =n= Fin (cur - ago)
        /\ (~ (ago == 0)%Q ->
            BitcoinPerformanceData.yearlyChangePercent p
            =n= Fin ((cur - ago) / ago * 100))
        /\ ((ago == 0)%Q ->
            is_finite (BitcoinPerformanceData.yearlyChangePercent p) = false)
        /\ (Display.getYearlyChangeColor (Some p) = Some green <-> (ago <= cur)%Q).
Proof.
  intros fetch body [[-> ->]|[-> ->]] price i net w.
  - run_cases; intros H; try discriminate H.
    all: do 6 eexists; (split; [reflexivity|]); (split; [eassumption|]);
      (split; [reflexivity|]); unfold Detailed.snapshot;
      cbn [BitcoinPerformanceData.currentPrice BitcoinPerformanceData.priceOneYearAgo
           BitcoinPerformanceData.yearlyChange BitcoinPerformanceData.yearlyChangePercent
           Display.getYearlyChangeColor];
      (split; [reflexivity|]); (split; [reflexivity|]);
      match goal with
      | |- context [(Fin ?c - Fin ?a)%js] =>
          destruct (yearly_facts c a) as (Y1 & Y2 & Y3 & Y4)
      end;
      (split; [exact Y1|]); (split; [exact Y2|]); (split; [exact Y3|]);
      rewrite <- Y4;
      match goal with
      | |- context [Display.geb ?a ?b] => destruct (Display.geb a b)
      end; split; intros E; try reflexivity; try discriminate E; inversion E.
  - run_cases; intros H; try discriminate H.
    all: match goal with
         | Hz : js_index (?p :: _) 0 = Some ?q |- _ =>
             assert (q = p) by (unfold js_index in Hz; cbn in Hz; congruence); subst q;
             destruct p as [t0 ago]
         end.
    all: do 6 eexists; (split; [reflexivity|]); (split; [eassumption|]);
      (split; [reflexivity|]);
      cbn [BitcoinPerformanceData.currentPrice BitcoinPerformanceData.priceOneYearAgo
           BitcoinPerformanceData.yearlyChange BitcoinPerformanceData.yearlyChangePercent
           Display.getYearlyChangeColor snd];
      (split; [reflexivity|]); (split; [reflexivity|]);
      match goal with
      | |- context [(Fin ?c - Fin ?a)%js] =>
          destruct (yearly_facts c a) as (Y1 & Y2 & Y3 & Y4)
      end;
      (split; [exact Y1|]); (split; [exact Y2|]); (split; [exact Y3|]);
      rewrite <- Y4;
      match goal with
      | |- context [Display.geb ?a ?b] => destruct (Display.geb a b)
      end; split; intros E; try reflexivity; try discriminate E; inversion E.
Qed.

Lemma yearly_performance_witness :
  let net := Examples.quote 60000 1000 2 [30000; 59000; 60000]%Q in
  let w := mkWorld Home.initial [] 0 in
  exists p,
    Home.performanceData (cells (world (SelfDerived.fetchBitcoinData None true net w)))
      = Some p
    /\ BitcoinPerformanceData.yearlyChange p =n= Fin 30000
    /\ BitcoinPerformanceData.yearlyChangePercent p =n= Fin 100
    /\ Display.getYearlyChangeColor (Some p) = Some green.
Proof.
  intros net w.
  destruct (@yearly_performance SelfDerived.fetchBitcoinData SelfDerived.body
              (or_intror (conj eq_refl eq_refl)) None true net w eq_refl)
    as (p & h & t0 & ago & rest & cur & Hh & Hp & Hd & Hc & Ha & Y1 & Y2 & _ & Y4).
  exists p. inversion Hh; subst h. inversion Hp; subst t0 ago rest.
  inversion Hd; subst p. inversion Hc; subst cur.
  split; [reflexivity|]. split; [vm_compute; reflexivity|].
  split; [vm_compute; reflexivity|].
  apply Y4. intros F. discriminate F.
Defined.

(* ================================================================== *)
(** * The dates the equity cycle reads *)

(** X15.  The equity cycle reads the first date of the series as the
    latest trading day and the second as the day before: the price is
    the close of the first entry, and the change is measured from the
    close of the second entry, or from the open of the first when the
    series has a single date. *)
Theorem equity_reads_first_two_dates :
  forall previousPrice i net w data meta d1 b1 rest,
    alpha_vantage net = Resolves data ->
    Error_Message data = None -> Note data = None ->
    Meta_Data data = Some meta ->
    Time_Series_Daily data = Some ((d1, b1) :: rest) ->
    match rest with (d2, _) :: _ => d2 <> d1 | [] => True end ->
    exists m,
      Strategy.mstrData
        (cells (world (Strategy.fetchMSTRData previousPrice i net w))) = Some m
      /\ MSTRData.price m = Parse.parseFloat (bar_close b1)
      /\ MSTRData.open m = Parse.parseFloat (bar_open b1)
      /\ MSTRData.high m = Parse.parseFloat (bar_high b1)
      /\ MSTRData.low m = Parse.parseFloat (bar_low b1)
      /\ MSTRData.volume m = bar_volume b1
      /\ MSTRData.symbol m = meta_symbol meta
      /\ MSTRData.lastRefreshed m = meta_last_refreshed meta
      /\ MSTRData.priceChange m
         = (MSTRData.price m
            - Parse.parseFloat (match rest with
                                | (_, b2) :: _ => bar_close b2
                                | [] => bar_open b1
                                end))%js.
Proof.
  intros pp i net w data meta d1 b1 rest Ha He Hn Hm Ht Hd.
  run_defs. rewrite Ha. cbn. rewrite He, Hn, Ht.
  unfold Object_keys. cbn [map fst].
  change (js_index (d1 :: map fst rest) 0) with (Some d1).
  assert (K1 : get_key ((d1, b1) :: rest) (Some d1) = Some b1).
  { unfold get_key. cbn. rewrite String.eqb_refl. reflexivity. }
  rewrite K1.
  destruct rest as [|[d2 b2] rest'].
  - change (js_index (d1 :: map fst []) 1) with (@None string).
    change (get_key [(d1, b1)] None) with (@None DailyBar).
    cbn. rewrite Hm.
    destruct i, pp as [p|]; cbn;
      repeat (break_one; cbn); eexists; repeat split; reflexivity.
  - change (js_index (d1 :: map fst ((d2, b2) :: rest')) 1) with (Some d2).
    assert (K2 : get_key ((d1, b1) :: (d2, b2) :: rest') (Some d2) = Some b2).
    { unfold get_key. cbn. apply String.eqb_neq in Hd.
      rewrite String.eqb_sym in Hd. rewrite Hd, String.eqb_refl. reflexivity. }
    rewrite K2. cbn. rewrite Hm.
    destruct i, pp as [p|]; cbn;
      repeat (break_one; cbn); eexists; repeat split; reflexivity.
Qed.

Lemma equity_reads_first_two_dates_witness :
  exists m,
    Strategy.mstrData
      (cells (world (Strategy.fetchMSTRData None true (Examples.equity "650.00")
                       (mkWorld Strategy.initial [] 0)))) = Some m
    /\ MSTRData.price m = Fin 650
    /\ MSTRData.priceChange m = (Fin 650 - Fin 600)%js.
Proof.
  destruct (@equity_reads_first_two_dates None true (Examples.equity "650.00")
              (mkWorld Strategy.initial [] 0) _ _ _ _ _
              eq_refl eq_refl eq_refl eq_refl eq_refl)
    as (m & Hm & Hp & _ & _ & _ & _ & _ & _ & Hc).
  - cbn. discriminate.
  - exists m. split; [exact Hm|]. split; [exact Hp|].
    rewrite Hc, Hp. reflexivity.
Defined.

(* ================================================================== *)
(** * The two fetches of the screen with the chart *)

Lemma chart_fetch_world (interval : TimeInterval) (net : Network) (w : World Home.State) :
  Chart.fetchChartData interval net w
  = mkResult (Normal tt) (with_chart (chart_of interval net) false w)
             (log (Chart.fetchChartData interval net w)).
Proof.
  unfold chart_of, with_chart.
  destruct w as [[p pp ld lu pc pd er cd0 si cl] tm ck].
  destruct interval; chart_cases; reflexivity.
Qed.

Lemma detailed_frame (price : option number) (i : bool) (net : Network)
    (w : World Home.State) (cd : option ChartData.t) (cl : bool) :
  Detailed.fetchBitcoinData price i net (with_chart cd cl w)
  = mkResult (Normal tt)
             (with_chart cd cl (world (Detailed.fetchBitcoinData price i net w)))
             (log (Detailed.fetchBitcoinData price i net w)).
Proof.
  unfold with_chart.
  destruct w as [[p pp ld lu pc pd er cd0 si cl0] tm ck].
  run_cases; reflexivity.
Qed.

Lemma with_chart_id (w : World Home.State) :
  with_chart (Home.chartData (cells w)) (Home.chartLoading (cells w)) w = w.
Proof. destruct w as [[p pp ld lu pc pd er cd0 si cl0] tm ck]. reflexivity. Qed.

Lemma with_chart_twice (a b : option ChartData.t) (x y : bool) (w : World Home.State) :
  with_chart a x (with_chart b y w) = with_chart a x w.
Proof. destruct w as [[p pp ld lu pc pd er cd0 si cl0] tm ck]. reflexivity. Qed.

Lemma detailed_total (price : option number) (i : bool) (net : Network)
    (w : World Home.State) :
  Detailed.fetchBitcoinData price i net w
  = mkResult (Normal tt) (world (Detailed.fetchBitcoinData price i net w))
             (log (Detailed.fetchBitcoinData price i net w)).
Proof.
  destruct w as [[p pp ld lu pc pd er cd0 si cl0] tm ck].
  run_cases; reflexivity.
Qed.

(** X16.  The price fetch and the chart fetch write different cells:
    run one after the other in either order they end normally in the
    same world, which is the world of the price fetch with the chart
    cell set by the chart fetch. *)
Theorem fetches_commute :
  forall price i interval net w,
    let A := Detailed.fetchBitcoinData price i in
    let B := Chart.fetchChartData interval in
    let ab := (A ;;; B) net w in
    let ba := (B ;;; A) net w in
    out ab = Normal tt /\ out ba = Normal tt
    /\ world ab = world ba
    /\ world ab = with_chart (chart_of interval net) false (world (A net w)).
Proof.
  intros price i interval net w A B ab ba. subst ab ba A B.
  unfold bind.
  rewrite (chart_fetch_world interval net w).
  rewrite (detailed_frame price i net w).
  rewrite (detailed_total price i net w).
  rewrite (chart_fetch_world interval net _).
  cbn. repeat split.
Qed.

Lemma detailed_requests (price : option number) (i : bool) (net : Network)
    (w : World Home.State) :
  forall e, In e (requests (log (Detailed.fetchBitcoinData price i net w))) ->
            e = CoinGeckoCoin \/ e = CoinGeckoMarketChart D365.
Proof.
  run_cases; intros e' H; cbn in H; intuition.
Qed.

Lemma chart_requests_1D (net : Network) (w : World Home.State) :
  let rq := requests (log (Chart.fetchChartData I1D net w)) in
  In GeminiTicker rq
  /\ forall e, In e rq -> e = GeminiTicker \/ e = CoinGeckoMarketChart D1.
Proof.
  chart_cases; rewrite ?requests_app, ?requests_parseFloat; cbn;
    (split; [auto|]); intros e' H; intuition.
Qed.

Lemma detailed_keeps_selection (price : option number) (i : bool) (net : Network)
    (w : World Home.State) :
  Home.selectedInterval (cells (world (Detailed.fetchBitcoinData price i net w)))
  = Home.selectedInterval (cells w).
Proof. run_cases; reflexivity. Qed.

(** X17.  A tick of the refresh interval fetches the chart of the 1D
    span whatever span is selected: after the user has selected a span
    and its chart is shown, the next tick asks Gemini (and CoinGecko
    for days=1 or for the 365-day series only), leaves the selection as
    it is, and replaces the chart by the 1D one. *)
Theorem refresh_ignores_selection :
  forall interval net1 net2 w,
    let w1 := world (ChartScreen.select interval net1 w) in
    let r := ChartScreen.tick net2 w1 in
    Home.selectedInterval (cells w1) = interval
    /\ Home.chartData (cells w1) = chart_of interval net1
    /\ Home.selectedInterval (cells (world r)) = interval
    /\ Home.chartData (cells (world r)) = chart_of I1D net2
    /\ In GeminiTicker (requests (log r))
    /\ (forall d, In (CoinGeckoMarketChart d) (requests (log r)) -> d = D365 \/ d = D1).
Proof.
  intros interval net1 net2 w w1 r. subst r w1.
  unfold ChartScreen.select, ChartScreen.tick. unfold bind.
  rewrite (chart_fetch_world interval net1 _). cbn [world].
  set (w1 := with_chart (chart_of interval net1) false _).
  assert (S1 : Home.selectedInterval (cells w1) = interval)
    by (destruct w as [[p pp ld lu pc pd er cd0 si cl0] tm ck]; reflexivity).
  assert (C1 : Home.chartData (cells w1) = chart_of interval net1)
    by (destruct w as [[p pp ld lu pc pd er cd0 si cl0] tm ck]; reflexivity).
  rewrite (detailed_total _ false net2 w1).
  pose proof (@detailed_keeps_selection (Home.price Home.initial) false net2 w1) as S2.
  pose proof (@detailed_requests (Home.price Home.initial) false net2 w1) as D.
  set (ra := Detailed.fetchBitcoinData (Home.price Home.initial) false net2 w1) in *.
  rewrite (chart_fetch_world _ net2 (world ra)).
  cbn [world log out].
  pose proof (chart_requests_1D net2 (world ra)) as [G1 G2].
  split; [exact S1|]. split; [exact C1|]. split; [|split; [|split]].
  - rewrite <- S1, <- S2.
    destruct (world ra) as [[p pp ld lu pc pd er cd0 si cl0] tm ck]. reflexivity.
  - destruct (world ra) as [[p pp ld lu pc pd er cd0 si cl0] tm ck]. reflexivity.
  - rewrite requests_app. apply in_or_app. right. exact G1.
  - intros d H. rewrite requests_app in H. apply in_app_or in H.
    destruct H as [H|H].
    + apply D in H. destruct H as [H|H]; [discriminate H | inversion H; auto].
    + apply G2 in H. destruct H as [H|H]; [discriminate H | inversion H; auto].
Qed.

Lemma refresh_ignores_selection_witness :
  let week := Examples.gemini_down (map inject_Z (map Z.of_nat (seq 1 25))) in
  let later := Examples.gemini_day [41000; 42000]%Q in
  let w1 := world (ChartScreen.select I1W week (mkWorld Home.initial [] 0)) in
  let r := ChartScreen.tick later w1 in
  Home.selectedInterval (cells (world r)) = I1W
  /\ option_map ChartData.data (Home.chartData (cells (world r)))
     = Some [Fin (164001 # 4); Fin 42000; Fin (86001 # 2)].
Proof.
  intros week later w1 r.
  destruct (@refresh_ignores_selection I1W week later (mkWorld Home.initial [] 0))
    as (_ & _ & H3 & H4 & _).
  split; [exact H3|]. unfold r, w1. rewrite H4. reflexivity.
Defined.

(* ================================================================== *)
(** * What the screen shows after a cycle *)

Lemma error_after_cycle (price : option number) (i : bool) (net : Network)
    (w : World Home.State) :
  Home.error (cells (world (Detailed.fetchBitcoinData price i net w)))
  = match out (Detailed.body price i net w) with
    | Normal _ => None
    | Throws e => Some (message_of e)
    end.
Proof. run_cases; reflexivity. Qed.

(** X18.  After a cycle the error panel replaces the screen exactly
    when the cycle failed with a non-empty message, and it shows that
    message; after a successful cycle, whatever the error before it,
    and after a failure whose message is empty, the screen itself is
    shown. *)
Theorem error_panel_iff_failed :
  forall price i net w,
    let r := Detailed.fetchBitcoinData price i net w in
    (forall m, Chart.render (cells (world r)) = Chart.ErrorPanel m
               <-> exists e, out (Detailed.body price i net w) = Throws e
                             /\ message_of e = m /\ m <> "")
    /\ (out (Detailed.body price i net w) = Normal tt ->
        Chart.render (cells (world r))
        = Chart.Screen (Chart.content_of (cells (world r)))
                       (Chart.renderChart (cells (world r)))).
Proof.
  intros price i net w r. subst r.
  pose proof (error_after_cycle price i net w) as E.
  set (s := cells (world (Detailed.fetchBitcoinData price i net w))) in *.
  unfold Chart.render. rewrite E. clear E.
  destruct (out (Detailed.body price i net w)) as [[]|e].
  - split; [|reflexivity]. intros m. split.
    + intros H. discriminate H.
    + intros (e & H & _). discriminate H.
  - split; [|intros H; discriminate H]. intros m. split.
    + destruct (message_of e) as [|c t] eqn:M; intros H; [discriminate H|].
      inversion H; subst m. exists e. rewrite M. repeat split. discriminate.
    + intros (e' & H & M & N). inversion H; subst e'. rewrite M.
      destruct m as [|c t]; [congruence | reflexivity].
Qed.

Lemma error_panel_iff_failed_witness :
  let w := mkWorld (Examples.held 50000) [] 120000 in
  let r := Detailed.fetchBitcoinData (Some (Fin 50000)) false Examples.offline w in
  Chart.render (cells (world r)) = Chart.ErrorPanel "Network request failed"
  /\ Home.price (cells (world r)) = Some (Fin 50000).
Proof.
  intros w r. split; [|reflexivity].
  apply (proj1 (@error_panel_iff_failed (Some (Fin 50000)) false Examples.offline w)).
  exists Examples.unreachable. repeat split. discriminate.
Defined.

(* ================================================================== *)
(** * The numbers the screens display *)

Lemma geb_Fin (x c : Q) : Display.geb (Fin x) (Fin c) = true <-> (c <= x)%Q.
Proof.
  unfold Display.geb. rewrite negb_true_iff. split.
  - intros H. apply Qnot_lt_le. intros C. apply ltb_Fin in C. congruence.
  - intros H. destruct (JS.ltb (Fin x) (Fin c)) eqn:E; [|reflexivity].
    apply ltb_Fin in E. exfalso. exact (Qlt_not_le _ _ E H).
Qed.

Lemma geb_Fin_false (x c : Q) : Display.geb (Fin x) (Fin c) = false <-> (x < c)%Q.
Proof.
  split.
  - intros H. apply Qnot_le_lt. intros C. apply geb_Fin in C. congruence.
  - intros H. destruct (Display.geb (Fin x) (Fin c)) eqn:E; [|reflexivity].
    apply geb_Fin in E. exfalso. exact (Qlt_not_le _ _ H E).
Qed.

Lemma div_Fin_pos (x c : Q) : (0 < c)%Q -> (Fin x / Fin c)%js = Fin (x / c).
Proof.
  intros Hc. unfold JS.div.
  assert (Z : Qis_zero c = false).
  { apply Qis_zero_false. intros E. rewrite E in Hc. exact (Qlt_irrefl _ Hc). }
  rewrite Z. reflexivity.
Qed.

(** The mantissa of a number scaled by a positive unit. *)
Lemma scaled_mantissa (x c : Q) :
  (0 < c)%Q -> (c <= x)%Q ->
  (x / c * c == x)%Q /\ (1 <= x / c)%Q
  /\ forall b, (x < b * c)%Q -> (x / c < b)%Q.
Proof.
  intros Hc Hx.
  assert (N : ~ (c == 0)%Q) by (intros E; rewrite E in Hc; exact (Qlt_irrefl _ Hc)).
  split; [field; exact N|]. split.
  - apply Qle_shift_div_l; [exact Hc|]. rewrite Qmult_1_l. exact Hx.
  - intros b Hb. apply Qlt_shift_div_r; assumption.
Qed.

(** X19.  [formatLargeNumber] and [formatVolume] scale a number of at
    least 1000 by the greatest of their units that it reaches (K, M, B,
    T for the first, with 1, 1, 2, 2 decimals; K and M for the second):
    mantissa times unit is the number, the mantissa is at least 1, and
    it is below 1000 unless the number passes the last unit a thousand
    times.  A number below 1000, a negative one included, is shown
    unscaled, and so is NaN, which is what a volume without a leading
    digit parses to. *)
Theorem display_scaling :
  (forall x : Q,
      ((x < 1000)%Q ->
       Display.formatLargeNumber (Fin x) = Display.mkScaled (Fin x) 0 "")
      /\ ((1000 <= x)%Q ->
          exists m unit dec sfx,
            Display.formatLargeNumber (Fin x) = Display.mkScaled (Fin m) dec sfx
            /\ In (unit, dec, sfx)
                  [(1000%Q, 1%nat, "K"); (1000000%Q, 1%nat, "M");
                   (1000000000%Q, 2%nat, "B"); (1000000000000%Q, 2%nat, "T")]
            /\ (m * unit == x)%Q /\ (1 <= m)%Q
            /\ ((x < 1000000000000000)%Q -> (m < 1000)%Q)))
  /\ Display.formatLargeNumber NaN = Display.mkScaled NaN 0 ""
  /\ (forall volume x,
      ParseInt.parseInt volume = Fin x ->
      ((x < 1000)%Q -> StrategyDisplay.formatVolume volume = StrategyDisplay.Plain (Fin x))
      /\ ((1000 <= x)%Q ->
          exists m unit sfx,
            StrategyDisplay.formatVolume volume
            = StrategyDisplay.Scaled (Display.mkScaled (Fin m) 1 sfx)
            /\ In (unit, sfx) [(1000%Q, "K"); (1000000%Q, "M")]
            /\ (m * unit == x)%Q /\ (1 <= m)%Q
            /\ ((x < 1000000000)%Q -> (m < 1000)%Q)))
  /\ (forall volume,
      ParseInt.parseInt volume = NaN ->
      StrategyDisplay.formatVolume volume = StrategyDisplay.Plain NaN).
Proof.
  split; [|split; [reflexivity|split]].
  - intros x. unfold Display.formatLargeNumber. split.
    + intros H.
      assert (G : forall c, (1000 <= c)%Q -> Display.geb (Fin x) (Fin c) = false).
      { intros c Hc. apply geb_Fin_false. eapply Qlt_le_trans; eassumption. }
      rewrite !G; [reflexivity | | | |]; discriminate.
    + intros H.
      destruct (Display.geb (Fin x) (Fin 1000000000000)) eqn:T;
        [|destruct (Display.geb (Fin x) (Fin 1000000000)) eqn:B;
          [|destruct (Display.geb (Fin x) (Fin 1000000)) eqn:M;
            [|destruct (Display.geb (Fin x) (Fin 1000)) eqn:K]]].
      * apply geb_Fin in T.
        destruct (@scaled_mantissa x 1000000000000 eq_refl T) as (S1 & S2 & S3).
        rewrite div_Fin_pos by reflexivity.
        do 4 eexists. split; [reflexivity|]. split; [cbn; auto 10|].
        repeat split; [exact S1 | exact S2 | intros L; apply S3; exact L].
      * apply geb_Fin in B. apply geb_Fin_false in T.
        destruct (@scaled_mantissa x 1000000000 eq_refl B) as (S1 & S2 & S3).
        rewrite div_Fin_pos by reflexivity.
        do 4 eexists. split; [reflexivity|]. split; [cbn; auto 10|].
        repeat split; [exact S1 | exact S2 | intros _; apply S3; exact T].
      * apply geb_Fin in M. apply geb_Fin_false in B.
        destruct (@scaled_mantissa x 1000000 eq_refl M) as (S1 & S2 & S3).
        rewrite div_Fin_pos by reflexivity.
        do 4 eexists. split; [reflexivity|]. split; [cbn; auto 10|].
        repeat split; [exact S1 | exact S2 | intros _; apply S3; exact B].
      * apply geb_Fin in K. apply geb_Fin_false in M.
        destruct (@scaled_mantissa x 1000 eq_refl K) as (S1 & S2 & S3).
        rewrite div_Fin_pos by reflexivity.
        do 4 eexists. split; [reflexivity|]. split; [cbn; auto 10|].
        repeat split; [exact S1 | exact S2 | intros _; apply S3; exact M].
      * apply geb_Fin_false in K. exfalso. exact (Qlt_not_le _ _ K H).
  - intros volume x P. unfold StrategyDisplay.formatVolume. rewrite P. split.
    + intros H.
      assert (G : forall c, (1000 <= c)%Q -> Display.geb (Fin x) (Fin c) = false).
      { intros c Hc. apply geb_Fin_false. eapply Qlt_le_trans; eassumption. }
      rewrite !G; [reflexivity | |]; discriminate.
    + intros H.
      destruct (Display.geb (Fin x) (Fin 1000000)) eqn:M;
        [|destruct (Display.geb (Fin x) (Fin 1000)) eqn:K].
      * apply geb_Fin in M.
        destruct (@scaled_mantissa x 1000000 eq_refl M) as (S1 & S2 & S3).
        rewrite div_Fin_pos by reflexivity.
        do 3 eexists. split; [reflexivity|]. split; [cbn; auto|].
        repeat split; [exact S1 | exact S2 | intros L; apply S3; exact L].
      * apply geb_Fin in K. apply geb_Fin_false in M.
        destruct (@scaled_mantissa x 1000 eq_refl K) as (S1 & S2 & S3).
        rewrite div_Fin_pos by reflexivity.
        do 3 eexists. split; [reflexivity|]. split; [cbn; auto|].
        repeat split; [exact S1 | exact S2 | intros _; apply S3; exact M].
      * apply geb_Fin_false in K. exfalso. exact (Qlt_not_le _ _ K H).
  - intros volume P. unfold StrategyDisplay.formatVolume. rewrite P. reflexivity.
Qed.

Lemma display_scaling_witness :
  StrategyDisplay.formatVolume "1000000"
  = StrategyDisplay.Scaled (Display.mkScaled (Fin 1000000 / Fin 1000000)%js 1 "M")
  /\ StrategyDisplay.formatVolume "n/a" = StrategyDisplay.Plain NaN
  /\ exists m, Display.formatLargeNumber (Fin 1234567) = Display.mkScaled (Fin m) 1 "M"
               /\ (m < 1000)%Q.
Proof.
  split; [reflexivity|]. split.
  - apply (proj2 (proj2 (proj2 display_scaling))). reflexivity.
  - destruct (proj2 (proj1 display_scaling 1234567%Q)) as (m & u & d & s & E & _ & _ & _ & L).
    + discriminate.
    + vm_compute in E. inversion E; subst. eexists. split; [reflexivity|].
      vm_compute. reflexivity.
Defined.

Lemma ltb_Fin_false (x y : Q) : JS.ltb (Fin x) (Fin y) = false <-> (y <= x)%Q.
Proof.
  split.
  - intros H. apply Qnot_lt_le. intros C. apply ltb_Fin in C. congruence.
  - intros H. destruct (JS.ltb (Fin x) (Fin y)) eqn:E; [|reflexivity].
    apply ltb_Fin in E. exfalso. exact (Qlt_not_le _ _ E H).
Qed.

(** The greater of a finite size and 32. *)
Lemma floor_32 (a : Q) :
  exists s, JS.Math_max [Fin a; Fin 32] = Fin s
            /\ (32 <= s)%Q /\ ((s == 32)%Q \/ s = a).
Proof.
  unfold JS.Math_max. cbn [fold_left].
  change (JS.max2 NegInf (Fin a)) with (Fin a). unfold JS.max2.
  destruct (JS.ltb (Fin a) (Fin 32)) eqn:L.
  - exists 32%Q. repeat split; [apply Qle_refl | left; apply Qeq_refl].
  - exists a. apply ltb_Fin_false in L. repeat split; [exact L | right; reflexivity].
Qed.

(** X20.  The size of the price line.  When no price is shown ('N/A':
    the price is null, 0 or NaN) the size is 48.  Otherwise, on a
    screen of positive width, it is a finite number, never below 32:
    either 32 itself or at most 12% of the width and, for a non-empty
    text, at most the width over 0.6 times the number of characters. *)
Theorem price_font_size :
  forall (formatPrice : number -> string) (w : Q) (price : option number),
    (Display.price_text price = Display.NotAvailable ->
     Display.getPriceFontSize formatPrice (Fin w) price = Fin 48)
    /\ (forall p,
        Display.price_text price = Display.Price p -> (0 < w)%Q ->
        exists s,
          Display.getPriceFontSize formatPrice (Fin w) price = Fin s
          /\ (32 <= s)%Q
          /\ ((s == 32)%Q
              \/ ((s <= w * (12 # 100))%Q
                  /\ forall n, String.length (formatPrice p) = S n ->
                               (s <= w / (inject_Z (Z.of_nat (S n)) * (6 # 10)))%Q))).
Proof.
  intros formatPrice w price. unfold Display.price_text, Display.getPriceFontSize.
  destruct price as [p|]; [|split; [reflexivity | intros p H; discriminate H]].
  destruct (Display.truthy p) eqn:T; split; try reflexivity; try discriminate.
  intros p' H Hw. inversion H; subst p'. clear H.
  unfold JS.mul at 1. unfold JS.mul at 1.
  destruct (String.length (formatPrice p)) as [|n] eqn:Len.
  - (* an empty text: the quotient is infinite and the base size decides *)
    assert (D : (Fin w / Fin (inject_Z (Z.of_nat 0) * (6 # 10)))%js = PosInf).
    { unfold JS.div. change (Qis_zero (inject_Z (Z.of_nat 0) * (6 # 10))) with true.
      assert (Z : Qis_zero w = false).
      { apply Qis_zero_false. intros E. rewrite E in Hw. exact (Qlt_irrefl _ Hw). }
      assert (P : Qsgn_pos w = true)
        by (apply Qle_bool_iff, Qlt_le_weak; exact Hw).
      rewrite Z, P. reflexivity. }
    rewrite D.
    change (JS.Math_min [Fin (w * (12 # 100)); PosInf]) with (Fin (w * (12 # 100))).
    destruct (floor_32 (w * (12 # 100))) as (s & E & B & [S|S]).
    + exists s. repeat split; [exact E | exact B | left; exact S].
    + exists s. repeat split; [exact E | exact B |]. right. split.
      * rewrite S. apply Qle_refl.
      * intros n H. discriminate H.
  - set (d := (inject_Z (Z.of_nat (S n)) * (6 # 10))%Q).
    assert (Hd : (0 < d)%Q).
    { unfold d. apply Qmult_lt_0_compat; [|reflexivity].
      unfold Qlt. cbn. lia. }
    rewrite (div_Fin_pos w Hd).
    assert (M : exists a, JS.Math_min [Fin (w * (12 # 100)); Fin (w / d)] = Fin a
                          /\ (a <= w * (12 # 100))%Q /\ (a <= w / d)%Q).
    { unfold JS.Math_min. cbn [fold_left].
      change (JS.min2 PosInf (Fin (w * (12 # 100)))) with (Fin (w * (12 # 100))).
      unfold JS.min2. destruct (JS.ltb (Fin (w / d)) (Fin (w * (12 # 100)))) eqn:L.
      - apply ltb_Fin in L. eexists. repeat split;
          [apply Qlt_le_weak; exact L | apply Qle_refl].
      - apply ltb_Fin_false in L. eexists. repeat split; [apply Qle_refl | exact L]. }
    destruct M as (a & Ea & A1 & A2). rewrite Ea.
    destruct (floor_32 a) as (s & E & B & [S|S]).
    + exists s. repeat split; [exact E | exact B | left; exact S].
    + exists s. repeat split; [exact E | exact B |]. right. subst s. split; [exact A1|].
      intros n' H. inversion H; subst n'. exact A2.
Qed.

Lemma price_font_size_witness :
  let formatPrice := fun _ : number => "$51,000.00" in
  Display.getPriceFontSize formatPrice (Fin 390) (Some (Fin 0)) = Fin 48
  /\ exists s,
      Display.getPriceFontSize formatPrice (Fin 390) (Some (Fin 51000)) = Fin s
      /\ (32 <= s)%Q.
Proof.
  intros formatPrice. split.
  - apply (proj1 (price_font_size formatPrice 390 (Some (Fin 0)))). reflexivity.
  - destruct (proj2 (price_font_size formatPrice 390 (Some (Fin 51000)))
                (Fin 51000) eq_refl eq_refl) as (s & E & B & _).
    exists s. split; assumption.
Defined.

(* ================================================================== *)
(** * When a chart is available *)

Lemma last_cons_default (A : Type) (l : list A) (y d d' : A) :
  last (y :: l) d = last (y :: l) d'.
Proof.
  revert y. induction l as [|z r IH]; intros y; [reflexivity|].
  change (last (z :: r) d = last (z :: r) d'). apply IH.
Qed.

Lemma nth_error_last (A : Type) (l : list A) (x : A) :
  nth_error (x :: l) (List.length l) = Some (last l x).
Proof.
  revert x. induction l as [|y r IH]; intros x; [reflexivity|].
  cbn [List.length nth_error]. rewrite IH. f_equal.
  destruct r as [|z r']; [reflexivity|].
  change (last (z :: r') y = last (z :: r') x). apply last_cons_default.
Qed.

Lemma js_index_first (A : Type) (x : A) (l : list A) : js_index (x :: l) 0 = Some x.
Proof. reflexivity. Qed.

Lemma js_index_last (A : Type) (x : A) (l : list A) :
  js_index (x :: l) (Z.of_nat (List.length (x :: l)) - 1) = Some (last l x).
Proof.
  unfold js_index. cbn [List.length].
  destruct (Z.ltb_spec (Z.of_nat (S (List.length l)) - 1) 0) as [N|N]; [lia|].
  replace (Z.to_nat (Z.of_nat (S (List.length l)) - 1)) with (List.length l) by lia.
  apply nth_error_last.
Qed.

(** X21.  A chart fetch leaves a series in the chart cell exactly when
    Gemini answered the 1D span with a non-empty [changes], or the
    CoinGecko series of the span arrived with at least one price point
    -- and, for the 1W span, with a first and a last timestamp in the
    range of a [Date]: that branch prints both as ISO strings before it
    samples, and printing a time out of range throws. *)
Theorem chart_available_iff :
  forall interval net w,
    Home.chartData (cells (world (Chart.fetchChartData interval net w))) <> None
    <-> (interval = I1D /\ ~ gemini_unusable (gemini_ticker net))
        \/ (exists h p ps,
             market_chart net (Chart.source_days interval) = Resolves h
             /\ prices h = Some (p :: ps)
             /\ (interval = I1W ->
                 Chart.valid_time (fst p) = true
                 /\ Chart.valid_time (fst (last ps p)) = true)).
Proof.
  intros interval net w. unfold gemini_unusable.
  destruct interval; chart_cases.
  all: repeat match goal with
       | H : js_index (?x :: ?l) 0 = _ |- _ =>
           rewrite js_index_first in H; inversion H; subst; clear H
       | H : js_index (?x :: ?l) (Z.of_nat (S (List.length ?l)) - 1) = _ |- _ =>
           change (S (List.length l)) with (List.length (x :: l)) in H;
           rewrite js_index_last in H; inversion H; subst; clear H
       end.
  all: split; [intros H | intros [[H1 H2]|(h & p' & ps' & Hh & Hp & Hv)]].
  all: try congruence.
  all: try solve [exfalso; apply H; reflexivity].
  all: try solve [right; do 3 eexists; split; [first [eassumption | reflexivity]|];
                  split; [eassumption|];
                  intros F; first [discriminate F | split; assumption]].
  all: try solve [left; split; [reflexivity|];
                  intros [[e' F]|[d' [F [C|C]]]];
                  [discriminate F | inversion F; subst; congruence ..]].
  all: try solve [exfalso; apply H2; first [left; eexists; reflexivity
                                            | right; eexists; split; [reflexivity|]; auto]].
  all: try (inversion Hh; subst h).
  all: repeat match goal with
       | H1 : ?x = Some _, H2 : ?x = Some _ |- _ =>
           rewrite H1 in H2; inversion H2; subst; clear H2
       end.
  all: try congruence.
  all: try solve [destruct (Hv eq_refl) as [V1 V2]; congruence].
Qed.

Lemma chart_available_iff_witness :
  let far := Build_Network (Rejects Examples.unreachable)
               (fun _ => Resolves (Build_BitcoinHistoricalData
                                     (Some [(inject_Z 1700000000000, 42000%Q);
                                            (inject_Z 9000000000000000, 43000%Q)])
                                     None None))
               (Rejects Examples.unreachable) (Rejects Examples.unreachable) in
  let w := mkWorld Home.initial [] 0 in
  Home.chartData (cells (world (Chart.fetchChartData I1W far w))) = None
  /\ Home.chartData (cells (world (Chart.fetchChartData I1M far w))) <> None.
Proof.
  intros far w. split; [reflexivity|].
  apply (proj2 (chart_available_iff I1M far w)). right.
  do 3 eexists. split; [reflexivity|]. split; [reflexivity|].
  intros F. discriminate F.
Defined.

(* ================================================================== *)
(** * The flash, as the function makes it *)

Lemma fire_clears (c0 : Home.State) (tm : list (timer Home.State)) (ck : Z) :
  Home.priceColor
    (cells (fire_due (ck + 2000)
              (mkWorld c0 (tm ++ [mkTimer (ck + 2000) (Home.with_priceColor None)])%list ck)))
  = None.
Proof.
  unfold fire_due. cbn [timers cells clock].
  rewrite filter_app, fold_left_app. cbn [filter due].
  rewrite Z.leb_refl. reflexivity.
Qed.

(** X22.  A call of [fetchBitcoinData] that holds a price and fetches a
    strictly different one sets the colour, green when the new price is
    above and red when it is below, and starts one timer, due 2000 ms
    after the cycle, whose firing puts the colour back to null. *)
Theorem flash_on_change :
  flashes Detailed.fetchBitcoinData Detailed.body
  /\ flashes SelfDerived.fetchBitcoinData SelfDerived.body.
Proof.
  unfold flashes. split; intros p i net w q.
  - destruct w as [c0 tm ck]. run_cases; intros S E N; try discriminate S;
      inversion E; subst q; try congruence;
      (split; [reflexivity|]); (split; [intros G; congruence || reflexivity|]);
      (split; [intros G B; congruence || reflexivity|]); apply fire_clears.
  - destruct w as [c0 tm ck]. run_cases; intros S E N; try discriminate S;
      inversion E; subst q; try congruence;
      (split; [reflexivity|]); (split; [intros G; congruence || reflexivity|]);
      (split; [intros G B; congruence || reflexivity|]); apply fire_clears.
Qed.

Lemma flash_on_change_witness :
  let net := Examples.quote 51000 1000 2 [30000; 50000; 51000]%Q in
  let w := mkWorld (Examples.held 50000) [] 120000 in
  let r := Detailed.fetchBitcoinData (Some (Fin 50000)) false net w in
  Home.priceColor (cells (world r)) = Some green
  /\ Home.priceColor (cells (fire_due 122000 (world r))) = None.
Proof.
  intros net w r.
  destruct (proj1 flash_on_change (Fin 50000) false net w (Fin 51000)
              eq_refl eq_refl eq_refl) as (_ & G & _ & C).
  split; [apply G; reflexivity | exact C].
Defined.

(* ================================================================== *)
(** * The first revision: a failure that nothing shows *)

Ltac simple_cases :=
  cbv [SimplePrice.fetchBitcoinPrice SimplePrice.body
       SimplePrice.setPrice SimplePrice.setPreviousPrice SimplePrice.setLoading
       SimplePrice.setLastUpdated SimplePrice.setPriceColor
       try_catch_finally try_finally try_catch bind ret throw emit set_cell
       setTimeout new_Date fetch_json console prop_of
       out world log cells timers clock] in *;
  repeat (break_one; cbn in *).

(** X23.  [fetchBitcoinPrice] has no error state.  When the request
    rejects or the payload has no [bitcoin] object the function ends
    normally, calls no setter but [setLoading], and leaves every cell
    but [loading] as it was, so the screen goes on showing the last
    price (or 'N/A' after a failed first load).  When the payload has
    the price, the price cell takes it, the previous-price cell takes
    the held price and the update time is the time of the cycle. *)
Theorem simple_price_cycle :
  forall price i net w,
    let r := SimplePrice.fetchBitcoinPrice price i net w in
    out r = Normal tt
    /\ SimplePrice.loading (cells (world r))
       = (if i then false else SimplePrice.loading (cells w))
    /\ ((forall usd, simple_price_of net <> Some usd) ->
        (forall c, In (EvSet c) (log r) -> c = CLoading)
        /\ timers (world r) = timers w
        /\ cells (world r)
           = SimplePrice.with_loading (SimplePrice.loading (cells (world r))) (cells w))
    /\ (forall usd,
          simple_price_of net = Some usd ->
          SimplePrice.price (cells (world r)) = Some (Fin usd)
          /\ SimplePrice.previousPrice (cells (world r)) = price
          /\ SimplePrice.lastUpdated (cells (world r)) = Some (clock w)).
Proof.
  intros price i net w. unfold simple_price_of.
  destruct w as [[p pp ld lu pc] tm ck].
  simple_cases.
  all: split; [reflexivity|]; split; [reflexivity|]; split.
  all: try solve [intros usd H; inversion H; subst; repeat split; reflexivity].
  all: try solve [intros usd H; discriminate H].
  all: try solve [intros H; exfalso; eapply H; reflexivity].
  all: intros _; (split; [intros c Hc; in_log; reflexivity|]); split; reflexivity.
Qed.

Lemma simple_price_cycle_witness :
  let down := SimplePrice.Build_Net (Rejects Examples.unreachable) in
  let up := SimplePrice.Build_Net (Resolves (SimplePrice.Build_BitcoinPrice (Some 51000%Q))) in
  let w := mkWorld SimplePrice.initial [] 30000 in
  cells (world (SimplePrice.fetchBitcoinPrice None true down w))
  = SimplePrice.with_loading false SimplePrice.initial
  /\ SimplePrice.price (cells (world (SimplePrice.fetchBitcoinPrice None true up w)))
     = Some (Fin 51000).
Proof.
  intros down up w. split.
  - destruct (simple_price_cycle None true down w) as (_ & L & F & _).
    destruct F as (_ & _ & C); [intros usd H; discriminate H|].
    rewrite C, L. reflexivity.
  - apply (proj2 (proj2 (proj2 (simple_price_cycle None true up w))) 51000%Q).
    reflexivity.
Defined.

(* ================================================================== *)
(** * The state of a session *)

Lemma fire_due_no_timers (S : Type) (t : Z) (w : World S) :
  timers w = [] -> cells (fire_due t w) = cells w /\ timers (fire_due t w) = [].
Proof. intros H. unfold fire_due. rewrite H. split; reflexivity. Qed.

(** An invariant of the worlds of a session is an invariant of its
    polls. *)
Lemma session_invariant (Net S : Type) (fetcher : S -> bool -> M Net S unit)
    (initial : S) (period : Z) (I : World S -> Prop) :
  (forall t0, I (mkWorld initial [] t0)) ->
  (forall i net t w, I w -> I (world (fetcher initial i net (fire_due t w)))) ->
  forall t0 nets r,
    In r (Component.session fetcher initial period t0 nets) -> I (world r).
Proof.
  intros I0 Istep.
  assert (T : forall nets t w r,
             I w -> In r (Component.ticks fetcher initial period t nets w) ->
             I (world r)).
  { induction nets as [|n rest IH]; intros t w r Hw H; [destruct H|].
    cbn in H. destruct H as [H|H].
    - subst r. apply Istep. exact Hw.
    - eapply IH; [|exact H]. apply Istep. exact Hw. }
  intros t0 nets r H. destruct nets as [|n rest]; [destruct H|].
  cbn in H. destruct H as [H|H].
  - subst r. apply Istep. apply I0.
  - eapply T; [|exact H]. apply Istep. apply I0.
Qed.

Lemma null_price_steps :
  (forall i net w,
      Home.previousPrice (cells w) = None /\ unflashed Home.priceColor w ->
      let r := Detailed.fetchBitcoinData None i net w in
      Home.previousPrice (cells (world r)) = None /\ unflashed Home.priceColor (world r))
  /\ (forall i net w,
      Home.previousPrice (cells w) = None /\ unflashed Home.priceColor w ->
      let r := SelfDerived.fetchBitcoinData None i net w in
      Home.previousPrice (cells (world r)) = None /\ unflashed Home.priceColor (world r))
  /\ (forall i net w,
      unflashed Strategy.priceColor w ->
      unflashed Strategy.priceColor (world (Strategy.fetchMSTRData None i net w))).
Proof.
  unfold unflashed. split; [|split]; intros i net [c0 tm ck];
    cbn [cells timers]; intros H; decompose [and] H; clear H; subst;
    run_cases; auto.
Qed.

(** X24.  Through a whole session of a screen -- the mount and any
    number of ticks, whatever the services answer -- the flash colour
    stays null and no one-shot timer is ever pending; on the Bitcoin
    screen the previous-price cell stays null as well: the function
    that polls holds the initial, null price, so it compares with
    nothing and records nothing. *)
Theorem session_stays_unflashed :
  (forall t0 nets r,
      In r (Component.index_tsx t0 nets) ->
      Home.previousPrice (cells (world r)) = None /\ unflashed Home.priceColor (world r))
  /\ (forall t0 nets r,
      In r (Component.self_derived t0 nets) ->
      Home.previousPrice (cells (world r)) = None /\ unflashed Home.priceColor (world r))
  /\ (forall t0 nets r,
      In r (Component.strategy_tsx t0 nets) -> unflashed Strategy.priceColor (world r)).
Proof.
  destruct null_price_steps as (D & S & E).
  split; [|split]; intros t0 nets r H.
  - revert t0 nets r H.
    apply (@session_invariant Network Home.State
             (fun r => Detailed.fetchBitcoinData (Home.price r)) Home.initial 120000
             (fun w => Home.previousPrice (cells w) = None
                       /\ unflashed Home.priceColor w)).
    + intros t0. repeat split.
    + intros i net t w (P & C & T). apply D.
      destruct (fire_due_no_timers t w T) as [F1 F2]. unfold unflashed.
      rewrite F1, F2. auto.
  - revert t0 nets r H.
    apply (@session_invariant Network Home.State
             (fun r => SelfDerived.fetchBitcoinData (Home.price r)) Home.initial 120000
             (fun w => Home.previousPrice (cells w) = None
                       /\ unflashed Home.priceColor w)).
    + intros t0. repeat split.
    + intros i net t w (P & C & T). apply S.
      destruct (fire_due_no_timers t w T) as [F1 F2]. unfold unflashed.
      rewrite F1, F2. auto.
  - revert t0 nets r H.
    apply (@session_invariant Network Strategy.State
             (fun r => Strategy.fetchMSTRData (Strategy.previousPrice r))
             Strategy.initial 300000 (unflashed Strategy.priceColor)).
    + intros t0. split; reflexivity.
    + intros i net t w (C & T). apply E.
      destruct (fire_due_no_timers t w T) as [F1 F2]. unfold unflashed.
      rewrite F1, F2. auto.
Qed.

Lemma session_stays_unflashed_witness :
  let nets := [Examples.quote 50000 1000 2 [30000; 49000; 50000]%Q;
               Examples.offline;
               Examples.quote 51000 1000 2 [30000; 50000; 51000]%Q] in
  List.length (Component.index_tsx 0 nets) = 3%nat
  /\ Forall (fun r => Home.priceColor (cells (world r)) = None /\ timers (world r) = [])
            (Component.index_tsx 0 nets).
Proof.
  intros nets. split; [reflexivity|].
  apply Forall_forall. intros r H.
  destruct (proj1 session_stays_unflashed 0 nets r H) as (_ & U). exact U.
Defined.
